(** * The ROOK health-data backend (server.js): cache-aside reads and
      merge-upserts, as a shallow embedding.

    The handlers of server.js are async functions over three collaborators:
    the axios instance [rookApi] (the upstream provider), the Prisma client
    (tables [User] and [HealthData] of the init migration) and the Express
    response object.  Each handler is embedded as a function from a [World]
    (the two tables plus the chronological trace of the calls issued so far)
    to the [Outcome] written to [res] and the world it leaves behind.
    Exceptions are values of [Exn]; [try ... catch] is [try_catch]. *)

From Stdlib Require Import ZArith QArith String Ascii List.
From stdpp Require Import base gmap strings list pretty.

Set Warnings "-register-all".
Local Open Scope string_scope.
Local Open Scope Z_scope.

(** ** JavaScript values *)

(** What JSON.parse can produce, plus [undefined].  A JSON number is a
    finite rational.  A string is the bytes of its UTF-8 encoding.  An
    object is its list of properties; [prop] reads the first entry of a
    key. *)
Inductive Value : Type :=
| VUndefined
| VNull
| VBool (b : bool)
| VNum (q : Q)
| VStr (s : string)
| VArr (items : list Value)
| VObj (props : list (string * Value)).

(** [if (v)]: undefined, null, false, 0 and the empty string are falsy. *)
Definition truthy (v : Value) : bool :=
  match v with
  | VUndefined | VNull => false
  | VBool b => b
  | VNum q => negb (Qnum q =? 0)
  | VStr s => negb (String.eqb s "")
  | VArr _ | VObj _ => true
  end.

Fixpoint prop (k : string) (props : list (string * Value)) : Value :=
  match props with
  | [] => VUndefined
  | (k', v) :: rest => if String.eqb k k' then v else prop k rest
  end.

Fixpoint has_prop (k : string) (props : list (string * Value)) : bool :=
  match props with
  | [] => false
  | (k', _) :: rest => String.eqb k k' || has_prop k rest
  end.


(** [`${x}`] for a request parameter that may be missing. *)
Definition template (x : option string) : string :=
  match x with
  | Some s => s
  | None => "undefined"
  end.

(** [!x] for a request parameter that may be missing. *)
Definition absent (x : option string) : bool :=
  match x with
  | Some s => String.eqb s ""
  | None => true
  end.

(** ** Exceptions, axios *)

Record Response := mkResponse { status : Z; data : Value }.

(** The errors the handlers can catch: a rejected axios call, a property
    read from undefined or null, a query that the Prisma client refuses.
    Only an axios error carries a [response]; [error.response?.status] is
    undefined for the others. *)
Inductive Exn : Type :=
| AxiosError (message : string) (response : option Response)
| TypeError (message : string)
| PrismaClientError (message : string).

Definition message_of (e : Exn) : string :=
  match e with
  | AxiosError m _ => m
  | TypeError m => m
  | PrismaClientError m => m
  end.

Definition response_of (e : Exn) : option Response :=
  match e with
  | AxiosError _ r => r
  | _ => None
  end.

(** What the provider does with a request: it replies with a status and a
    parsed body, or the transport fails. *)
Inductive Wire : Type :=
| Replied (status : Z) (data : Value)
| NoReply (message : string).

Inductive Request : Type :=
| Get (url : string)
| Post (url : string) (body : Value).

(** axios settles a reply with [validateStatus]; [rookApi] is created with
    baseURL, headers and auth only, so the default applies. *)
Definition validateStatus (status : Z) : bool :=
  (200 <=? status) && (status <? 300).

Definition settle (w : Wire) : Exn + Response :=
  match w with
  | Replied st d =>
      if validateStatus st then inr (mkResponse st d)
      else inl (AxiosError ("Request failed with status code " +:+ pretty st)
                           (Some (mkResponse st d)))
  | NoReply m => inl (AxiosError m None)
  end.

(** ** The tables of the init migration *)

Module User.

Record t := mk {
  user_id : string;
  date_of_birth : option string;
  height_cm : option Z;
  weight_kg : option Q;
  bmi : option Q;
  sex : option string;
  time_zone : option string;
  offset : option string
}.

(** The [update] argument of an upsert; a key left out of the object
    literal is [VUndefined]. *)
Record fields := mkFields {
  f_date_of_birth : Value;
  f_height_cm : Value;
  f_weight_kg : Value;
  f_bmi : Value;
  f_sex : Value;
  f_time_zone : Value;
  f_offset : Value
}.

(** The [create] argument of an upsert. *)
Record create := mkCreate { c_user_id : Value; c_fields : fields }.

End User.

Module HealthData.

Record t := mk {
  id : Z;
  user_id : string;
  data_type : string;
  date : string;
  data : Value;
  fetched_at : Z
}.

End HealthData.

(** How Prisma reads one argument of a nullable column: [undefined] leaves
    the column alone, [null] clears it, a value is written. *)
Inductive Arg (A : Type) : Type :=
| Keep
| Clear
| Put (a : A).
Arguments Keep {A}.
Arguments Clear {A}.
Arguments Put {A} a.

Definition apply_arg {A : Type} (a : Arg A) (old : option A) : option A :=
  match a with
  | Keep => old
  | Clear => None
  | Put x => Some x
  end.

(** What Postgres takes in no TEXT column and in no JSONB value: a string
    that holds the character U+0000, or half of a surrogate pair, which is
    no character.  A string is held here as the bytes of its UTF-8
    encoding, and half a pair as the three bytes that the encoding gives a
    code point of its size, the first of which is 237 and the second 160 at
    least. *)
Definition has_nul (s : string) : bool :=
  existsb (Ascii.eqb Ascii.zero) (list_ascii_of_string s).

Fixpoint has_surrogate (s : string) : bool :=
  match s with
  | String c (String d _ as rest) =>
      ((N_of_ascii c =? 237)%N && (160 <=? N_of_ascii d)%N)
      || has_surrogate rest
  | _ => false
  end.

Definition refused_text (s : string) : bool := has_nul s || has_surrogate s.

(** TEXT, INTEGER and DOUBLE PRECISION columns; [None] is an argument that
    is refused: a value of another type, a string that is no text, or an
    integer that does not fit the 32 bits of INTEGER. *)
Definition text_arg (v : Value) : option (Arg string) :=
  match v with
  | VUndefined => Some Keep
  | VNull => Some Clear
  | VStr s => if refused_text s then None else Some (Put s)
  | _ => None
  end.

Definition is_integer (q : Q) : bool :=
  Z.rem (Qnum q) (Z.pos (Qden q)) =? 0.

Definition int_arg (v : Value) : option (Arg Z) :=
  match v with
  | VUndefined => Some Keep
  | VNull => Some Clear
  | VNum q =>
      let z := Z.quot (Qnum q) (Z.pos (Qden q)) in
      if is_integer q && (- 2147483648 <=? z) && (z <=? 2147483647)
      then Some (Put z) else None
  | _ => None
  end.

Definition float_arg (v : Value) : option (Arg Q) :=
  match v with
  | VUndefined => Some Keep
  | VNull => Some Clear
  | VNum q => Some (Put q)
  | _ => None
  end.

Record UserArgs := mkUserArgs {
  a_date_of_birth : Arg string;
  a_height_cm : Arg Z;
  a_weight_kg : Arg Q;
  a_bmi : Arg Q;
  a_sex : Arg string;
  a_time_zone : Arg string;
  a_offset : Arg string
}.

Definition user_args (f : User.fields) : option UserArgs :=
  match text_arg (User.f_date_of_birth f), int_arg (User.f_height_cm f),
        float_arg (User.f_weight_kg f), float_arg (User.f_bmi f),
        text_arg (User.f_sex f), text_arg (User.f_time_zone f),
        text_arg (User.f_offset f) with
  | Some dob, Some h, Some w, Some b, Some s, Some tz, Some off =>
      Some (mkUserArgs dob h w b s tz off)
  | _, _, _, _, _, _, _ => None
  end.

Definition write_user (user_id : string) (a : UserArgs) (old : option User.t)
  : User.t :=
  User.mk user_id
    (apply_arg (a_date_of_birth a) (old ≫= User.date_of_birth))
    (apply_arg (a_height_cm a) (old ≫= User.height_cm))
    (apply_arg (a_weight_kg a) (old ≫= User.weight_kg))
    (apply_arg (a_bmi a) (old ≫= User.bmi))
    (apply_arg (a_sex a) (old ≫= User.sex))
    (apply_arg (a_time_zone a) (old ≫= User.time_zone))
    (apply_arg (a_offset a) (old ≫= User.offset)).

(** ** The world: both tables and the calls issued so far *)

Inductive Event : Type :=
| Rook (r : Request)
| UserFindUnique (user_id : string)
| UserUpsert (where_user_id : Value) (update : User.fields)
             (create : User.create)
| HealthDataFindFirst (user_id : option string) (data_type : string)
                      (date : option string)
| HealthDataCreate (user_id : option string) (data_type : string)
                   (date : option string) (data : Value) (fetched_at : Z).

Record World := mkWorld {
  users : gmap string User.t;
  healthData : list HealthData.t;
  healthData_id_seq : Z;
  trace : list Event
}.

Definition log (e : Event) (w : World) : World :=
  mkWorld (users w) (healthData w) (healthData_id_seq w) (trace w ++ [e]).

Definition is_upstream_call (e : Event) : bool :=
  match e with
  | Rook _ => true
  | _ => false
  end.

Definition is_store_call (e : Event) : bool :=
  match e with
  | Rook _ => false
  | _ => true
  end.

Definition is_store_write (e : Event) : bool :=
  match e with
  | UserUpsert _ _ _ | HealthDataCreate _ _ _ _ _ => true
  | _ => false
  end.

Definition upstream_calls (t : list Event) : nat :=
  length (List.filter is_upstream_call t).

Definition store_calls (t : list Event) : nat :=
  length (List.filter is_store_call t).

Definition store_writes (t : list Event) : nat :=
  length (List.filter is_store_write t).

(** ** A state-and-exception monad for the async handlers *)

Definition M (A : Type) : Type := World -> (Exn + A) * World.

Definition ret {A : Type} (a : A) : M A := fun w => (inr a, w).

Definition throw {A : Type} (e : Exn) : M A := fun w => (inl e, w).

Definition bind {A B : Type} (m : M A) (k : A -> M B) : M B :=
  fun w =>
    match m w with
    | (inr a, w') => k a w'
    | (inl e, w') => (inl e, w')
    end.

Definition lift {A : Type} (r : Exn + A) : M A := fun w => (r, w).

(** [try { ... res... } catch (error) { res... }]: the catch block only
    writes the response. *)
Definition try_respond {A : Type} (m : M A) (handler : Exn -> A)
  : World -> A * World :=
  fun w =>
    match m w with
    | (inr a, w') => (a, w')
    | (inl e, w') => (handler e, w')
    end.

Notation "x <- m ;; k" := (bind m (fun x => k))
  (at level 20, m at level 99, k at level 200, only parsing).
Notation "m ;; k" := (bind m (fun _ => k))
  (at level 100, k at level 200, only parsing, right associativity).

(** ** What Express sends back *)

(** [res.status(s).json(v)] is [json s v], [res.json(v)] is [json 200 v]
    and [res.status(s).send()] is [send s]. *)
Record Outcome := mkOutcome { statusCode : Z; body : option Value }.

Definition json (s : Z) (v : Value) : Outcome := mkOutcome s (Some v).
Definition send (s : Z) : Outcome := mkOutcome s None.

(** [error.response?.status || 500] *)
Definition error_status (e : Exn) : Z :=
  match response_of e with
  | Some r => if status r =? 0 then 500 else status r
  | None => 500
  end.

(** [{ error: error.message }] *)
Definition error_body (m : string) : Value := VObj [("error", VStr m)].

Definition error_outcome (e : Exn) : Outcome :=
  json (error_status e) (error_body (message_of e)).

(** Helper for 204 responses. *)
Definition handleNoContent (error : Exn) : Outcome :=
  match response_of error with
  | Some r =>
      if status r =? 204 then send 204 else error_outcome error
  | None => error_outcome error
  end.

(** ** Property access *)

(** [v.k] for a key that no prototype defines: reading a property of
    undefined or null throws, a primitive or an array has none. *)
Definition cannot_read (what k : string) : Exn :=
  TypeError ("Cannot read properties of " +:+ what +:+ " (reading '" +:+ k
             +:+ "')").

Definition read (v : Value) (k : string) : Exn + Value :=
  match v with
  | VUndefined => inl (cannot_read "undefined" k)
  | VNull => inl (cannot_read "null" k)
  | VObj props => inr (prop k props)
  | _ => inr VUndefined
  end.

Definition member (v : Value) (k : string) : M Value := lift (read v k).

(** [v?.k] *)
Definition member_opt (v : Value) (k : string) : M Value :=
  match v with
  | VUndefined | VNull => ret VUndefined
  | _ => member v k
  end.

(** [req.body.k]: the JSON body parser leaves an object or an array in
    [req.body]. *)
Definition field (body : Value) (k : string) : Value :=
  match body with
  | VObj props => prop k props
  | _ => VUndefined
  end.

Definition nullish (v : Value) : bool :=
  match v with
  | VUndefined | VNull => true
  | _ => false
  end.

(** The date of birth that a user-info response carries, undefined when it
    has none. *)
Definition birth_date_in (data : Value) : Value :=
  field (field (field data "user_information") "user_demographics")
    "date_of_birth_string".

(** ** userSchema *)

Inductive Rule : Type :=
| ObjectBase
| ObjectUnknown
| AnyRequired
| AnyOnly
| StringBase
| StringEmpty
| StringIsoDate
| StringPatternBase
| NumberBase
| NumberUnsafe
| NumberInteger.

Record ValidationError := mkValidationError { path : string; rule : Rule }.

Definition in_range (lo hi : N) (c : ascii) : bool :=
  let n := N_of_ascii c in (lo <=? n)%N && (n <=? hi)%N.

Definition is_digit (c : ascii) : bool := in_range 48 57 c.

(** [[a-zA-Z0-9-]] *)
Definition is_id_char (c : ascii) : bool :=
  in_range 97 122 c || in_range 65 90 c || is_digit c || in_range 45 45 c.

(** [/^[a-zA-Z0-9-]{1,50}$/] *)
Definition user_id_pattern (s : string) : bool :=
  (1 <=? String.length s)%nat && (String.length s <=? 50)%nat
  && forallb is_id_char (list_ascii_of_string s).

(** [/^\d{4}-\d{2}-\d{2}$/] *)
Definition date_pattern (s : string) : bool :=
  match list_ascii_of_string s with
  | [y1; y2; y3; y4; h1; m1; m2; h2; d1; d2] =>
      is_digit y1 && is_digit y2 && is_digit y3 && is_digit y4
      && in_range 45 45 h1 && is_digit m1 && is_digit m2
      && in_range 45 45 h2 && is_digit d1 && is_digit d2
  | _ => false
  end.

Definition max_safe_integer : Z := 9007199254740991.

Definition is_safe (q : Q) : bool :=
  let d := Z.pos (Qden q) in
  (- max_safe_integer * d <=? Qnum q) && (Qnum q <=? max_safe_integer * d).

Definition schema_keys : list string :=
  ["datetime"; "user_id"; "date_of_birth_string"; "height_cm_int";
   "weight_kg_float"; "bmi_float"; "sex_string"].

Fixpoint first_error (checks : list (string * option Rule))
  : option ValidationError :=
  match checks with
  | [] => None
  | (k, Some r) :: _ => Some (mkValidationError k r)
  | (_, None) :: rest => first_error rest
  end.

Fixpoint unknown_key (props : list (string * Value)) : option string :=
  match props with
  | [] => None
  | (k, _) :: rest =>
      if existsb (String.eqb k) schema_keys then unknown_key rest else Some k
  end.

(** ** The five health routes *)

(** The five handlers differ in the resource path and in the data_type tag
    only. *)
Inductive Route : Type :=
| PhysicalSummary
| PhysicalEvents (type : string)
| SleepSummary
| BodySummary
| BodyEvents (type : string).

Definition data_type (r : Route) : string :=
  match r with
  | PhysicalSummary => "physical_summary"
  | PhysicalEvents type => "physical_" +:+ type
  | SleepSummary => "sleep_summary"
  | BodySummary => "body_summary"
  | BodyEvents type => "body_" +:+ type
  end.

Definition resource (r : Route) : string :=
  match r with
  | PhysicalSummary => "/v2/processed_data/physical_health/summary"
  | PhysicalEvents type =>
      "/v2/processed_data/physical_health/events/" +:+ type
  | SleepSummary => "/v2/processed_data/sleep_health/summary"
  | BodySummary => "/v2/processed_data/body_health/summary"
  | BodyEvents type => "/v2/processed_data/body_health/events/" +:+ type
  end.

(** The url a health route asks the provider for. *)
Definition snapshot_url (route : Route) (user_id date : option string)
  : string :=
  resource route +:+ "?user_id=" +:+ template user_id +:+ "&date="
  +:+ template date.

Definition profile_url (user_id : string) (date : option string) : string :=
  "/v2/processed_data/user/info?user_id=" +:+ user_id +:+ "&date="
  +:+ template date.

Definition timezone_request (user_id : string) (time_zone offset : Value)
  : Request :=
  Post ("/api/v1/user_id/" +:+ user_id +:+ "/time_zone")
    (VObj [("time_zone", time_zone); ("offset", offset)]).

(** ** Prisma on the two tables *)

Definition update_user (a : UserArgs) (row : User.t) : User.t :=
  write_user (User.user_id row) a (Some row).

Definition create_user (user_id : string) (a : UserArgs) : User.t :=
  write_user user_id a None.

(** [None] is a refused query: the client checks [where], [update] and
    [create] before it runs the query, and Postgres takes no string that
    is no text.  The handlers hand the same values to [update] and to
    [create], and the user_id of [where] to [create]. *)
Definition upsert_users (where_user_id : Value) (update : User.fields)
  (create : User.create) (us : gmap string User.t)
  : option (gmap string User.t) :=
  match where_user_id, user_args update, User.c_user_id create,
        user_args (User.c_fields create) with
  | VStr uid, Some u, VStr cuid, Some c =>
      if refused_text uid || refused_text cuid then None
      else
        Some (match us !! uid with
              | Some row => <[uid := update_user u row]> us
              | None => <[cuid := create_user cuid c]> us
              end)
  | _, _, _, _ => None
  end.

Arguments upsert_users : simpl never.

(** A filter whose value is undefined is left out of the query. *)
Definition filter_eq (x : option string) (column : string) : bool :=
  match x with
  | Some s => String.eqb s column
  | None => true
  end.

Definition matches (user_id : option string) (data_type : string)
  (date : option string) (row : HealthData.t) : bool :=
  filter_eq user_id (HealthData.user_id row)
  && String.eqb data_type (HealthData.data_type row)
  && filter_eq date (HealthData.date row).

Definition findFirst (user_id : option string) (data_type : string)
  (date : option string) (rows : list HealthData.t) : option HealthData.t :=
  List.find (matches user_id data_type date) rows.

(** *** The JSONB column *)

(** A JSONB value has no string that is no text in it, be it a string or
    the key of an object. *)
Fixpoint refused_jsonb (v : Value) : bool :=
  match v with
  | VStr s => refused_text s
  | VArr items => existsb refused_jsonb items
  | VObj props =>
      (fix any (ps : list (string * Value)) : bool :=
         match ps with
         | [] => false
         | (k, x) :: rest => refused_text k || refused_jsonb x || any rest
         end) props
  | _ => false
  end.

(** The column does not keep the order in which the keys of an object came:
    it holds them by length, keys of one length by their bytes.  The object
    that JSON.parse makes of what comes back has its array indices first,
    in ascending order, as every JavaScript object has; an array index is
    the decimal numeral of an integer below 2^32 - 1. *)
Definition numeral (k : string) : N :=
  fold_left (fun n c => (10 * n + (N_of_ascii c - 48))%N)
    (list_ascii_of_string k) 0%N.

Definition is_index (k : string) : bool :=
  match k with
  | EmptyString => false
  | String c rest =>
      forallb is_digit (list_ascii_of_string k)
      && (negb (Ascii.eqb c "0"%char) || String.eqb rest "")
      && (String.length k <=? 10)%nat
      && (numeral k <=? 4294967294)%N
  end.

Definition bytes_before (a b : string) : bool :=
  match String.compare a b with
  | Lt => true
  | _ => false
  end.

Definition key_before (a b : string) : bool :=
  match is_index a, is_index b with
  | true, false => true
  | false, true => false
  | _, _ =>
      (String.length a <? String.length b)%nat
      || ((String.length a =? String.length b)%nat && bytes_before a b)
  end.

(** An entry put into an object that is in order; [prop] reads the first
    entry of a key, and so the first entry is the one that stays. *)
Fixpoint put_key (k : string) (v : Value) (ps : list (string * Value))
  : list (string * Value) :=
  match ps with
  | [] => [(k, v)]
  | (k', v') :: rest =>
      if String.eqb k k' then (k, v) :: rest
      else if key_before k k' then (k, v) :: (k', v') :: rest
      else (k', v') :: put_key k v rest
  end.

Definition in_order (f : Value -> Value) (ps : list (string * Value))
  : list (string * Value) :=
  fold_right (fun '(k, x) acc => put_key k (f x) acc) [] ps.

(** A value as it comes back from the column. *)
Fixpoint jsonb (v : Value) : Value :=
  match v with
  | VArr items => VArr (map jsonb items)
  | VObj props => VObj (in_order jsonb props)
  | _ => v
  end.

(** Two values that differ in the order of the keys of their objects at
    most. *)
Inductive same_json : Value -> Value -> Prop :=
| same_value (v : Value) : same_json v v
| same_items (xs ys : list Value) :
    Forall2 same_json xs ys -> same_json (VArr xs) (VArr ys)
| same_props (ps qs : list (string * Value)) :
    (forall k, has_prop k ps = has_prop k qs) ->
    (forall k, same_json (prop k ps) (prop k qs)) ->
    same_json (VObj ps) (VObj qs).

(** A row needs its three NOT NULL text columns and a JSON value, all of
    them such as Postgres takes. *)
Definition insert_healthData (user_id : option string) (data_type : string)
  (date : option string) (data : Value) (fetched_at : Z) (w : World)
  : option World :=
  match user_id, date, data with
  | _, _, VUndefined | _, _, VNull => None
  | Some u, Some d, _ =>
      if refused_text u || refused_text data_type || refused_text d
         || refused_jsonb data
      then None
      else
        Some (mkWorld (users w)
                (healthData w
                 ++ [HealthData.mk (healthData_id_seq w) u data_type d
                       (jsonb data) fetched_at])
                (healthData_id_seq w + 1) (trace w))
  | _, _, _ => None
  end.

(** [{ data_structure: 'user_info', user_information: cached }] *)
Definition opt_json {A : Type} (f : A -> Value) (x : option A) : Value :=
  match x with
  | Some a => f a
  | None => VNull
  end.

Definition user_json (row : User.t) : Value :=
  VObj [("user_id", VStr (User.user_id row));
        ("date_of_birth", opt_json VStr (User.date_of_birth row));
        ("height_cm", opt_json (fun z => VNum (inject_Z z)) (User.height_cm row));
        ("weight_kg", opt_json VNum (User.weight_kg row));
        ("bmi", opt_json VNum (User.bmi row));
        ("sex", opt_json VStr (User.sex row));
        ("time_zone", opt_json VStr (User.time_zone row));
        ("offset", opt_json VStr (User.offset row))].

Definition stored_profile (row : User.t) : Value :=
  VObj [("data_structure", VStr "user_info");
        ("user_information", user_json row)].

(** ** The routes that only forward *)

(** The data-source and client routes hand a request to the provider and
    its body back; they differ in the request only. *)
Inductive Forward : Type :=
| Authorizer (user_id data_source : string) (redirect_url : option string)
| AuthorizedSources (user_id : string)
| RevokeSource (user_id : string) (data_source : Value)
| ResendNotifications (start finish : Value)
| ClientUsersStatus (up_to_date page : option string).

(** ** The requests the router takes *)

Inductive Call : Type :=
| PostUsersInfo (body : Value)
| PostTimezone (user_id : string) (time_zone offset : Value)
| GetUserInfo (user_id : string) (date : option string)
| GetHealth (route : Route) (user_id date : option string)
| Forwarded (f : Forward).

(** The cache key of a row. *)
Definition key_of (row : HealthData.t) : string * string * string :=
  (HealthData.user_id row, HealthData.data_type row, HealthData.date row).

(** What one request may do to the User table: nothing, or one upsert
    whose [create] names the user of its [where]. *)
Definition user_step (us us' : gmap string User.t) : Prop :=
  us' = us
  \/ exists uid f,
      upsert_users (VStr uid) f (User.mkCreate (VStr uid) f) us = Some us'.

(** What one request may do to the HealthData table: nothing, or one row
    more, for the key that a health route has just missed. *)
Definition health_step (c : Call) (rows rows' : list HealthData.t) : Prop :=
  rows' = rows
  \/ exists route user_id date row,
      c = GetHealth route (Some user_id) (Some date)
      /\ findFirst (Some user_id) (data_type route) (Some date) rows = None
      /\ key_of row = (user_id, data_type route, date)
      /\ rows' = (rows ++ [row])%list.

(** Every row of the User table sits under its own user_id. *)
Definition keyed (us : gmap string User.t) : Prop :=
  forall k row, us !! k = Some row -> User.user_id row = k.

(** What a single request leaves behind, whichever route takes it: a few
    more events, one of them at most a call to the provider and one at most
    a write, and the two tables one step further. *)
Definition step_of (c : Call) (w w' : World) : Prop :=
  (exists tail,
      trace w' = (trace w ++ tail)%list
      /\ (upstream_calls tail <= 1)%nat
      /\ (store_writes tail <= 1)%nat)
  /\ user_step (users w) (users w')
  /\ health_step c (healthData w) (healthData w').

(** The User table after an upsert, taken or refused. *)
Definition upserted (uid : string) (f : User.fields)
  (us : gmap string User.t) : gmap string User.t :=
  match upsert_users (VStr uid) f (User.mkCreate (VStr uid) f) us with
  | Some us' => us'
  | None => us
  end.

(** ** The process environment *)

Record Env := mkEnv {
  CLIENT_UUID : option string;
  CLIENT_SECRET : option string;
  ROOK_BASE_URL : option string;
  PORT : option string
}.

(** [`http://localhost:${PORT}`], PORT being [process.env.PORT || 3000] *)
Definition getBaseUrl (env : Env) : string :=
  "http://localhost:" +:+ (if absent (PORT env) then "3000"
                           else template (PORT env)).

(** [s.split('T')[0]] *)
Fixpoint before_T (s : string) : string :=
  match s with
  | EmptyString => EmptyString
  | String c rest =>
      if Ascii.eqb c "T"%char then EmptyString else String c (before_T rest)
  end.

(** [x ? '***set***' : 'NOT SET'] *)
Definition set_or_not (x : option string) : Value :=
  VStr (if absent x then "NOT SET" else "***set***").

(** JavaScript counts a string in UTF-16 code units.  A string is held
    here as the bytes of its UTF-8 encoding: a byte that continues a
    character counts for nothing, the first byte of a character of four
    bytes for two units, as such a character is a pair of surrogates, and
    any other byte for one. *)
Definition is_continuation (c : ascii) : bool :=
  let n := N_of_ascii c in (128 <=? n)%N && (n <? 192)%N.

Definition units_of (c : ascii) : nat :=
  if is_continuation c then 0%nat
  else if (240 <=? N_of_ascii c)%N then 2%nat
  else 1%nat.

(** [s.length] *)
Fixpoint js_length (s : string) : nat :=
  match s with
  | EmptyString => 0%nat
  | String c rest => (units_of c + js_length rest)%nat
  end.

(** The first of the two surrogates of a character of four bytes, as the
    three bytes that the encoding gives a code point of its size. *)
Definition high_surrogate (b0 b1 b2 : ascii) : string :=
  let top :=
    ((N_of_ascii b0 mod 8) * 256 + (N_of_ascii b1 mod 64) * 4
     + (N_of_ascii b2 mod 64) / 16)%N in
  let unit := (55232 + top)%N in
  String (ascii_of_N 237)
    (String (ascii_of_N (128 + (unit / 64) mod 64))
       (String (ascii_of_N (128 + unit mod 64)) EmptyString)).

(** [s.substring(0, n)]: the first n code units, which may end between
    the two surrogates of a character. *)
Fixpoint js_prefix (n : nat) (s : string) : string :=
  match s with
  | EmptyString => EmptyString
  | String c rest =>
      if is_continuation c then String c (js_prefix n rest)
      else
        match n, units_of c with
        | O, _ => EmptyString
        | S n', 1%nat => String c (js_prefix n' rest)
        | S (S n'), _ => String c (js_prefix n' rest)
        | S O, _ =>
            match rest with
            | String b1 (String b2 _) => high_surrogate c b1 b2
            | _ => EmptyString
            end
        end
  end.

(** [x ? `${x.substring(0, 8)}...` : 'NOT SET'] *)
Definition masked (x : option string) : string :=
  if absent x then "NOT SET"
  else js_prefix 8 (template x) +:+ "...".

(** [x?.length || 0] *)
Definition length_or_zero (x : option string) : Value :=
  match x with
  | Some s => VNum (inject_Z (Z.of_nat (js_length s)))
  | None => VNum 0
  end.

(** ** The test runs of the dashboard and of smoke.js *)

(** The argument of [rookApi.request]. *)
Record AxiosConfig := mkConfig {
  cfg_method : string;
  cfg_url : string;
  cfg_data : Value;
  cfg_params : Value
}.

(** The arguments of one [testApi] call. *)
Record TestSpec := mkSpec {
  s_name : string;
  s_method : string;
  s_url : string;
  s_data : Value;
  s_params : Value;
  s_category : option string
}.

(** What [testApi] returns in server.js. *)
Record TestResult := mkTestResult {
  t_name : string;
  t_method : string;
  t_url : string;
  t_category : string;
  t_requestData : Value;
  t_requestParams : Value;
  t_status : Value;
  t_success : bool;
  t_responseData : Value;
  t_error : Value;
  t_timestamp : string
}.

(** What [testApi] returns in smoke.js. *)
Record SmokeResult := mkSmokeResult {
  k_name : string;
  k_status : Value;
  k_data : Value;
  k_error : Value;
  k_success : bool
}.

(** [status >= 200 && status < 400] *)
Definition looks_fine (status : Z) : bool :=
  (200 <=? status) && (status <? 400).

(** The client of smoke.js has [validateStatus: () => true]: every reply
    resolves. *)
Definition settle_any (w : Wire) : Exn + Response :=
  match w with
  | Replied st d => inr (mkResponse st d)
  | NoReply m => inl (AxiosError m None)
  end.

(** [error.response?.status || 'ERR'] *)
Definition status_or_ERR (e : Exn) : Value :=
  match response_of e with
  | Some r =>
      if status r =? 0 then VStr "ERR" else VNum (inject_Z (status r))
  | None => VStr "ERR"
  end.

(** [error.response?.data || { error: error.message }] *)
Definition data_or_error (e : Exn) : Value :=
  match response_of e with
  | Some r => if truthy (data r) then data r else error_body (message_of e)
  | None => error_body (message_of e)
  end.

Definition config_of (spec : TestSpec) : AxiosConfig :=
  mkConfig (s_method spec) (s_url spec) (s_data spec) (s_params spec).

(** [category = 'general'] *)
Definition category_of (spec : TestSpec) : string :=
  match s_category spec with
  | Some c => c
  | None => "general"
  end.

Definition category_names : list string :=
  ["auth"; "data_sources"; "client"; "user"; "health"; "historical"].

(** [results.filter(r => r.category === category)] *)
Definition in_category (category : string) (results : list TestResult)
  : list TestResult :=
  List.filter (fun r => String.eqb (t_category r) category) results.

(** [results.filter(r => r.success).length] and its opposite *)
Definition passed_of (results : list TestResult) : nat :=
  length (List.filter t_success results).

Definition failed_of (results : list TestResult) : nat :=
  length (List.filter (fun r => negb (t_success r)) results).

Record CategoryStats := mkCategoryStats {
  cs_total : nat;
  cs_passed : nat;
  cs_failed : nat;
  cs_successRate : Q
}.

Record Dashboard := mkDashboard {
  d_timestamp : string;
  d_baseURL : string;
  d_realUserId : Value;
  d_userData : Value;
  d_clientStats : Value;
  d_totalTests : nat;
  d_passedTests : nat;
  d_failedTests : nat;
  d_successRate : option Q;
  d_results : list TestResult;
  d_categorizedResults : list (string * list TestResult);
  d_categoryStats : list (string * CategoryStats)
}.

(** [users[0]] *)
Definition first_of (v : Value) : Value :=
  match v with
  | VArr (x :: _) => x
  | VStr (String c _) => VStr (String c EmptyString)
  | VObj props => prop "0" props
  | _ => VUndefined
  end.

Definition fixed (spec : TestSpec) : list AxiosConfig -> TestSpec :=
  fun _ => spec.

Definition today_params (today : string) : Value :=
  VObj [("up_to_date", VStr today)].

Definition user_params (realUserId : Value) (date : string) : Value :=
  VObj [("user_id", realUserId); ("date", VStr date)].

Definition health_test (name url : string) (realUserId : Value)
  (date category : string) : list AxiosConfig -> TestSpec :=
  fixed (mkSpec name "get" url VUndefined (user_params realUserId date)
           (Some category)).

(** ** Sample data *)

Definition score : Value := VObj [("score", VNum (82 # 1))].

Definition empty_world : World := mkWorld ∅ [] 1 [].

Definition sleep_row : HealthData.t :=
  HealthData.mk 1 "u1" "sleep_summary" "2024-06-01" score 0.

Definition cached_world : World := mkWorld ∅ [sleep_row] 2 [].

Definition stored_user : User.t :=
  User.mk "u1" None (Some 180) None None (Some "male") None None.

Definition profile_world : World :=
  mkWorld {[ "u1" := stored_user ]} [] 1 [].

Definition weight_update : Value :=
  VObj [("datetime", VStr "2024-06-01T10:00:00Z"); ("user_id", VStr "u1");
        ("weight_kg_float", VNum (75 # 1))].

Definition no_user_id : Value :=
  VObj [("datetime", VStr "2024-06-01T10:00:00Z");
        ("weight_kg_float", VNum (75 # 1))].

Definition born_1990 : Value :=
  VObj [("user_information",
         VObj [("user_demographics",
                VObj [("date_of_birth_string", VStr "1990-01-01")])])].

Definition born_user : User.t :=
  User.mk "u1" (Some "1990-01-01") (Some 180) None None (Some "male") None
    None.

Definition born_world : World := mkWorld {[ "u1" := born_user ]} [] 1 [].

Definition no_birth_date : Value :=
  VObj [("user_information",
         VObj [("user_demographics",
                VObj [("date_of_birth_string", VNull)])])].

Definition no_demographics : Value := VObj [("user_information", VObj [])].

(** A provider that always does the same thing, a clock that counts the
    calls made so far, and stand-ins for the pieces of Joi and Prisma that
    the handlers take as given. *)
Definition replies (reply : Wire) : list Event -> Request -> Wire :=
  fun _ _ => reply.

Definition ticks (t : list Event) : Z := Z.of_nat (length t).

Definition calendar_date (s : string) : bool :=
  date_pattern (String.substring 0 10 s).

Definition no_conversion (s : string) : option Q := None.

Definition rule_path (e : ValidationError) : string := path e.

Definition refused : string := "Invalid invocation".

(** A run with one request of each kind. *)
Definition one_of_each : list Call :=
  [GetHealth SleepSummary (Some "u1") (Some "2024-06-01");
   PostUsersInfo weight_update;
   PostTimezone "u1" (VStr "America/New_York") (VStr "-05:00");
   GetUserInfo "u1" None;
   Forwarded (AuthorizedSources "u1")].

(** A body whose height is a numeric string, and a Joi that reads it. *)
Definition height_as_text : Value :=
  VObj [("datetime", VStr "2024-06-01T10:00:00Z"); ("user_id", VStr "u1");
        ("height_cm_int", VStr "175")].

Definition reads_175 (s : string) : option Q :=
  if String.eqb s "175" then Some (175 # 1) else None.

Definition as_is (s : string) : string := s.

(** Two environments, one with the credentials and one without. *)
Definition set_env : Env :=
  mkEnv (Some "0a1b2c3d-uuid") (Some "s3cr3t-s3cr3t") None None.

Definition bare_env : Env := mkEnv None None None None.

(** A provider for the dashboard that always does the same thing, a clock
    that counts its requests, and stand-ins for the built-ins. *)
Definition answers (reply : Wire) : list AxiosConfig -> AxiosConfig -> Wire :=
  fun _ _ => reply.

Definition counted (h : list AxiosConfig) : Z := Z.of_nat (length h).

Definition midnight (t : Z) : string := "2024-06-01T00:00:00.000Z".

Definition no_length (v : Value) : bool := false.

Definition object_Object (v : Value) : string := "[object Object]".

Definition round_percent (passed total : nat) : option Q :=
  match total with
  | O => None
  | _ =>
      Some (inject_Z ((200 * Z.of_nat passed + Z.of_nat total)
                      / (2 * Z.of_nat total)))
  end.

Definition one_user : Value :=
  VObj [("users", VArr [VObj [("user_id", VStr "u7")]])].

Definition authorized_sources : TestSpec :=
  mkSpec "AUTHORIZED SOURCES" "get"
    "/api/v2/user_id/u7/data_sources/authorized" VUndefined VUndefined
    (Some "data_sources").

(** A body whose keys come in another order than the JSONB column keeps
    them in, and a body with every key of userSchema. *)
Definition two_scores : Value :=
  VObj [("score", VNum (82 # 1)); ("hr", VNum (60 # 1))].

Definition full_profile : Value :=
  VObj [("datetime", VStr "2024-06-01T10:00:00Z"); ("user_id", VStr "u1");
        ("date_of_birth_string", VStr "1990-01-01");
        ("height_cm_int", VNum (175 # 1));
        ("weight_kg_float", VNum (141 # 2)); ("bmi_float", VNum (23 # 1));
        ("sex_string", VStr "male")].

Definition zoned_user : User.t :=
  User.mk "u1" None (Some 180) None None (Some "male") (Some "Europe/Paris")
    (Some "+01:00").

Definition zoned_world : World := mkWorld {[ "u1" := zoned_user ]} [] 1 [].

(** ** The handlers *)

Section Server.

Set Default Proof Using "Type".

(** The provider answers a request in the light of everything that
    happened before it; the clock likewise. *)
Variable remote : list Event -> Request -> Wire.
Variable now : list Event -> Z.

(** Joi's recogniser of ISO 8601 dates, its reading of a numeric string
    (convert is on by default) and its rendering of an error. *)
Variable isoDate : string -> bool.
Variable numeric : string -> option Q.
Variable joi_message : ValidationError -> string.

(** The text of a refused Prisma query. *)
Variable invalid_invocation : string.

(** *** rookApi *)

Definition rookApi (r : Request) : M Response :=
  fun w => (settle (remote (trace w) r), log (Rook r) w).

Definition rookApi_get (url : string) : M Response := rookApi (Get url).

Definition rookApi_post (url : string) (body : Value) : M Response :=
  rookApi (Post url body).

(** [new Date()] *)
Definition new_Date : M Z := fun w => (inr (now (trace w)), w).

(** *** prisma.user, prisma.healthData *)

Definition prisma_user_findUnique (user_id : string) : M (option User.t) :=
  fun w => (inr (users w !! user_id), log (UserFindUnique user_id) w).

Definition prisma_user_upsert (where_user_id : Value) (update : User.fields)
  (create : User.create) : M unit :=
  fun w =>
    let w' := log (UserUpsert where_user_id update create) w in
    match upsert_users where_user_id update create (users w) with
    | Some us =>
        (inr tt, mkWorld us (healthData w') (healthData_id_seq w') (trace w'))
    | None => (inl (PrismaClientError invalid_invocation), w')
    end.

Definition prisma_healthData_findFirst (user_id : option string)
  (data_type : string) (date : option string) : M (option HealthData.t) :=
  fun w =>
    (inr (findFirst user_id data_type date (healthData w)),
     log (HealthDataFindFirst user_id data_type date) w).

Definition prisma_healthData_create (user_id : option string)
  (data_type : string) (date : option string) (data : Value)
  (fetched_at : Z) : M unit :=
  fun w =>
    let w' := log (HealthDataCreate user_id data_type date data fetched_at) w in
    match insert_healthData user_id data_type date data fetched_at w' with
    | Some w'' => (inr tt, w'')
    | None => (inl (PrismaClientError invalid_invocation), w')
    end.

(** *** userSchema.validate *)

Definition required (check : Value -> option Rule) (v : Value)
  : option Rule :=
  match v with
  | VUndefined => Some AnyRequired
  | _ => check v
  end.

Definition optional (check : Value -> option Rule) (v : Value)
  : option Rule :=
  match v with
  | VUndefined => None
  | _ => check v
  end.

(** [Joi.string()] followed by one rule *)
Definition joi_string (code : Rule) (test : string -> bool) (v : Value)
  : option Rule :=
  match v with
  | VStr s =>
      if String.eqb s "" then Some StringEmpty
      else if test s then None else Some code
  | _ => Some StringBase
  end.

Definition number_rules (integer : bool) (q : Q) : option Rule :=
  if negb (is_safe q) then Some NumberUnsafe
  else if integer && negb (is_integer q) then Some NumberInteger
  else None.

(** [Joi.number()], with [.integer()] when [integer] is set *)
Definition joi_number (integer : bool) (v : Value) : option Rule :=
  match v with
  | VNum q => number_rules integer q
  | VStr s =>
      match numeric s with
      | Some q => number_rules integer q
      | None => Some NumberBase
      end
  | _ => Some NumberBase
  end.

(** [Joi.string().valid('female', 'male')] *)
Definition joi_valid (allowed : list string) (v : Value) : option Rule :=
  match v with
  | VStr s => if existsb (String.eqb s) allowed then None else Some AnyOnly
  | _ => Some AnyOnly
  end.

(** The keys are checked in the order of the schema, then the body is
    searched for a key the schema does not have; the first failure is the
    one reported.  [req.body] is what the JSON body parser left there, an
    object or an array. *)
Definition userSchema_validate (body : Value) : option ValidationError :=
  match body with
  | VObj props =>
      match first_error
              [("datetime",
                required (joi_string StringIsoDate isoDate)
                  (prop "datetime" props));
               ("user_id",
                required (joi_string StringPatternBase user_id_pattern)
                  (prop "user_id" props));
               ("date_of_birth_string",
                optional (joi_string StringPatternBase date_pattern)
                  (prop "date_of_birth_string" props));
               ("height_cm_int",
                optional (joi_number true) (prop "height_cm_int" props));
               ("weight_kg_float",
                optional (joi_number false) (prop "weight_kg_float" props));
               ("bmi_float",
                optional (joi_number false) (prop "bmi_float" props));
               ("sex_string",
                optional (joi_valid ["female"; "male"])
                  (prop "sex_string" props))] with
      | Some e => Some e
      | None =>
          match unknown_key props with
          | Some k => Some (mkValidationError k ObjectUnknown)
          | None => None
          end
      end
  | _ => Some (mkValidationError "" ObjectBase)
  end.

(** *** POST /users/info *)

Definition profile_fields (body : Value) : User.fields :=
  User.mkFields (field body "date_of_birth_string")
    (field body "height_cm_int") (field body "weight_kg_float")
    (field body "bmi_float") (field body "sex_string") VUndefined VUndefined.

Definition profile_create (body : Value) : User.create :=
  User.mkCreate (field body "user_id") (profile_fields body).

Definition submitProfile (body : Value) : World -> Outcome * World :=
  match userSchema_validate body with
  | Some error => fun w => (json 422 (error_body (joi_message error)), w)
  | None =>
      try_respond
        (response <- rookApi_post "/api/v2/user-information" body ;;
         prisma_user_upsert (field body "user_id") (profile_fields body)
           (profile_create body) ;;
         ret (json (status response) (data response)))
        error_outcome
  end.

(** *** POST /users/:user_id/timezone *)

Definition timezone_fields (time_zone offset : Value) : User.fields :=
  User.mkFields VUndefined VUndefined VUndefined VUndefined VUndefined
    time_zone offset.

Definition setTimeZone (user_id : string) (time_zone offset : Value)
  : World -> Outcome * World :=
  try_respond
    (response <- rookApi (timezone_request user_id time_zone offset) ;;
     prisma_user_upsert (VStr user_id) (timezone_fields time_zone offset)
       (User.mkCreate (VStr user_id) (timezone_fields time_zone offset)) ;;
     ret (json (status response) (data response)))
    error_outcome.

(** *** GET /users/:user_id/info *)

Definition birth_fields (date_of_birth : Value) : User.fields :=
  User.mkFields date_of_birth VUndefined VUndefined VUndefined VUndefined
    VUndefined VUndefined.

(** [response.data.user_information.user_demographics?.date_of_birth_string] *)
Definition date_of_birth_string (data : Value) : M Value :=
  user_information <- member data "user_information" ;;
  user_demographics <- member user_information "user_demographics" ;;
  member_opt user_demographics "date_of_birth_string".

Definition getProfile (user_id : string) (date : option string)
  : World -> Outcome * World :=
  try_respond
    (cached <- prisma_user_findUnique user_id ;;
     match cached, absent date with
     | Some row, true => ret (json 200 (stored_profile row))
     | _, _ =>
         response <- rookApi_get (profile_url user_id date) ;;
         user_information <- member (data response) "user_information" ;;
         (if truthy user_information then
            date_of_birth <- date_of_birth_string (data response) ;;
            prisma_user_upsert (VStr user_id) (birth_fields date_of_birth)
              (User.mkCreate (VStr user_id) (birth_fields date_of_birth))
          else ret tt) ;;
         ret (json (status response) (data response))
     end)
    handleNoContent.

(** *** GET /health/... *)

Definition getSnapshot (route : Route) (user_id date : option string)
  : World -> Outcome * World :=
  try_respond
    (cached <- prisma_healthData_findFirst user_id (data_type route) date ;;
     match cached with
     | Some row => ret (json 200 (HealthData.data row))
     | None =>
         response <- rookApi_get (snapshot_url route user_id date) ;;
         (if truthy (data response) then
            fetched_at <- new_Date ;;
            prisma_healthData_create user_id (data_type route) date
              (data response) fetched_at
          else ret tt) ;;
         ret (json 200 (data response))
     end)
    handleNoContent.

(** *** The data-source and client routes *)

(** [encodeURIComponent], a built-in. *)
Variable encodeURIComponent : string -> string.

Definition forward_request (f : Forward) : Request :=
  match f with
  | Authorizer user_id data_source redirect_url =>
      Get ("/api/v1/user_id/" +:+ user_id +:+ "/data_source/" +:+ data_source
           +:+ "/authorizer"
           +:+ (if absent redirect_url then ""
                else "?redirect_url="
                     +:+ encodeURIComponent (template redirect_url)))
  | AuthorizedSources user_id =>
      Get ("/api/v2/user_id/" +:+ user_id +:+ "/data_sources/authorized")
  | RevokeSource user_id data_source =>
      Post ("/api/v1/user_id/" +:+ user_id +:+ "/data_sources/revoke_auth")
        (VObj [("data_source", data_source)])
  | ResendNotifications start finish =>
      Post "/api/v2/resend_rejected_notifications"
        (VObj [("start", start); ("finish", finish)])
  | ClientUsersStatus up_to_date page =>
      Get ("/api/v1/client/users/status?up_to_date=" +:+ template up_to_date
           +:+ (if absent page then "" else "&page=" +:+ template page))
  end.

Definition forward (f : Forward) : World -> Outcome * World :=
  try_respond
    (response <- rookApi (forward_request f) ;;
     ret (json 200 (data response)))
    error_outcome.

(** *** The router, one request after another *)

Definition handle (c : Call) : World -> Outcome * World :=
  match c with
  | PostUsersInfo body => submitProfile body
  | PostTimezone user_id time_zone offset =>
      setTimeZone user_id time_zone offset
  | GetUserInfo user_id date => getProfile user_id date
  | GetHealth route user_id date => getSnapshot route user_id date
  | Forwarded f => forward f
  end.

Fixpoint serve (calls : list Call) (w : World) : World :=
  match calls with
  | [] => w
  | c :: rest => serve rest (snd (handle c w))
  end.

(** *** GET /debug-env, GET /test-auth *)

(** [process.cwd()] *)
Variable cwd : string.

(** [new Date(t).toISOString()] *)
Variable isoString : Z -> string.

Definition debugEnv (env : Env) : Outcome :=
  json 200
    (VObj [("message", VStr "Environment variables check");
           ("credentials",
            VObj [("CLIENT_UUID", VStr (masked (CLIENT_UUID env)));
                  ("CLIENT_SECRET", VStr (masked (CLIENT_SECRET env)));
                  ("ROOK_BASE_URL",
                   VStr (if absent (ROOK_BASE_URL env) then "NOT SET"
                         else template (ROOK_BASE_URL env)))]);
           ("lengths",
            VObj [("CLIENT_UUID_length", length_or_zero (CLIENT_UUID env));
                  ("CLIENT_SECRET_length",
                   length_or_zero (CLIENT_SECRET env))]);
           ("hasDotEnv", VBool (negb (absent (CLIENT_UUID env))));
           ("workingDirectory", VStr cwd)]).

Definition missing_credentials (env : Env) : Value :=
  VObj [("error", VStr "Missing ROOK API credentials");
        ("message",
         VStr "Please set CLIENT_UUID and CLIENT_SECRET in your .env file");
        ("currentCredentials",
         VObj [("CLIENT_UUID", set_or_not (CLIENT_UUID env));
               ("CLIENT_SECRET", set_or_not (CLIENT_SECRET env))]);
        ("instructions",
         VArr [VStr "1. Create a .env file in your backend directory";
               VStr "2. Add CLIENT_UUID=your_actual_uuid";
               VStr "3. Add CLIENT_SECRET=your_actual_secret";
               VStr "4. Restart your server"])].

Definition authenticated (data : Value) : Value :=
  VObj [("status", VStr "Authenticated");
        ("message", VStr "Successfully connected to ROOK API");
        ("data", data)].

Definition auth_failed (error : Exn) : Value :=
  VObj [("error", VStr ("Auth failed: " +:+ message_of error));
        ("details",
         match response_of error with
         | Some r =>
             if truthy (data r) then data r
             else VStr "No additional details available"
         | None => VStr "No additional details available"
         end);
        ("status", VNum (inject_Z (error_status error)));
        ("troubleshooting",
         VObj [("message",
                VStr "This could be due to invalid credentials, network issues, or ROOK API server problems");
               ("suggestions",
                VArr [VStr "Check if CLIENT_UUID and CLIENT_SECRET environment variables are set correctly";
                      VStr "Verify the ROOK API base URL is correct";
                      VStr "Check if the ROOK API service is operational"])])].

Definition testAuth (env : Env) : World -> Outcome * World :=
  if absent (CLIENT_UUID env) || absent (CLIENT_SECRET env)
  then fun w => (json 400 (missing_credentials env), w)
  else
    try_respond
      (today <- (t <- new_Date ;; ret (before_T (isoString t))) ;;
       response <- rookApi_get ("/api/v1/client/users/status?up_to_date="
                                +:+ today) ;;
       ret (json 200 (authenticated (data response))))
      (fun error => json (error_status error) (auth_failed error)).

(** *** GET /api-dashboard-data *)

(** The provider as the dashboard meets it, a request at a time, and the
    clock of that run. *)
Variable remote_request : list AxiosConfig -> AxiosConfig -> Wire.
Variable clock : list AxiosConfig -> Z.

(** [v > 0] and [`${v}`] for a value that is no string, built-ins both, and
    [Math.round((passed / total) * 100)], which is NaN for no tests at
    all. *)
Variable positive : Value -> bool.
Variable other_to_string : Value -> string.
Variable Math_round_percent : nat -> nat -> option Q.

Definition template_value (v : Value) : string :=
  match v with
  | VStr s => s
  | VUndefined => "undefined"
  | VNull => "null"
  | VBool true => "true"
  | VBool false => "false"
  | _ => other_to_string v
  end.

(** [users.length > 0] *)
Definition has_items (v : Value) : bool :=
  match v with
  | VArr items => negb (Nat.eqb (length items) 0)
  | VStr s => negb (String.eqb s "")
  | VObj props => positive (prop "length" props)
  | _ => false
  end.

Definition day_of (t : Z) : string := before_T (isoString t).

Definition testApi (spec : TestSpec) (h : list AxiosConfig)
  : TestResult * list AxiosConfig :=
  let h' := (h ++ [config_of spec])%list in
  (match settle (remote_request h (config_of spec)) with
   | inr response =>
       mkTestResult (s_name spec) (s_method spec) (s_url spec)
         (category_of spec) (s_data spec) (s_params spec)
         (VNum (inject_Z (status response))) (looks_fine (status response))
         (data response) VUndefined (isoString (clock h'))
   | inl error =>
       mkTestResult (s_name spec) (s_method spec) (s_url spec)
         (category_of spec) (s_data spec) (s_params spec)
         (status_or_ERR error) false (data_or_error error)
         (VStr (message_of error)) (isoString (clock h'))
   end, h').

(** The look for a real user id, before the tests. *)
Definition find_user (today : string) (h : list AxiosConfig)
  : Value * Value * list AxiosConfig :=
  let config :=
    mkConfig "get" "/api/v1/client/users/status" VUndefined
      (today_params today) in
  let demo := (VStr "demoUserId", VNull, (h ++ [config])%list) in
  match settle (remote_request h config) with
  | inl _ => demo
  | inr response =>
      match read (data response) "users" with
      | inl _ => demo
      | inr users =>
          if truthy users && has_items users then
            match read (first_of users) "user_id" with
            | inl _ => demo
            | inr user_id => (user_id, data response, (h ++ [config])%list)
            end
          else demo
      end
  end.

Definition script (realUserId : Value) (today yesterday : string)
  : list (list AxiosConfig -> TestSpec) :=
  let id := template_value realUserId in
  [fixed (mkSpec "TEST AUTH" "get" "/api/v1/client/users/status" VUndefined
            (today_params today) (Some "auth"));
   fixed (mkSpec "AUTHORIZER URL" "get"
            ("/api/v1/user_id/" +:+ id +:+ "/data_source/Oura/authorizer")
            VUndefined VUndefined (Some "data_sources"));
   fixed (mkSpec "AUTHORIZED SOURCES" "get"
            ("/api/v2/user_id/" +:+ id +:+ "/data_sources/authorized")
            VUndefined VUndefined (Some "data_sources"));
   fixed (mkSpec "REVOKE SOURCE" "post"
            ("/api/v1/user_id/" +:+ id +:+ "/data_sources/revoke_auth")
            (VObj [("data_source", VStr "Oura")]) VUndefined
            (Some "data_sources"));
   fixed (mkSpec "CLIENT USERS STATUS" "get" "/api/v1/client/users/status"
            VUndefined (today_params today) (Some "client"));
   (fun h =>
      mkSpec "RESEND NOTIFICATIONS" "post"
        "/api/v2/resend_rejected_notifications"
        (VObj [("start", VStr (day_of (clock h - 24 * 3600 * 1000)));
               ("finish", VStr (day_of (clock h)))])
        VUndefined (Some "client"));
   health_test "GET USER INFO" "/v2/processed_data/user/info" realUserId
     today "user";
   fixed (mkSpec "SET TIMEZONE" "post"
            ("/api/v1/user_id/" +:+ id +:+ "/time_zone")
            (VObj [("time_zone", VStr "America/New_York");
                   ("offset", VStr "-05:00")])
            VUndefined (Some "user"));
   health_test "PHYSICAL HEALTH SUMMARY"
     "/v2/processed_data/physical_health/summary" realUserId today "health";
   health_test "PHYSICAL HEALTH EVENTS - STEPS"
     "/v2/processed_data/physical_health/events/steps" realUserId today
     "health";
   health_test "PHYSICAL HEALTH EVENTS - HEART RATE"
     "/v2/processed_data/physical_health/events/heart_rate" realUserId today
     "health";
   health_test "PHYSICAL HEALTH EVENTS - WORKOUTS"
     "/v2/processed_data/physical_health/events/workouts" realUserId today
     "health";
   health_test "SLEEP HEALTH SUMMARY"
     "/v2/processed_data/sleep_health/summary" realUserId today "health";
   health_test "SLEEP HEALTH EVENTS"
     "/v2/processed_data/sleep_health/events/sleep" realUserId today "health";
   health_test "BODY HEALTH SUMMARY"
     "/v2/processed_data/body_health/summary" realUserId today "health";
   health_test "BODY HEALTH EVENTS - WEIGHT"
     "/v2/processed_data/body_health/events/weight" realUserId today "health";
   health_test "BODY HEALTH EVENTS - BODY FAT"
     "/v2/processed_data/body_health/events/body_fat" realUserId today
     "health";
   health_test "YESTERDAY PHYSICAL SUMMARY"
     "/v2/processed_data/physical_health/summary" realUserId yesterday
     "historical";
   health_test "YESTERDAY SLEEP SUMMARY"
     "/v2/processed_data/sleep_health/summary" realUserId yesterday
     "historical"].

Fixpoint run_tests (tests : list (list AxiosConfig -> TestSpec))
  (h : list AxiosConfig) : list TestResult * list AxiosConfig :=
  match tests with
  | [] => ([], h)
  | test :: rest =>
      let '(r, h1) := testApi (test h) h in
      let '(rs, h2) := run_tests rest h1 in
      (r :: rs, h2)
  end.

(** [Math.round((passed / total) * 100) || 0] *)
Definition rate_or_zero (passed total : nat) : Q :=
  match Math_round_percent passed total with
  | Some q => if Qnum q =? 0 then 0%Q else q
  | None => 0%Q
  end.

Definition stats_of (results : list TestResult) : CategoryStats :=
  mkCategoryStats (length results) (passed_of results) (failed_of results)
    (rate_or_zero (passed_of results) (length results)).

Definition dashboard (env : Env) (h : list AxiosConfig)
  : Dashboard * list AxiosConfig :=
  let today := day_of (clock h) in
  let yesterday := day_of (clock h - 24 * 3600 * 1000) in
  let '(realUserId, clientStats, h1) := find_user today h in
  let '(results, h2) := run_tests (script realUserId today yesterday) h1 in
  let categorized :=
    map (fun c => (c, in_category c results)) category_names in
  (mkDashboard (isoString (clock h2)) (getBaseUrl env) realUserId VNull
     clientStats (length results) (passed_of results) (failed_of results)
     (Math_round_percent (passed_of results) (length results)) results
     categorized
     (map (fun c => (fst c, stats_of (snd c))) categorized),
   h2).

(** *** testApi of smoke.js *)

Definition smoke_testApi (name : string) (reply : Wire) : SmokeResult :=
  match settle_any reply with
  | inr response =>
      mkSmokeResult name (VNum (inject_Z (status response))) (data response)
        VUndefined (looks_fine (status response))
  | inl error =>
      mkSmokeResult name (status_or_ERR error) VUndefined
        (VStr (message_of error)) false
  end.

(** ** Running the primitives *)

Lemma find_app_none {A : Type} (p : A -> bool) (l1 l2 : list A) :
  List.find p l1 = None -> List.find p (l1 ++ l2) = List.find p l2.
Proof.
  induction l1 as [|a l1 IH]; simpl; [reflexivity|].
  destruct (p a); [discriminate | exact IH].
Qed.

Lemma upstream_calls_snoc (t : list Event) (e : Event) :
  upstream_calls (t ++ [e])
  = (upstream_calls t + (if is_upstream_call e then 1 else 0))%nat.
Proof.
  unfold upstream_calls. rewrite List.filter_app, List.length_app. simpl.
  destruct (is_upstream_call e); reflexivity.
Qed.

Lemma store_writes_snoc (t : list Event) (e : Event) :
  store_writes (t ++ [e])
  = (store_writes t + (if is_store_write e then 1 else 0))%nat.
Proof.
  unfold store_writes. rewrite List.filter_app, List.length_app. simpl.
  destruct (is_store_write e); reflexivity.
Qed.

Lemma store_calls_snoc (t : list Event) (e : Event) :
  store_calls (t ++ [e])
  = (store_calls t + (if is_store_call e then 1 else 0))%nat.
Proof.
  unfold store_calls. rewrite List.filter_app, List.length_app. simpl.
  destruct (is_store_call e); reflexivity.
Qed.

Lemma settle_resolved (st : Z) (d : Value) :
  validateStatus st = true -> settle (Replied st d) = inr (mkResponse st d).
Proof. intros H. unfold settle. rewrite H. reflexivity. Qed.

Lemma settle_rejected (st : Z) (d : Value) :
  validateStatus st = false ->
  settle (Replied st d)
  = inl (AxiosError ("Request failed with status code " +:+ pretty st)
           (Some (mkResponse st d))).
Proof. intros H. unfold settle. rewrite H. reflexivity. Qed.

(** *** getSnapshot, path by path *)

Lemma getSnapshot_hit route user_id date w row :
  findFirst user_id (data_type route) date (healthData w) = Some row ->
  getSnapshot route user_id date w
  = (json 200 (HealthData.data row),
     log (HealthDataFindFirst user_id (data_type route) date) w).
Proof.
  intros H. unfold getSnapshot, try_respond, bind, prisma_healthData_findFirst.
  rewrite H. reflexivity.
Qed.

Lemma getSnapshot_miss route user_id date w :
  findFirst user_id (data_type route) date (healthData w) = None ->
  let w1 := log (HealthDataFindFirst user_id (data_type route) date) w in
  let w2 := log (Rook (Get (snapshot_url route user_id date))) w1 in
  getSnapshot route user_id date w
  = match settle (remote (trace w1) (Get (snapshot_url route user_id date))) with
    | inl e => (handleNoContent e, w2)
    | inr response =>
        if truthy (data response) then
          let w3 := log (HealthDataCreate user_id (data_type route) date
                           (data response) (now (trace w2))) w2 in
          match insert_healthData user_id (data_type route) date
                  (data response) (now (trace w2)) w3 with
          | Some w4 => (json 200 (data response), w4)
          | None =>
              (handleNoContent (PrismaClientError invalid_invocation),
               w3)
          end
        else (json 200 (data response), w2)
    end.
Proof.
  intros H. unfold getSnapshot, try_respond, bind, prisma_healthData_findFirst.
  rewrite H. unfold rookApi_get, rookApi. simpl.
  destruct (settle _) as [e|response]; [reflexivity|].
  destruct (truthy (data response)); [|reflexivity].
  unfold new_Date, prisma_healthData_create. simpl.
  destruct (insert_healthData _ _ _ _ _ _); reflexivity.
Qed.

Lemma matches_key (user_id date : string) (dt : string) (row : HealthData.t) :
  matches (Some user_id) dt (Some date) row = true <->
  HealthData.user_id row = user_id /\ HealthData.data_type row = dt
  /\ HealthData.date row = date.
Proof.
  unfold matches, filter_eq.
  rewrite !andb_true_iff, !String.eqb_eq.
  split; [intros ((-> & ->) & ->) | intros (-> & -> & ->)]; auto.
Qed.

Lemma findFirst_exists user_id dt date rows r :
  In r rows -> matches (Some user_id) dt (Some date) r = true ->
  exists row, findFirst (Some user_id) dt (Some date) rows = Some row
              /\ In row rows
              /\ matches (Some user_id) dt (Some date) row = true.
Proof.
  intros Hin Hm. unfold findFirst.
  destruct (List.find _ rows) as [row|] eqn:E.
  - exists row. apply List.find_some in E. destruct E as [E1 E2].
    repeat split; [exact E1 | exact E2].
  - apply (List.find_none _ _ E) in Hin. rewrite Hin in Hm. discriminate.
Qed.

Lemma insert_healthData_truthy user_id dt date d t w :
  truthy d = true ->
  refused_text user_id = false ->
  refused_text dt = false ->
  refused_text date = false ->
  refused_jsonb d = false ->
  insert_healthData (Some user_id) dt (Some date) d t w
  = Some (mkWorld (users w)
            (healthData w
             ++ [HealthData.mk (healthData_id_seq w) user_id dt date
                   (jsonb d) t])
            (healthData_id_seq w + 1) (trace w)).
Proof.
  intros Ht H1 H2 H3 H4. unfold insert_healthData.
  destruct d; try discriminate Ht; rewrite H1, H2, H3, H4; reflexivity.
Qed.

Lemma insert_healthData_refused user_id dt date d t w :
  user_id = None \/ date = None \/ refused_jsonb d = true ->
  insert_healthData user_id dt date d t w = None.
Proof.
  intros H. unfold insert_healthData.
  destruct user_id as [u|], date as [dd|];
    try (destruct d; reflexivity).
  destruct H as [H | [H | H]]; try discriminate H.
  rewrite H, !orb_true_r. destruct d; reflexivity.
Qed.

(** *** What comes back from the JSONB column *)

Lemma Value_deep_ind (P : Value -> Prop) :
  P VUndefined -> P VNull -> (forall b, P (VBool b)) ->
  (forall q, P (VNum q)) -> (forall s, P (VStr s)) ->
  (forall items, Forall P items -> P (VArr items)) ->
  (forall props, Forall (fun p => P (snd p)) props -> P (VObj props)) ->
  forall v, P v.
Proof.
  intros Hu Hn Hb Hq Hs Harr Hobj. fix IH 1.
  intros [ | | b | q | s | items | props].
  - exact Hu.
  - exact Hn.
  - apply Hb.
  - apply Hq.
  - apply Hs.
  - apply Harr. revert items. fix IHitems 1. intros [|x items].
    + constructor.
    + constructor; [apply IH | apply IHitems].
  - apply Hobj. revert props. fix IHprops 1. intros [|[k x] props].
    + constructor.
    + constructor; [apply IH | apply IHprops].
Qed.

Lemma prop_put_key k k' v ps :
  prop k (put_key k' v ps) = if String.eqb k k' then v else prop k ps.
Proof.
  induction ps as [|[k0 v0] rest IH]; cbn [put_key prop].
  - destruct (String.eqb k k'); reflexivity.
  - destruct (String.eqb k' k0) eqn:E0.
    + apply String.eqb_eq in E0. subst k0. cbn [prop].
      destruct (String.eqb k k'); reflexivity.
    + destruct (key_before k' k0); cbn [prop].
      * destruct (String.eqb k k'); reflexivity.
      * rewrite IH. destruct (String.eqb k k0) eqn:E1; [|reflexivity].
        apply String.eqb_eq in E1. subst k0.
        rewrite String.eqb_sym, E0. reflexivity.
Qed.

Lemma has_prop_put_key k k' v ps :
  has_prop k (put_key k' v ps) = String.eqb k k' || has_prop k ps.
Proof.
  induction ps as [|[k0 v0] rest IH]; cbn [put_key has_prop].
  - reflexivity.
  - destruct (String.eqb k' k0) eqn:E0.
    + apply String.eqb_eq in E0. subst k0. cbn [has_prop].
      destruct (String.eqb k k'); reflexivity.
    + destruct (key_before k' k0); cbn [has_prop].
      * reflexivity.
      * rewrite IH. destruct (String.eqb k k'), (String.eqb k k0);
          reflexivity.
Qed.

Lemma prop_in_order (f : Value -> Value) k ps :
  f VUndefined = VUndefined ->
  prop k (in_order f ps) = f (prop k ps).
Proof.
  intros Hf. induction ps as [|[k0 v0] rest IH]; cbn [in_order fold_right prop].
  - symmetry. exact Hf.
  - fold (in_order f rest). rewrite prop_put_key, IH.
    destruct (String.eqb k k0); reflexivity.
Qed.

Lemma has_prop_in_order (f : Value -> Value) k ps :
  has_prop k (in_order f ps) = has_prop k ps.
Proof.
  induction ps as [|[k0 v0] rest IH]; cbn [in_order fold_right has_prop].
  - reflexivity.
  - fold (in_order f rest). rewrite has_prop_put_key, IH. reflexivity.
Qed.

(** The column gives back the value it was given, the order of the keys
    apart. *)
Lemma jsonb_same v : same_json (jsonb v) v.
Proof.
  induction v as [ | | b | q | s | items IH | props IH] using Value_deep_ind;
    try apply same_value.
  - cbn [jsonb]. apply same_items.
    induction IH as [|x items Hx _ IHitems]; constructor; assumption.
  - cbn [jsonb]. apply same_props.
    + intros k. apply has_prop_in_order.
    + intros k. rewrite (prop_in_order jsonb k props eq_refl).
      induction IH as [|[k0 v0] rest Hx _ IHrest]; cbn [prop].
      * apply same_value.
      * destruct (String.eqb k k0); [exact Hx | exact IHrest].
Qed.

(** C1.  A key that has a row in HealthData is served from the store: the
    payload of the first matching row comes back with no call to the
    provider and both tables as they were.  Two calls in a row for a key
    that the first one populates make one call to the provider between
    them; the first returns the body of the provider and the second what
    the JSONB column gives back for it, which is the same value with the
    keys of its objects in the order of the column.  This is for a key and
    a body that Postgres takes as text and as JSONB, with no U+0000 and no
    half of a surrogate pair in them; a body that the column does not take
    populates no row: the answer is 500. *)
Theorem getSnapshot_read_through_once route user_id date w :
  (forall r,
      In r (healthData w) ->
      HealthData.user_id r = user_id ->
      HealthData.data_type r = data_type route ->
      HealthData.date r = date ->
      exists row,
        In row (healthData w)
        /\ HealthData.user_id row = user_id
        /\ HealthData.data_type row = data_type route
        /\ HealthData.date row = date
        /\ fst (getSnapshot route (Some user_id) (Some date) w)
           = json 200 (HealthData.data row)
        /\ upstream_calls (trace (snd (getSnapshot route (Some user_id)
                                         (Some date) w)))
           = upstream_calls (trace w)
        /\ healthData (snd (getSnapshot route (Some user_id) (Some date) w))
           = healthData w
        /\ users (snd (getSnapshot route (Some user_id) (Some date) w))
           = users w)
  /\
  (forall st d,
      findFirst (Some user_id) (data_type route) (Some date) (healthData w)
      = None ->
      remote (trace (log (HealthDataFindFirst (Some user_id) (data_type route)
                            (Some date)) w))
        (Get (snapshot_url route (Some user_id) (Some date)))
      = Replied st d ->
      validateStatus st = true ->
      truthy d = true ->
      refused_text user_id = false ->
      refused_text (data_type route) = false ->
      refused_text date = false ->
      let first := getSnapshot route (Some user_id) (Some date) w in
      let second := getSnapshot route (Some user_id) (Some date) (snd first) in
      (refused_jsonb d = false ->
       fst first = json 200 d
       /\ fst second = json 200 (jsonb d)
       /\ same_json (jsonb d) d
       /\ (exists row,
              healthData (snd first) = (healthData w ++ [row])%list
              /\ HealthData.user_id row = user_id
              /\ HealthData.data_type row = data_type route
              /\ HealthData.date row = date
              /\ HealthData.data row = jsonb d)
       /\ healthData (snd second) = healthData (snd first)
       /\ upstream_calls (trace (snd second)) = S (upstream_calls (trace w)))
      /\ (refused_jsonb d = true ->
          fst first = json 500 (VObj [("error", VStr invalid_invocation)])
          /\ healthData (snd first) = healthData w)).
Proof.
  split.
  - intros r Hin Hu Ht Hd.
    destruct (findFirst_exists user_id (data_type route) date (healthData w) r
                Hin) as (row & Hf & Hrow & Hm).
    { apply matches_key. auto. }
    apply matches_key in Hm. destruct Hm as (? & ? & ?).
    exists row. rewrite (getSnapshot_hit _ _ _ _ _ Hf). simpl.
    rewrite upstream_calls_snoc. simpl. repeat split; auto with arith.
  - intros st d Hmiss Hreply Hok Htruthy Hid Htype Hdate first second.
    split.
    + intros Hbody.
      pose (w1 := log (HealthDataFindFirst (Some user_id) (data_type route)
                         (Some date)) w).
      pose (w2 := log (Rook (Get (snapshot_url route (Some user_id)
                                    (Some date)))) w1).
      pose (t := now (trace w2)).
      pose (row := HealthData.mk (healthData_id_seq w) user_id
                     (data_type route) date (jsonb d) t).
      assert (Hfirst : first
        = (json 200 d,
           mkWorld (users w) (healthData w ++ [row])%list
             (healthData_id_seq w + 1)
             (trace w2 ++ [HealthDataCreate (Some user_id) (data_type route)
                             (Some date) d t])%list)).
      { unfold first. rewrite (getSnapshot_miss _ _ _ _ Hmiss). cbv zeta.
        rewrite Hreply, (settle_resolved _ _ Hok). cbn [data].
        rewrite Htruthy.
        rewrite (insert_healthData_truthy _ _ _ _ _ _ Htruthy Hid Htype
                   Hdate Hbody).
        reflexivity. }
      unfold second. rewrite Hfirst. cbn [fst snd].
      erewrite getSnapshot_hit.
      2:{ cbn [healthData]. unfold findFirst in *.
          rewrite (find_app_none _ _ _ Hmiss).
          cbn [List.find]. unfold row, matches, filter_eq.
          cbn [HealthData.user_id HealthData.data_type HealthData.date].
          rewrite !String.eqb_refl. reflexivity. }
      cbn [fst snd healthData trace log HealthData.data row].
      rewrite !upstream_calls_snoc. cbn [is_upstream_call].
      repeat apply conj; try reflexivity.
      * apply jsonb_same.
      * exists row. repeat apply conj; reflexivity.
      * unfold w2, w1. cbn [trace log]. rewrite !upstream_calls_snoc.
        cbn [is_upstream_call]. lia.
    + intros Hbody. unfold first.
      rewrite (getSnapshot_miss _ _ _ _ Hmiss). cbv zeta.
      rewrite Hreply, (settle_resolved _ _ Hok). cbn [data].
      rewrite Htruthy.
      rewrite (insert_healthData_refused _ _ _ _ _ _
                 (or_intror (or_intror Hbody))).
      split; reflexivity.
Qed.



(** What handleNoContent makes of a call that axios rejected is never the
    204 branch: a 204 reply is a resolved call, and the status of a
    rejected one is outside the success range. *)
Lemma handleNoContent_settle_not_204 wire e :
  settle wire = inl e -> statusCode (handleNoContent e) <> 204.
Proof.
  destruct wire as [st d|m]; simpl.
  - destruct (validateStatus st) eqn:Hv; [discriminate|].
    intros H. inversion H; subst. unfold handleNoContent. simpl.
    destruct (st =? 204) eqn:E.
    + apply Z.eqb_eq in E. subst. discriminate.
    + unfold error_outcome, error_status. simpl.
      destruct (st =? 0) eqn:E0; [discriminate|].
      apply Z.eqb_neq in E. exact E.
  - intros H. inversion H; subst. discriminate.
Qed.

(** No snapshot read ever ends in the no-content outcome of
    handleNoContent: whatever the store holds and whatever the provider
    does, a 204 reply included, the status written is not 204. *)
Lemma getSnapshot_never_no_content route user_id date w :
  statusCode (fst (getSnapshot route user_id date w)) <> 204.
Proof.
  destruct (findFirst user_id (data_type route) date (healthData w))
    as [row|] eqn:Hf.
  - rewrite (getSnapshot_hit _ _ _ _ _ Hf). discriminate.
  - rewrite (getSnapshot_miss _ _ _ _ Hf). cbv zeta.
    destruct (settle _) as [e|response] eqn:Hs.
    + apply (handleNoContent_settle_not_204 _ _ Hs).
    + destruct (truthy (data response)); [|discriminate].
      destruct (insert_healthData _ _ _ _ _ _); discriminate.
Qed.

(** A 204 reply on a miss takes the success path: the body goes back with
    status 200. *)
Lemma getSnapshot_reply_204 route user_id date w d :
  findFirst user_id (data_type route) date (healthData w) = None ->
  remote (trace (log (HealthDataFindFirst user_id (data_type route) date) w))
    (Get (snapshot_url route user_id date))
  = Replied 204 d ->
  truthy d = false ->
  getSnapshot route user_id date w
  = (json 200 d,
     log (Rook (Get (snapshot_url route user_id date)))
       (log (HealthDataFindFirst user_id (data_type route) date) w)).
Proof.
  intros Hmiss Hreply Ht.
  rewrite (getSnapshot_miss _ _ _ _ Hmiss). cbv zeta.
  rewrite Hreply. simpl. rewrite Ht. reflexivity.
Qed.

(** Had the call been rejected with a 204, the helper would have answered
    204 with no body. *)
Lemma handleNoContent_204 m d :
  handleNoContent (AxiosError m (Some (mkResponse 204 d))) = send 204.
Proof. reflexivity. Qed.

(** *** Upserts *)

Lemma user_args_inv f a :
  user_args f = Some a ->
  text_arg (User.f_date_of_birth f) = Some (a_date_of_birth a)
  /\ int_arg (User.f_height_cm f) = Some (a_height_cm a)
  /\ float_arg (User.f_weight_kg f) = Some (a_weight_kg a)
  /\ float_arg (User.f_bmi f) = Some (a_bmi a)
  /\ text_arg (User.f_sex f) = Some (a_sex a)
  /\ text_arg (User.f_time_zone f) = Some (a_time_zone a)
  /\ text_arg (User.f_offset f) = Some (a_offset a).
Proof.
  unfold user_args. intros H.
  destruct (text_arg (User.f_date_of_birth f)); [|discriminate].
  destruct (int_arg (User.f_height_cm f)); [|discriminate].
  destruct (float_arg (User.f_weight_kg f)); [|discriminate].
  destruct (float_arg (User.f_bmi f)); [|discriminate].
  destruct (text_arg (User.f_sex f)); [|discriminate].
  destruct (text_arg (User.f_time_zone f)); [|discriminate].
  destruct (text_arg (User.f_offset f)); [|discriminate].
  inversion H; subst. simpl. repeat split; reflexivity.
Qed.

Lemma upsert_users_inv uid f us us' :
  upsert_users (VStr uid) f (User.mkCreate (VStr uid) f) us = Some us' ->
  exists a,
    user_args f = Some a
    /\ us' = <[uid := match us !! uid with
                      | Some row => update_user a row
                      | None => create_user uid a
                      end]> us.
Proof.
  unfold upsert_users. simpl. intros H.
  destruct (user_args f) as [a|]; [|discriminate].
  destruct (refused_text uid); [discriminate|]. simpl in H.
  exists a. split; [reflexivity|].
  inversion H; subst. destruct (us !! uid); reflexivity.
Qed.

Lemma upsert_users_run uid f us :
  upsert_users (VStr uid) f (User.mkCreate (VStr uid) f) us
  = if refused_text uid then None
    else match user_args f with
         | Some a =>
             Some (<[uid := match us !! uid with
                            | Some row => update_user a row
                            | None => create_user uid a
                            end]> us)
         | None => None
         end.
Proof.
  unfold upsert_users. simpl.
  destruct (user_args f) as [a|]; destruct (refused_text uid); try reflexivity.
  simpl. destruct (us !! uid); reflexivity.
Qed.

(** A string of ASCII characters other than U+0000 is a text. *)
Lemma plain_text (p : ascii -> bool) (s : string) :
  forallb p (list_ascii_of_string s) = true ->
  (forall c, p c = true -> (1 <=? N_of_ascii c)%N && (N_of_ascii c <? 128)%N
                           = true) ->
  refused_text s = false.
Proof.
  intros Hall Hp. unfold refused_text. apply orb_false_iff. split.
  - unfold has_nul.
    induction (list_ascii_of_string s) as [|c cs IH]; [reflexivity|].
    cbn [forallb existsb] in *.
    apply andb_true_iff in Hall. destruct Hall as [Hc Hcs].
    rewrite (IH Hcs), orb_false_r.
    destruct (Ascii.eqb Ascii.zero c) eqn:E; [|reflexivity].
    apply Ascii.eqb_eq in E. subst c. apply Hp in Hc. discriminate Hc.
  - induction s as [|c s IH]; [reflexivity|].
    cbn [list_ascii_of_string forallb] in Hall.
    apply andb_true_iff in Hall. destruct Hall as [Hc Hcs].
    cbn [has_surrogate]. destruct s as [|d s]; [reflexivity|].
    rewrite (IH Hcs), orb_false_r.
    apply Hp in Hc. apply andb_true_iff in Hc. destruct Hc as [_ Hc].
    apply N.ltb_lt in Hc.
    replace (N_of_ascii c =? 237)%N with false; [reflexivity|].
    symmetry. apply N.eqb_neq. lia.
Qed.

Lemma in_range_plain lo hi c :
  in_range lo hi c = true -> (1 <=? lo)%N && (hi <? 128)%N = true ->
  (1 <=? N_of_ascii c)%N && (N_of_ascii c <? 128)%N = true.
Proof.
  unfold in_range. intros Hc Hr.
  apply andb_true_iff in Hc. destruct Hc as [H1 H2].
  apply andb_true_iff in Hr. destruct Hr as [H3 H4].
  apply N.leb_le in H1, H2, H3. apply N.ltb_lt in H4.
  apply andb_true_iff. split; [apply N.leb_le | apply N.ltb_lt]; lia.
Qed.

(** What userSchema lets through is a text. *)
Lemma user_id_pattern_nul s :
  user_id_pattern s = true -> refused_text s = false.
Proof.
  unfold user_id_pattern. intros H.
  apply andb_true_iff in H. destruct H as [_ H].
  apply (plain_text _ _ H). intros c Hc. unfold is_id_char, is_digit in Hc.
  repeat (apply orb_true_iff in Hc; destruct Hc as [Hc | Hc]);
    exact (in_range_plain _ _ _ Hc eq_refl).
Qed.

Lemma submitProfile_invalid body e w :
  userSchema_validate body = Some e ->
  submitProfile body w = (json 422 (error_body (joi_message e)), w).
Proof. intros H. unfold submitProfile. rewrite H. reflexivity. Qed.

Lemma submitProfile_valid body w :
  userSchema_validate body = None ->
  let request := Post "/api/v2/user-information" body in
  let w1 := log (Rook request) w in
  let w2 := log (UserUpsert (field body "user_id") (profile_fields body)
                   (profile_create body)) w1 in
  submitProfile body w
  = match settle (remote (trace w) request) with
    | inl e => (error_outcome e, w1)
    | inr response =>
        match upsert_users (field body "user_id") (profile_fields body)
                (profile_create body) (users w) with
        | Some us =>
            (json (status response) (data response),
             mkWorld us (healthData w) (healthData_id_seq w) (trace w2))
        | None =>
            (error_outcome (PrismaClientError invalid_invocation),
             w2)
        end
    end.
Proof.
  intros H. unfold submitProfile. rewrite H.
  unfold try_respond, bind, rookApi_post, rookApi, prisma_user_upsert.
  cbv zeta. destruct (settle _) as [e|response]; [reflexivity|].
  simpl. destruct (upsert_users _ _ _ _); reflexivity.
Qed.

(** C7.  A body that userSchema refuses is answered with status 422 and the
    message of the first failure; the world is left exactly as it was, so
    neither the provider nor the store has been called. *)
Theorem submitProfile_validation_short_circuits body e w :
  userSchema_validate body = Some e ->
  fst (submitProfile body w) = json 422 (error_body (joi_message e))
  /\ statusCode (fst (submitProfile body w)) = 422
  /\ snd (submitProfile body w) = w
  /\ upstream_calls (trace (snd (submitProfile body w)))
     = upstream_calls (trace w)
  /\ store_calls (trace (snd (submitProfile body w))) = store_calls (trace w).
Proof.
  intros H. rewrite (submitProfile_invalid _ _ _ H). simpl.
  repeat split; reflexivity.
Qed.

Lemma first_error_none checks :
  first_error checks = None -> Forall (fun c => snd c = None) checks.
Proof.
  induction checks as [|[k [r|]] rest IH]; simpl; intros H.
  - constructor.
  - discriminate.
  - constructor; [reflexivity | exact (IH H)].
Qed.

(** What a body that passes userSchema looks like. *)
Lemma userSchema_valid_inv body :
  userSchema_validate body = None ->
  exists props,
    body = VObj props
    /\ required (joi_string StringIsoDate isoDate) (prop "datetime" props)
       = None
    /\ required (joi_string StringPatternBase user_id_pattern)
         (prop "user_id" props) = None
    /\ optional (joi_string StringPatternBase date_pattern)
         (prop "date_of_birth_string" props) = None
    /\ optional (joi_number true) (prop "height_cm_int" props) = None
    /\ optional (joi_number false) (prop "weight_kg_float" props) = None
    /\ optional (joi_number false) (prop "bmi_float" props) = None
    /\ optional (joi_valid ["female"; "male"]) (prop "sex_string" props)
       = None
    /\ unknown_key props = None.
Proof.
  unfold userSchema_validate. destruct body; try discriminate.
  destruct (first_error _) eqn:E; [discriminate|].
  destruct (unknown_key props) eqn:U; [discriminate|]. intros _.
  apply first_error_none in E.
  repeat match goal with
         | H : Forall _ (_ :: _) |- _ => inversion H; subst; clear H
         end.
  exists props. simpl in *. repeat split; assumption.
Qed.

Lemma userSchema_valid_user_id body :
  userSchema_validate body = None ->
  exists uid, field body "user_id" = VStr uid /\ user_id_pattern uid = true.
Proof.
  intros H. apply userSchema_valid_inv in H.
  destruct H as (props & -> & _ & Hu & _). simpl.
  destruct (prop "user_id" props); simpl in Hu; try discriminate.
  destruct (String.eqb s ""); [discriminate|].
  destruct (user_id_pattern s) eqn:P; [|discriminate].
  exists s. split; [reflexivity | exact P].
Qed.

(** A body with no user_id, or with one of another shape, is refused. *)
Lemma userSchema_refuses_user_id props :
  (forall s, prop "user_id" props = VStr s -> user_id_pattern s = false) ->
  userSchema_validate (VObj props) <> None.
Proof.
  intros H Hv. apply userSchema_valid_user_id in Hv.
  destruct Hv as (uid & Hf & Hp). simpl in Hf.
  rewrite (H _ Hf) in Hp. discriminate.
Qed.

(** A date of birth, height, weight, bmi or sex that is given and fails its
    own check makes the body refused. *)
Lemma userSchema_refuses_field props :
  optional (joi_string StringPatternBase date_pattern)
    (prop "date_of_birth_string" props) <> None
  \/ optional (joi_number true) (prop "height_cm_int" props) <> None
  \/ optional (joi_number false) (prop "weight_kg_float" props) <> None
  \/ optional (joi_number false) (prop "bmi_float" props) <> None
  \/ optional (joi_valid ["female"; "male"]) (prop "sex_string" props)
     <> None ->
  userSchema_validate (VObj props) <> None.
Proof.
  intros H Hv. apply userSchema_valid_inv in Hv.
  destruct Hv as (props' & E & _ & _ & ? & ? & ? & ? & ? & _).
  inversion E; subst.
  destruct H as [H|[H|[H|[H|H]]]]; apply H; assumption.
Qed.

Lemma date_pattern_nul s : date_pattern s = true -> refused_text s = false.
Proof.
  intros H.
  apply (plain_text
           (fun c => in_range 48 57 c || in_range 45 45 c) s).
  - unfold date_pattern in H.
    destruct (list_ascii_of_string s)
      as [|y1 [|y2 [|y3 [|y4 [|h1 [|m1 [|m2 [|h2 [|d1 [|d2 [|x rest]]]]]]]]]]];
      try discriminate.
    repeat match type of H with
           | (_ && _) = true =>
               let Hc := fresh "Hc" in
               apply andb_true_iff in H; destruct H as [H Hc]
           end.
    unfold is_digit in *. cbn [forallb].
    repeat match goal with
           | Hc : in_range _ _ ?c = true |- _ => rewrite Hc; clear Hc
           end.
    rewrite ?orb_true_r. reflexivity.
  - intros c Hc. apply orb_true_iff in Hc.
    destruct Hc as [Hc | Hc]; exact (in_range_plain _ _ _ Hc eq_refl).
Qed.

(** What the store is handed by a body that userSchema let through, if its
    numbers are numbers and its height fits the INTEGER column: every key
    that is given is a value to write, every key that is not is left
    alone. *)
Lemma profile_args_taken body :
  userSchema_validate body = None ->
  (forall s, field body "height_cm_int" <> VStr s) ->
  (forall s, field body "weight_kg_float" <> VStr s) ->
  (forall s, field body "bmi_float" <> VStr s) ->
  (forall q, field body "height_cm_int" = VNum q ->
             - 2147483648 <= Z.quot (Qnum q) (Z.pos (Qden q)) <= 2147483647) ->
  user_args (profile_fields body)
  = Some (mkUserArgs
            match field body "date_of_birth_string" with
            | VStr s => Put s
            | _ => Keep
            end
            match field body "height_cm_int" with
            | VNum q => Put (Z.quot (Qnum q) (Z.pos (Qden q)))
            | _ => Keep
            end
            match field body "weight_kg_float" with
            | VNum q => Put q
            | _ => Keep
            end
            match field body "bmi_float" with
            | VNum q => Put q
            | _ => Keep
            end
            match field body "sex_string" with
            | VStr s => Put s
            | _ => Keep
            end
            Keep Keep).
Proof.
  intros Hvalid Hh Hw Hb Hrange.
  destruct (userSchema_valid_inv _ Hvalid)
    as (props & -> & _ & _ & Hdob & Hheight & Hweight & Hbmi & Hsex & _).
  unfold user_args, profile_fields. cbn [field] in *.
  cbn [User.f_date_of_birth User.f_height_cm User.f_weight_kg User.f_bmi
       User.f_sex User.f_time_zone User.f_offset].
  assert (E1 : text_arg (prop "date_of_birth_string" props)
               = Some match prop "date_of_birth_string" props with
                      | VStr s => Put s
                      | _ => Keep
                      end).
  { destruct (prop "date_of_birth_string" props); simpl in *;
      try discriminate; try reflexivity.
    destruct (String.eqb s ""); [discriminate|].
    destruct (date_pattern s) eqn:P; [|discriminate].
    rewrite (date_pattern_nul _ P). reflexivity. }
  assert (E2 : int_arg (prop "height_cm_int" props)
               = Some match prop "height_cm_int" props with
                      | VNum q => Put (Z.quot (Qnum q) (Z.pos (Qden q)))
                      | _ => Keep
                      end).
  { destruct (prop "height_cm_int" props) eqn:E; simpl in *;
      try discriminate; try reflexivity.
    - unfold number_rules in Hheight.
      destruct (is_safe q); simpl in Hheight; [|discriminate].
      destruct (is_integer q); simpl in Hheight; [|discriminate].
      specialize (Hrange q eq_refl).
      replace (- 2147483648 <=? Z.quot (Qnum q) (Z.pos (Qden q)))
        with true by (symmetry; apply Z.leb_le; lia).
      replace (Z.quot (Qnum q) (Z.pos (Qden q)) <=? 2147483647)
        with true by (symmetry; apply Z.leb_le; lia).
      reflexivity.
    - contradiction (Hh s). reflexivity. }
  assert (E3 : float_arg (prop "weight_kg_float" props)
               = Some match prop "weight_kg_float" props with
                      | VNum q => Put q
                      | _ => Keep
                      end).
  { destruct (prop "weight_kg_float" props) eqn:E; simpl in *;
      try discriminate; try reflexivity.
    contradiction (Hw s). reflexivity. }
  assert (E4 : float_arg (prop "bmi_float" props)
               = Some match prop "bmi_float" props with
                      | VNum q => Put q
                      | _ => Keep
                      end).
  { destruct (prop "bmi_float" props) eqn:E; simpl in *;
      try discriminate; try reflexivity.
    contradiction (Hb s). reflexivity. }
  assert (E5 : text_arg (prop "sex_string" props)
               = Some match prop "sex_string" props with
                      | VStr s => Put s
                      | _ => Keep
                      end).
  { destruct (prop "sex_string" props); simpl in *;
      try discriminate; try reflexivity.
    destruct (String.eqb s "female") eqn:F;
      [apply String.eqb_eq in F; subst; reflexivity|].
    destruct (String.eqb s "male") eqn:M;
      [apply String.eqb_eq in M; subst; reflexivity | discriminate]. }
  rewrite E1, E2, E3, E4, E5. reflexivity.
Qed.

Lemma text_arg_undefined a : text_arg VUndefined = Some a -> a = Keep.
Proof. simpl. congruence. Qed.

Lemma int_arg_undefined a : int_arg VUndefined = Some a -> a = Keep.
Proof. simpl. congruence. Qed.

Lemma float_arg_undefined a : float_arg VUndefined = Some a -> a = Keep.
Proof. simpl. congruence. Qed.

(** C2.  A valid body that the provider accepts is merged into the stored
    row of its user: a key that the body does not have leaves its column as
    it was, so no stored value is replaced by null; time_zone and offset are
    never touched; and when the store takes the write, the columns of the
    keys that are present hold the values of the body.  No other row
    changes. *)
Theorem submitProfile_merges_fields body uid row w st d :
  userSchema_validate body = None ->
  field body "user_id" = VStr uid ->
  users w !! uid = Some row ->
  remote (trace w) (Post "/api/v2/user-information" body) = Replied st d ->
  validateStatus st = true ->
  exists row',
    users (snd (submitProfile body w)) !! uid = Some row'
    /\ User.user_id row' = User.user_id row
    /\ (field body "date_of_birth_string" = VUndefined ->
        User.date_of_birth row' = User.date_of_birth row)
    /\ (field body "height_cm_int" = VUndefined ->
        User.height_cm row' = User.height_cm row)
    /\ (field body "weight_kg_float" = VUndefined ->
        User.weight_kg row' = User.weight_kg row)
    /\ (field body "bmi_float" = VUndefined -> User.bmi row' = User.bmi row)
    /\ (field body "sex_string" = VUndefined -> User.sex row' = User.sex row)
    /\ User.time_zone row' = User.time_zone row
    /\ User.offset row' = User.offset row
    /\ (forall a,
          user_args (profile_fields body) = Some a ->
          row' = update_user a row
          /\ fst (submitProfile body w) = json st d)
    /\ (forall other, other <> uid ->
          users (snd (submitProfile body w)) !! other = users w !! other)
    /\ healthData (snd (submitProfile body w)) = healthData w.
Proof.
  intros Hvalid Huid Hrow Hreply Hok.
  rewrite (submitProfile_valid _ _ Hvalid). cbv zeta.
  rewrite Hreply, (settle_resolved _ _ Hok). unfold profile_create.
  rewrite Huid.
  destruct (upsert_users _ _ _ _) as [us|] eqn:Hup.
  - destruct (upsert_users_inv _ _ _ _ Hup) as (a & Hargs & ->).
    rewrite Hrow. exists (update_user a row). simpl.
    rewrite lookup_insert_eq.
    destruct (user_args_inv _ _ Hargs) as (H1 & H2 & H3 & H4 & H5 & H6 & H7).
    simpl in H1, H2, H3, H4, H5, H6, H7.
    apply text_arg_undefined in H6, H7.
    unfold update_user, write_user. simpl. rewrite H6, H7. simpl.
    repeat apply conj; try reflexivity.
    + intros E. rewrite E in H1. apply text_arg_undefined in H1.
      rewrite H1. reflexivity.
    + intros E. rewrite E in H2. apply int_arg_undefined in H2.
      rewrite H2. reflexivity.
    + intros E. rewrite E in H3. apply float_arg_undefined in H3.
      rewrite H3. reflexivity.
    + intros E. rewrite E in H4. apply float_arg_undefined in H4.
      rewrite H4. reflexivity.
    + intros E. rewrite E in H5. apply text_arg_undefined in H5.
      rewrite H5. reflexivity.
    + intros a' Ha'. rewrite Hargs in Ha'. inversion Ha'; subst.
      rewrite H6, H7. split; reflexivity.
    + intros other Hne. apply lookup_insert_ne. congruence.
  - exists row. simpl. repeat apply conj; auto.
    intros a Ha. rewrite upsert_users_run, Ha in Hup.
    destruct (userSchema_valid_user_id _ Hvalid) as (uid' & Huid' & Hp).
    rewrite Huid in Huid'. inversion Huid'; subst uid'.
    rewrite (user_id_pattern_nul _ Hp) in Hup. discriminate.
Qed.

(** C3.  When the provider does not accept a valid body, nothing is written:
    both tables are as they were and no store call is issued.  A reply
    outside the success range is answered with its status and, as the
    error of the body, the message of the axios error; a call that got no
    reply is answered with 500 and the message of the transport error.
    Whatever the provider does, one call writes to the store at most once,
    and only after the provider has replied in the success range. *)
Theorem submitProfile_no_write_on_upstream_failure body w :
  userSchema_validate body = None ->
  (forall st d,
      remote (trace w) (Post "/api/v2/user-information" body) = Replied st d ->
      validateStatus st = false ->
      fst (submitProfile body w)
      = json (if st =? 0 then 500 else st)
          (VObj [("error",
                  VStr ("Request failed with status code " +:+ pretty st))])
      /\ users (snd (submitProfile body w)) = users w
      /\ healthData (snd (submitProfile body w)) = healthData w
      /\ store_calls (trace (snd (submitProfile body w)))
         = store_calls (trace w))
  /\ (forall m,
        remote (trace w) (Post "/api/v2/user-information" body) = NoReply m ->
        fst (submitProfile body w) = json 500 (VObj [("error", VStr m)])
        /\ users (snd (submitProfile body w)) = users w
        /\ healthData (snd (submitProfile body w)) = healthData w
        /\ store_calls (trace (snd (submitProfile body w)))
           = store_calls (trace w))
  /\ (store_writes (trace (snd (submitProfile body w)))
      <= store_writes (trace w) + 1)%nat
  /\ (store_writes (trace (snd (submitProfile body w)))
      <> store_writes (trace w) ->
      exists st d,
        remote (trace w) (Post "/api/v2/user-information" body) = Replied st d
        /\ validateStatus st = true).
Proof.
  intros Hvalid. rewrite (submitProfile_valid _ _ Hvalid). cbv zeta.
  repeat apply conj.
  - intros st d Hr Hv. rewrite Hr, (settle_rejected _ _ Hv). simpl.
    rewrite store_calls_snoc. simpl. repeat apply conj; try reflexivity. lia.
  - intros m Hr. rewrite Hr. simpl. rewrite store_calls_snoc. simpl.
    repeat apply conj; try reflexivity. lia.
  - destruct (settle _); [|destruct (upsert_users _ _ _ _)]; simpl;
      rewrite ?store_writes_snoc; simpl; lia.
  - destruct (remote (trace w) _) as [st d|m] eqn:Hr; simpl.
    + destruct (validateStatus st) eqn:Hv.
      * intros _. exists st, d. split; [reflexivity | exact Hv].
      * simpl. rewrite store_writes_snoc. simpl. lia.
    + rewrite store_writes_snoc. simpl. lia.
Qed.

(** *** setTimeZone *)

Lemma setTimeZone_run user_id tz off w :
  let request := timezone_request user_id tz off in
  let w1 := log (Rook request) w in
  let w2 := log (UserUpsert (VStr user_id) (timezone_fields tz off)
                   (User.mkCreate (VStr user_id) (timezone_fields tz off)))
              w1 in
  setTimeZone user_id tz off w
  = match settle (remote (trace w) request) with
    | inl e => (error_outcome e, w1)
    | inr response =>
        match upsert_users (VStr user_id) (timezone_fields tz off)
                (User.mkCreate (VStr user_id) (timezone_fields tz off))
                (users w) with
        | Some us =>
            (json (status response) (data response),
             mkWorld us (healthData w) (healthData_id_seq w) (trace w2))
        | None =>
            (error_outcome (PrismaClientError invalid_invocation),
             w2)
        end
    end.
Proof.
  unfold setTimeZone, try_respond, bind, rookApi, prisma_user_upsert.
  cbv zeta. destruct (settle _) as [e|response]; [reflexivity|].
  simpl. destruct (upsert_users _ _ _ _); reflexivity.
Qed.

Lemma timezone_args tz off a_tz a_off :
  text_arg tz = Some a_tz -> text_arg off = Some a_off ->
  user_args (timezone_fields tz off)
  = Some (mkUserArgs Keep Keep Keep Keep Keep a_tz a_off).
Proof. intros H1 H2. unfold user_args. simpl. rewrite H1, H2. reflexivity. Qed.

(** What a TEXT column makes of an argument: it takes undefined, null and
    a string that is a text, and nothing else. *)
Lemma text_arg_taken v :
  match v with
  | VUndefined | VNull => True
  | VStr s => refused_text s = false
  | _ => False
  end ->
  exists a,
    text_arg v = Some a
    /\ forall old,
        apply_arg a old
        = match v with
          | VStr s => Some s
          | VNull => None
          | _ => old
          end.
Proof.
  destruct v; simpl; intros H; try contradiction.
  - exists Keep. split; reflexivity.
  - exists Clear. split; reflexivity.
  - rewrite H. exists (Put s). split; reflexivity.
Qed.

Lemma text_arg_not_taken v :
  ~ match v with
    | VUndefined | VNull => True
    | VStr s => refused_text s = false
    | _ => False
    end ->
  text_arg v = None.
Proof.
  destruct v; simpl; intros H; try reflexivity;
    try (contradiction H; exact I).
  destruct (refused_text s); [reflexivity | contradiction H; reflexivity].
Qed.

Lemma setTimeZone_stores_text user_id tz off w st d a_tz a_off :
  remote (trace w) (timezone_request user_id tz off) = Replied st d ->
  validateStatus st = true ->
  refused_text user_id = false ->
  text_arg tz = Some a_tz ->
  text_arg off = Some a_off ->
  fst (setTimeZone user_id tz off w) = json st d
  /\ users (snd (setTimeZone user_id tz off w))
     = <[user_id := match users w !! user_id with
                    | Some row =>
                        User.mk (User.user_id row) (User.date_of_birth row)
                          (User.height_cm row) (User.weight_kg row)
                          (User.bmi row) (User.sex row)
                          (apply_arg a_tz (User.time_zone row))
                          (apply_arg a_off (User.offset row))
                    | None =>
                        User.mk user_id None None None None None
                          (apply_arg a_tz None) (apply_arg a_off None)
                    end]> (users w).
Proof.
  intros Hr Hv Hid H1 H2. rewrite setTimeZone_run. cbv zeta.
  rewrite Hr, (settle_resolved _ _ Hv), upsert_users_run, Hid.
  rewrite (timezone_args _ _ _ _ H1 H2).
  destruct (users w !! user_id) as [row|]; split; reflexivity.
Qed.

(** A user_id, time_zone or offset that no TEXT column can hold reaches the
    upsert all the same; the store refuses the write and the answer is
    500. *)
Lemma setTimeZone_refused_by_store user_id tz off w st d :
  remote (trace w) (timezone_request user_id tz off) = Replied st d ->
  validateStatus st = true ->
  refused_text user_id = true \/ text_arg tz = None \/ text_arg off = None ->
  fst (setTimeZone user_id tz off w)
  = json 500 (VObj [("error", VStr invalid_invocation)])
  /\ users (snd (setTimeZone user_id tz off w)) = users w.
Proof.
  intros Hr Hv Ht. rewrite setTimeZone_run. cbv zeta.
  rewrite Hr, (settle_resolved _ _ Hv), upsert_users_run.
  destruct (refused_text user_id); [split; reflexivity|].
  unfold user_args. simpl.
  destruct Ht as [Ht | [-> | ->]]; [discriminate Ht | |];
    [|destruct (text_arg tz)]; split; reflexivity.
Qed.

(** C10.  setTimeZone checks nothing: for every user_id, time_zone and
    offset, given or not and of any shape, the first thing it does is the
    call to the provider, a POST to /api/v1/user_id/<user_id>/time_zone
    with the two values as they came, and it answers 422 only if that is
    the provider's own status.  When the provider replies in the success
    range, the upsert is issued with exactly these values.  The store takes
    it when the user_id is a text for Postgres, with no U+0000 and no half
    of a surrogate pair in it, and each value is absent, null or a string
    that is such a text: a string is then what the column holds, whatever
    it held before, null clears it, an absent value leaves
    the column of an existing row alone and is null in a row that the
    upsert creates, no other column and no other row changes, and the
    reply of the provider goes back.  Otherwise the store refuses the
    write, which leaves the table as it was and the answer at 500. *)
Theorem setTimeZone_does_not_validate user_id tz off w :
  let request :=
    Post ("/api/v1/user_id/" +:+ user_id +:+ "/time_zone")
      (VObj [("time_zone", tz); ("offset", off)]) in
  let fields :=
    User.mkFields VUndefined VUndefined VUndefined VUndefined VUndefined
      tz off in
  let takes (v : Value) :=
    match v with
    | VUndefined | VNull => True
    | VStr s => refused_text s = false
    | _ => False
    end in
  let written (v : Value) (old : option string) :=
    match v with
    | VStr s => Some s
    | VNull => None
    | _ => old
    end in
  let result := setTimeZone user_id tz off w in
  (exists rest, trace (snd result) = (trace w ++ Rook request :: rest)%list)
  /\ upstream_calls (trace (snd result)) = S (upstream_calls (trace w))
  /\ (statusCode (fst result) = 422 ->
      exists d, remote (trace w) request = Replied 422 d)
  /\ (forall st d,
        remote (trace w) request = Replied st d ->
        validateStatus st = true ->
        trace (snd result)
        = (trace w
           ++ [Rook request;
               UserUpsert (VStr user_id) fields
                 (User.mkCreate (VStr user_id) fields)])%list
        /\ (refused_text user_id = false -> takes tz -> takes off ->
            fst result = json st d
            /\ users (snd result)
               = <[user_id :=
                     match users w !! user_id with
                     | Some row =>
                         User.mk (User.user_id row) (User.date_of_birth row)
                           (User.height_cm row) (User.weight_kg row)
                           (User.bmi row) (User.sex row)
                           (written tz (User.time_zone row))
                           (written off (User.offset row))
                     | None =>
                         User.mk user_id None None None None None
                           (written tz None) (written off None)
                     end]> (users w))
        /\ (refused_text user_id = true \/ ~ takes tz \/ ~ takes off ->
            fst result = json 500 (VObj [("error", VStr invalid_invocation)])
            /\ users (snd result) = users w)).
Proof.
  cbv zeta.
  change (Post ("/api/v1/user_id/" +:+ user_id +:+ "/time_zone")
            (VObj [("time_zone", tz); ("offset", off)]))
    with (timezone_request user_id tz off).
  change (User.mkFields VUndefined VUndefined VUndefined VUndefined
            VUndefined tz off)
    with (timezone_fields tz off).
  repeat apply conj.
  - rewrite setTimeZone_run. cbv zeta.
    destruct (settle _); [|destruct (upsert_users _ _ _ _)]; simpl;
      rewrite <- ?app_assoc; eexists; reflexivity.
  - rewrite setTimeZone_run. cbv zeta.
    destruct (settle _); [|destruct (upsert_users _ _ _ _)]; simpl;
      rewrite ?upstream_calls_snoc; simpl; lia.
  - rewrite setTimeZone_run. cbv zeta.
    destruct (remote (trace w) _) as [st d|m]; simpl.
    + destruct (validateStatus st) eqn:Hv; simpl.
      * destruct (upsert_users _ _ _ _); simpl; intros E; [|discriminate].
        subst. discriminate.
      * unfold error_status. simpl. destruct (st =? 0); [discriminate|].
        intros ->. exists d. reflexivity.
    + discriminate.
  - intros st d Hr Hv. repeat apply conj.
    + rewrite setTimeZone_run. cbv zeta.
      rewrite Hr, (settle_resolved _ _ Hv).
      destruct (upsert_users _ _ _ _); simpl; rewrite <- app_assoc;
        reflexivity.
    + intros Hid Htz Hoff.
      destruct (text_arg_taken _ Htz) as (a_tz & H1 & Etz).
      destruct (text_arg_taken _ Hoff) as (a_off & H2 & Eoff).
      destruct (setTimeZone_stores_text user_id tz off w st d a_tz a_off
                  Hr Hv Hid H1 H2) as (Hout & Husers).
      split; [exact Hout|]. rewrite Husers.
      destruct (users w !! user_id) as [row|]; rewrite !Etz, !Eoff;
        reflexivity.
    + intros Hno. apply (setTimeZone_refused_by_store _ _ _ _ _ _ Hr Hv).
      destruct Hno as [Hid | [Htz | Hoff]];
        [ left; exact Hid
        | right; left; exact (text_arg_not_taken _ Htz)
        | right; right; exact (text_arg_not_taken _ Hoff) ].
Qed.

(** *** getProfile *)

Lemma read_field v k : nullish v = false -> read v k = inr (field v k).
Proof. destruct v; simpl; intros H; try discriminate; reflexivity. Qed.

Lemma truthy_not_nullish v : truthy v = true -> nullish v = false.
Proof. destruct v; simpl; intros H; try discriminate; reflexivity. Qed.

Lemma member_opt_field v k w : member_opt v k w = (inr (field v k), w).
Proof. destruct v; reflexivity. Qed.

Lemma date_of_birth_string_run d w :
  nullish d = false ->
  truthy (field d "user_information") = true ->
  date_of_birth_string d w = (inr (birth_date_in d), w).
Proof.
  intros Hd Hu. unfold date_of_birth_string, bind, member, lift.
  rewrite (read_field _ _ Hd).
  rewrite (read_field _ _ (truthy_not_nullish _ Hu)).
  apply member_opt_field.
Qed.

Lemma getProfile_cached user_id date w row :
  users w !! user_id = Some row ->
  absent date = true ->
  getProfile user_id date w
  = (json 200 (stored_profile row), log (UserFindUnique user_id) w).
Proof.
  intros Hrow Hdate.
  unfold getProfile, try_respond, bind, prisma_user_findUnique.
  rewrite Hrow, Hdate. reflexivity.
Qed.

Lemma getProfile_upstream user_id date w :
  users w !! user_id = None \/ absent date = false ->
  let request := Get (profile_url user_id date) in
  let w1 := log (UserFindUnique user_id) w in
  let w2 := log (Rook request) w1 in
  let w3 d := log (UserUpsert (VStr user_id) (birth_fields (birth_date_in d))
                     (User.mkCreate (VStr user_id)
                        (birth_fields (birth_date_in d)))) w2 in
  getProfile user_id date w
  = match settle (remote (trace w1) request) with
    | inl e => (handleNoContent e, w2)
    | inr response =>
        match read (data response) "user_information" with
        | inl e => (handleNoContent e, w2)
        | inr user_information =>
            if truthy user_information then
              match upsert_users (VStr user_id)
                      (birth_fields (birth_date_in (data response)))
                      (User.mkCreate (VStr user_id)
                         (birth_fields (birth_date_in (data response))))
                      (users w) with
              | Some us =>
                  (json (status response) (data response),
                   mkWorld us (healthData w) (healthData_id_seq w)
                     (trace (w3 (data response))))
              | None =>
                  (handleNoContent
                     (PrismaClientError invalid_invocation),
                   w3 (data response))
              end
            else (json (status response) (data response), w2)
        end
    end.
Proof.
  intros Hpath. cbv zeta.
  unfold getProfile, try_respond, bind.
  unfold prisma_user_findUnique at 1. cbv beta iota.
  destruct (users w !! user_id) as [row|] eqn:Hrow;
    destruct (absent date) eqn:Hdate;
    try (destruct Hpath; discriminate);
    unfold rookApi_get, rookApi; cbv beta iota; cbn [trace log];
    (destruct (settle _) as [e|response]; [reflexivity|]);
    unfold member, lift; cbv beta iota;
    (destruct (read (data response) "user_information") as [e|ui] eqn:Hread;
     [reflexivity|]);
    (destruct (truthy ui) eqn:Hui; [|reflexivity]);
    (assert (Hd : nullish (data response) = false)
       by (destruct (data response); simpl in *; try discriminate;
           reflexivity));
    (assert (Hu : truthy (field (data response) "user_information") = true)
       by (rewrite (read_field _ _ Hd) in Hread; inversion Hread; subst;
           exact Hui));
    rewrite (date_of_birth_string_run _ _ Hd Hu);
    unfold prisma_user_upsert; cbv zeta; cbn [users trace log];
    destruct (upsert_users _ _ _ _); reflexivity.
Qed.

(** C8.  With no date and a stored row for the user, getProfile answers
    200 with that row, column by column, a column that is null being null,
    wrapped as the user_information of a user_info, after a single lookup:
    the provider is not called, nothing is written and both tables are as
    they were. *)
Theorem getProfile_serves_stored_profile user_id date w row :
  users w !! user_id = Some row ->
  absent date = true ->
  fst (getProfile user_id date w)
  = json 200
      (VObj [("data_structure", VStr "user_info");
             ("user_information",
              VObj [("user_id", VStr (User.user_id row));
                    ("date_of_birth",
                     match User.date_of_birth row with
                     | Some s => VStr s
                     | None => VNull
                     end);
                    ("height_cm",
                     match User.height_cm row with
                     | Some n => VNum (inject_Z n)
                     | None => VNull
                     end);
                    ("weight_kg",
                     match User.weight_kg row with
                     | Some q => VNum q
                     | None => VNull
                     end);
                    ("bmi",
                     match User.bmi row with
                     | Some q => VNum q
                     | None => VNull
                     end);
                    ("sex",
                     match User.sex row with
                     | Some s => VStr s
                     | None => VNull
                     end);
                    ("time_zone",
                     match User.time_zone row with
                     | Some s => VStr s
                     | None => VNull
                     end);
                    ("offset",
                     match User.offset row with
                     | Some s => VStr s
                     | None => VNull
                     end)])])
  /\ trace (snd (getProfile user_id date w))
     = (trace w ++ [UserFindUnique user_id])%list
  /\ upstream_calls (trace (snd (getProfile user_id date w)))
     = upstream_calls (trace w)
  /\ store_writes (trace (snd (getProfile user_id date w)))
     = store_writes (trace w)
  /\ users (snd (getProfile user_id date w)) = users w
  /\ healthData (snd (getProfile user_id date w)) = healthData w.
Proof.
  intros Hrow Hdate. rewrite (getProfile_cached _ _ _ _ Hrow Hdate). simpl.
  rewrite upstream_calls_snoc, store_writes_snoc. simpl.
  repeat apply conj; try reflexivity; lia.
Qed.

Lemma birth_args v a :
  text_arg v = Some a ->
  user_args (birth_fields v) = Some (mkUserArgs a Keep Keep Keep Keep Keep Keep).
Proof. intros H. unfold user_args. simpl. rewrite H. reflexivity. Qed.

Lemma birth_args_inv v a :
  user_args (birth_fields v) = Some a ->
  exists a_dob, text_arg v = Some a_dob
                /\ a = mkUserArgs a_dob Keep Keep Keep Keep Keep Keep.
Proof.
  unfold user_args. simpl. destruct (text_arg v) as [a_dob|]; [|discriminate].
  intros H. inversion H; subst. exists a_dob. split; reflexivity.
Qed.

(** What the write-back of getProfile does to the User table. *)
Lemma getProfile_users user_id date w st d :
  users w !! user_id = None \/ absent date = false ->
  remote (trace (log (UserFindUnique user_id) w))
    (Get (profile_url user_id date)) = Replied st d ->
  validateStatus st = true ->
  users (snd (getProfile user_id date w)) = users w
  \/ exists a_dob,
      text_arg (birth_date_in d) = Some a_dob
      /\ truthy (field d "user_information") = true
      /\ users (snd (getProfile user_id date w))
         = <[user_id := match users w !! user_id with
                        | Some row =>
                            User.mk (User.user_id row)
                              (apply_arg a_dob (User.date_of_birth row))
                              (User.height_cm row) (User.weight_kg row)
                              (User.bmi row) (User.sex row)
                              (User.time_zone row) (User.offset row)
                        | None =>
                            User.mk user_id (apply_arg a_dob None) None None
                              None None None None
                        end]> (users w).
Proof.
  intros Hpath Hr Hv. rewrite (getProfile_upstream _ _ _ Hpath). cbv zeta.
  rewrite Hr, (settle_resolved _ _ Hv). cbn [data status].
  destruct (read d "user_information") as [e|ui] eqn:Hread;
    [left; reflexivity|].
  destruct (truthy ui) eqn:Hui; [|left; reflexivity].
  destruct (upsert_users _ _ _ _) as [us|] eqn:Hup; [|left; reflexivity].
  right. apply upsert_users_inv in Hup. destruct Hup as (a & Ha & ->).
  apply birth_args_inv in Ha. destruct Ha as (a_dob & Hdob & ->).
  exists a_dob. repeat apply conj; [exact Hdob | |].
  - assert (Hd : nullish d = false)
      by (destruct d; simpl in *; try discriminate; reflexivity).
    rewrite (read_field _ _ Hd) in Hread. inversion Hread; subst. exact Hui.
  - simpl. destruct (users w !! user_id); reflexivity.
Qed.

Lemma getProfile_no_information user_id date w st d :
  users w !! user_id = None \/ absent date = false ->
  remote (trace (log (UserFindUnique user_id) w))
    (Get (profile_url user_id date)) = Replied st d ->
  validateStatus st = true ->
  truthy (field d "user_information") = false ->
  users (snd (getProfile user_id date w)) = users w.
Proof.
  intros Hpath Hr Hv Hui.
  destruct (getProfile_users _ _ _ _ _ Hpath Hr Hv)
    as [Hsame | (a & _ & Htrue & _)]; [exact Hsame|].
  rewrite Hui in Htrue. discriminate.
Qed.

Lemma getProfile_write user_id date w st d :
  users w !! user_id = None \/ absent date = false ->
  remote (trace (log (UserFindUnique user_id) w))
    (Get (profile_url user_id date)) = Replied st d ->
  validateStatus st = true ->
  truthy (field d "user_information") = true ->
  (fst (getProfile user_id date w),
   users (snd (getProfile user_id date w)))
  = match upsert_users (VStr user_id) (birth_fields (birth_date_in d))
            (User.mkCreate (VStr user_id) (birth_fields (birth_date_in d)))
            (users w) with
    | Some us => (json st d, us)
    | None => (json 500 (VObj [("error", VStr invalid_invocation)]), users w)
    end.
Proof.
  intros Hpath Hr Hv Hui. rewrite (getProfile_upstream _ _ _ Hpath).
  cbv zeta. rewrite Hr, (settle_resolved _ _ Hv). cbn [data status].
  assert (Hd : nullish d = false)
    by (destruct d; simpl in *; try discriminate; reflexivity).
  rewrite (read_field _ _ Hd), Hui.
  destruct (upsert_users _ _ _ _); reflexivity.
Qed.

Lemma text_arg_cases v a :
  text_arg v = Some a ->
  (v = VUndefined /\ a = Keep) \/ (v = VNull /\ a = Clear)
  \/ exists s, v = VStr s /\ a = Put s.
Proof.
  destruct v; simpl; intros H; try discriminate;
    try (inversion H; subst; eauto; fail).
  destruct (refused_text s); [discriminate|]. inversion H; subst. eauto.
Qed.

Lemma getProfile_healthData user_id date w :
  healthData (snd (getProfile user_id date w)) = healthData w.
Proof.
  destruct (users w !! user_id) as [row|] eqn:Hrow.
  - destruct (absent date) eqn:Hdate.
    + rewrite (getProfile_cached _ _ _ _ Hrow Hdate). reflexivity.
    + rewrite (getProfile_upstream _ _ _ (or_intror Hdate)). cbv zeta.
      destruct (settle _) as [e|response]; [reflexivity|].
      destruct (read _ _) as [e|ui]; [reflexivity|].
      destruct (truthy ui); [|reflexivity].
      destruct (upsert_users _ _ _ _); reflexivity.
  - rewrite (getProfile_upstream _ _ _ (or_introl Hrow)). cbv zeta.
    destruct (settle _) as [e|response]; [reflexivity|].
    destruct (read _ _) as [e|ui]; [reflexivity|].
    destruct (truthy ui); [|reflexivity].
    destruct (upsert_users _ _ _ _); reflexivity.
Qed.

(** C9.  On the upstream path, when the provider replies in the success
    range, the write-back touches one column only.  It runs when the
    response has a user_information, and not otherwise.  A stored row keeps
    its user_id, height_cm, weight_kg, bmi, sex, time_zone and offset; its
    date_of_birth stays as it was when the response has no
    date_of_birth_string, and otherwise becomes that entry: a string that
    is a text for Postgres, with no U+0000 and no half of a surrogate pair
    in it, is stored, null clears the column.  This is for a user_id that
    is such a text.  With no stored row,
    the write-back makes one that has the user_id and that date of birth
    and nothing else.  No other row and no snapshot changes, and the
    payload of the provider goes back with its status.  An entry that is
    neither absent, null nor such a string is refused by the store: nothing
    is written and the answer is 500. *)
Theorem getProfile_writes_back_birth_date_only user_id date w st d :
  users w !! user_id = None \/ absent date = false ->
  remote (trace (log (UserFindUnique user_id) w))
    (Get ("/v2/processed_data/user/info?user_id=" +:+ user_id +:+ "&date="
          +:+ match date with
              | Some s => s
              | None => "undefined"
              end)) = Replied st d ->
  validateStatus st = true ->
  refused_text user_id = false ->
  let takes (v : Value) :=
    match v with
    | VUndefined | VNull => True
    | VStr s => refused_text s = false
    | _ => False
    end in
  let written (v : Value) (old : option string) :=
    match v with
    | VStr s => Some s
    | VNull => None
    | _ => old
    end in
  let entry :=
    field (field (field d "user_information") "user_demographics")
      "date_of_birth_string" in
  let w' := snd (getProfile user_id date w) in
  (forall row,
      users w !! user_id = Some row ->
      exists row',
        users w' !! user_id = Some row'
        /\ User.user_id row' = User.user_id row
        /\ User.height_cm row' = User.height_cm row
        /\ User.weight_kg row' = User.weight_kg row
        /\ User.bmi row' = User.bmi row
        /\ User.sex row' = User.sex row
        /\ User.time_zone row' = User.time_zone row
        /\ User.offset row' = User.offset row
        /\ (entry = VUndefined ->
            User.date_of_birth row' = User.date_of_birth row)
        /\ (User.date_of_birth row' <> User.date_of_birth row ->
            (entry = VNull /\ User.date_of_birth row' = None)
            \/ exists s, entry = VStr s
                         /\ User.date_of_birth row' = Some s))
  /\ (users w !! user_id = None ->
      users w' !! user_id = None
      \/ exists row',
          users w' !! user_id = Some row'
          /\ User.user_id row' = user_id
          /\ User.height_cm row' = None
          /\ User.weight_kg row' = None
          /\ User.bmi row' = None
          /\ User.sex row' = None
          /\ User.time_zone row' = None
          /\ User.offset row' = None
          /\ (User.date_of_birth row' = None
              \/ exists s, entry = VStr s
                           /\ User.date_of_birth row' = Some s))
  /\ (forall other, other <> user_id ->
        users w' !! other = users w !! other)
  /\ healthData w' = healthData w
  /\ (truthy (field d "user_information") = false ->
      users w' = users w
      /\ (nullish d = false -> fst (getProfile user_id date w) = json st d))
  /\ (truthy (field d "user_information") = true ->
      takes entry ->
      fst (getProfile user_id date w) = json st d
      /\ users w'
         = <[user_id :=
               match users w !! user_id with
               | Some row =>
                   User.mk (User.user_id row)
                     (written entry (User.date_of_birth row))
                     (User.height_cm row) (User.weight_kg row)
                     (User.bmi row) (User.sex row)
                     (User.time_zone row) (User.offset row)
               | None =>
                   User.mk user_id (written entry None) None None None None
                     None None
               end]> (users w))
  /\ (truthy (field d "user_information") = true ->
      ~ takes entry ->
      fst (getProfile user_id date w)
      = json 500 (VObj [("error", VStr invalid_invocation)])
      /\ users w' = users w).
Proof.
  intros Hpath Hr Hv Hid takes written entry w'. subst entry.
  change (Get _) with (Get (profile_url user_id date)) in Hr.
  change (field (field (field d "user_information") "user_demographics")
            "date_of_birth_string") with (birth_date_in d).
  assert (Hhealth : healthData w' = healthData w)
    by apply getProfile_healthData.
  assert (Hnone :
            truthy (field d "user_information") = false ->
            users w' = users w
            /\ (nullish d = false ->
                fst (getProfile user_id date w) = json st d)).
  { intros Hui. split.
    - exact (getProfile_no_information _ _ _ _ _ Hpath Hr Hv Hui).
    - intros Hd. rewrite (getProfile_upstream _ _ _ Hpath). cbv zeta.
      rewrite Hr, (settle_resolved _ _ Hv). cbn [data status].
      rewrite (read_field _ _ Hd), Hui. reflexivity. }
  assert (Hback :
            truthy (field d "user_information") = true ->
            takes (birth_date_in d) ->
            fst (getProfile user_id date w) = json st d
            /\ users w'
               = <[user_id :=
                     match users w !! user_id with
                     | Some row =>
                         User.mk (User.user_id row)
                           (written (birth_date_in d)
                              (User.date_of_birth row))
                           (User.height_cm row) (User.weight_kg row)
                           (User.bmi row) (User.sex row)
                           (User.time_zone row) (User.offset row)
                     | None =>
                         User.mk user_id (written (birth_date_in d) None)
                           None None None None None None
                     end]> (users w)).
  { intros Hui Htakes.
    pose proof (getProfile_write _ _ _ _ _ Hpath Hr Hv Hui) as H.
    destruct (text_arg_taken _ Htakes) as (a & Ha & Ea).
    rewrite upsert_users_run, Hid, (birth_args _ _ Ha) in H.
    inversion H as [[Hout Husers]]. split; [reflexivity|].
    subst w'. rewrite Husers.
    destruct (users w !! user_id) as [row|];
      unfold update_user, create_user, write_user; simpl; rewrite Ea;
      reflexivity. }
  assert (Hrefused :
            truthy (field d "user_information") = true ->
            ~ takes (birth_date_in d) ->
            fst (getProfile user_id date w)
            = json 500 (VObj [("error", VStr invalid_invocation)])
            /\ users w' = users w).
  { intros Hui Hno.
    pose proof (getProfile_write _ _ _ _ _ Hpath Hr Hv Hui) as H.
    rewrite upsert_users_run, Hid in H. unfold user_args in H.
    simpl in H. rewrite (text_arg_not_taken _ Hno) in H.
    inversion H as [[Hout Husers]]. split; reflexivity. }
  repeat apply conj;
    [ | | | exact Hhealth | exact Hnone | exact Hback | exact Hrefused];
    clear Hhealth Hnone Hback Hrefused; subst w';
    (destruct (getProfile_users _ _ _ _ _ Hpath Hr Hv)
       as [Hsame | (a_dob & Hdob & Hui & Husers)];
     [rewrite Hsame | rewrite Husers]).
  - intros row Hrow. exists row. repeat apply conj; auto.
    intros H. contradiction H. reflexivity.
  - intros row Hrow. rewrite Hrow, lookup_insert_eq. eexists.
    split; [reflexivity|]. simpl. repeat apply conj; try reflexivity.
    + intros E. rewrite E in Hdob. apply text_arg_undefined in Hdob.
      subst. reflexivity.
    + intros Hchanged.
      destruct (text_arg_cases _ _ Hdob)
        as [(_ & ->) | [(E & ->) | (s & E & ->)]]; simpl in *.
      * contradiction Hchanged. reflexivity.
      * left. split; [exact E | reflexivity].
      * right. exists s. split; [exact E | reflexivity].
  - intros Hnone. left. exact Hnone.
  - intros Hnone. right. rewrite Hnone, lookup_insert_eq. eexists.
    split; [reflexivity|]. simpl. repeat apply conj; try reflexivity.
    destruct (text_arg_cases _ _ Hdob)
      as [(_ & ->) | [(_ & ->) | (s & E & ->)]]; simpl.
    + left. reflexivity.
    + left. reflexivity.
    + right. exists s. split; [exact E | reflexivity].
  - reflexivity.
  - intros other Hne. apply lookup_insert_ne. congruence.
Qed.

(** What a valid body does when the provider and the store take it. *)
Lemma submitProfile_taken body uid w st d :
  userSchema_validate body = None ->
  field body "user_id" = VStr uid ->
  remote (trace w) (Post "/api/v2/user-information" body) = Replied st d ->
  validateStatus st = true ->
  (forall s, field body "height_cm_int" <> VStr s) ->
  (forall s, field body "weight_kg_float" <> VStr s) ->
  (forall s, field body "bmi_float" <> VStr s) ->
  (forall q, field body "height_cm_int" = VNum q ->
             - 2147483648 <= Z.quot (Qnum q) (Z.pos (Qden q)) <= 2147483647) ->
  fst (submitProfile body w) = json st d
  /\ users (snd (submitProfile body w))
     = <[uid :=
           let old := users w !! uid in
           User.mk
             match old with
             | Some row => User.user_id row
             | None => uid
             end
             match field body "date_of_birth_string" with
             | VStr s => Some s
             | _ => old ≫= User.date_of_birth
             end
             match field body "height_cm_int" with
             | VNum q => Some (Z.quot (Qnum q) (Z.pos (Qden q)))
             | _ => old ≫= User.height_cm
             end
             match field body "weight_kg_float" with
             | VNum q => Some q
             | _ => old ≫= User.weight_kg
             end
             match field body "bmi_float" with
             | VNum q => Some q
             | _ => old ≫= User.bmi
             end
             match field body "sex_string" with
             | VStr s => Some s
             | _ => old ≫= User.sex
             end
             (old ≫= User.time_zone) (old ≫= User.offset)]> (users w).
Proof.
  intros Hvalid Huid Hr Hv Hh Hw Hb Hrange.
  rewrite (submitProfile_valid _ _ Hvalid). cbv zeta.
  rewrite Hr, (settle_resolved _ _ Hv). unfold profile_create.
  rewrite Huid, upsert_users_run.
  destruct (userSchema_valid_user_id _ Hvalid) as (uid' & Huid' & Hp).
  rewrite Huid in Huid'. inversion Huid'; subst uid'.
  rewrite (user_id_pattern_nul _ Hp).
  rewrite (profile_args_taken _ Hvalid Hh Hw Hb Hrange).
  split; [reflexivity|]. cbn [snd users]. f_equal.
  destruct (users w !! uid) as [row|] eqn:Hrow;
    unfold update_user, create_user, write_user; cbn [mbind option_bind];
    cbn [a_date_of_birth a_height_cm a_weight_kg a_bmi a_sex a_time_zone
         a_offset];
    f_equal;
    match goal with
    | |- apply_arg match ?v with _ => _ end _ = _ => destruct v; reflexivity
    | |- _ => reflexivity
    end.
Qed.

(** C6.  What a reply in the success range becomes.  submitProfile,
    setTimeZone and getProfile on its upstream path hand the status and the
    body of the provider back unchanged, once the handler gets to its end:
    the store takes the write (the numbers of a profile are numbers and the
    height fits the column; a user_id is a text for Postgres, with no
    U+0000 and no half of a surrogate pair in it; a time zone, an offset
    and a date of birth are absent, null or a string that is such a text),
    and for getProfile the body has properties to read.  A snapshot read on
    a miss, for a key that is made of such texts, hands the body back
    unchanged, always with status 200, when the body is empty or the store
    takes the row (the query has a user_id and a date and no string or key
    of the body is refused); when the store refuses the row the answer is
    500.  Nothing is said here of a 204 reply to a snapshot read. *)
Theorem success_reply_passes_through :
  let takes (v : Value) :=
    match v with
    | VUndefined | VNull => True
    | VStr s => refused_text s = false
    | _ => False
    end in
  (forall body w st d,
      userSchema_validate body = None ->
      remote (trace w) (Post "/api/v2/user-information" body) = Replied st d ->
      validateStatus st = true ->
      (forall s, field body "height_cm_int" <> VStr s) ->
      (forall s, field body "weight_kg_float" <> VStr s) ->
      (forall s, field body "bmi_float" <> VStr s) ->
      (forall q, field body "height_cm_int" = VNum q ->
                 - 2147483648 <= Z.quot (Qnum q) (Z.pos (Qden q))
                 <= 2147483647) ->
      fst (submitProfile body w) = json st d)
  /\ (forall user_id tz off w st d,
        remote (trace w)
          (Post ("/api/v1/user_id/" +:+ user_id +:+ "/time_zone")
             (VObj [("time_zone", tz); ("offset", off)])) = Replied st d ->
        validateStatus st = true ->
        refused_text user_id = false ->
        takes tz ->
        takes off ->
        fst (setTimeZone user_id tz off w) = json st d)
  /\ (forall user_id date w st d,
        users w !! user_id = None \/ absent date = false ->
        remote (trace (log (UserFindUnique user_id) w))
          (Get ("/v2/processed_data/user/info?user_id=" +:+ user_id
                +:+ "&date="
                +:+ match date with
                    | Some s => s
                    | None => "undefined"
                    end)) = Replied st d ->
        validateStatus st = true ->
        refused_text user_id = false ->
        nullish d = false ->
        (truthy (field d "user_information") = true ->
         takes (field (field (field d "user_information")
                         "user_demographics") "date_of_birth_string")) ->
        fst (getProfile user_id date w) = json st d)
  /\ (forall route user_id date w st d,
        findFirst user_id (data_type route) date (healthData w) = None ->
        remote (trace (log (HealthDataFindFirst user_id (data_type route)
                              date) w))
          (Get (snapshot_url route user_id date))
        = Replied st d ->
        validateStatus st = true ->
        st <> 204 ->
        refused_text (data_type route) = false ->
        (forall u, user_id = Some u -> refused_text u = false) ->
        (forall dt, date = Some dt -> refused_text dt = false) ->
        (truthy d = false
         \/ (user_id <> None /\ date <> None /\ refused_jsonb d = false) ->
         fst (getSnapshot route user_id date w) = json 200 d)
        /\ (truthy d = true ->
            user_id = None \/ date = None \/ refused_jsonb d = true ->
            fst (getSnapshot route user_id date w)
            = json 500 (VObj [("error", VStr invalid_invocation)]))).
Proof.
  cbv zeta. repeat apply conj.
  - intros body w st d Hvalid Hr Hv Hh Hw Hb Hrange.
    destruct (userSchema_valid_user_id _ Hvalid) as (uid & Huid & _).
    exact (proj1 (submitProfile_taken _ _ _ _ _ Hvalid Huid Hr Hv Hh Hw Hb
                    Hrange)).
  - intros user_id tz off w st d Hr Hv Hid Htz Hoff.
    destruct (text_arg_taken _ Htz) as (a_tz & H1 & _).
    destruct (text_arg_taken _ Hoff) as (a_off & H2 & _).
    exact (proj1 (setTimeZone_stores_text user_id tz off w st d a_tz a_off
                    Hr Hv Hid H1 H2)).
  - intros user_id date w st d Hpath Hr Hv Hid Hd Htakes.
    change (Get _) with (Get (profile_url user_id date)) in Hr.
    destruct (truthy (field d "user_information")) eqn:Hui.
    + pose proof (getProfile_write _ _ _ _ _ Hpath Hr Hv Hui) as H.
      destruct (text_arg_taken _ (Htakes eq_refl)) as (a & Ha & _).
      change (field (field (field d "user_information") "user_demographics")
                "date_of_birth_string") with (birth_date_in d) in Ha.
      rewrite upsert_users_run, Hid, (birth_args _ _ Ha) in H.
      inversion H. reflexivity.
    + rewrite (getProfile_upstream _ _ _ Hpath). cbv zeta.
      rewrite Hr, (settle_resolved _ _ Hv). cbn [data status].
      rewrite (read_field _ _ Hd), Hui. reflexivity.
  - intros route user_id date w st d Hmiss Hr Hv _ Htype Hu Hdt.
    rewrite (getSnapshot_miss _ _ _ _ Hmiss). cbv zeta.
    rewrite Hr, (settle_resolved _ _ Hv). cbn [data]. split.
    + intros [Hd | (Hsome & Hdate & Hbody)]; [rewrite Hd; reflexivity|].
      destruct (truthy d) eqn:Ht; [|reflexivity].
      destruct user_id as [u|]; [|contradiction Hsome; reflexivity].
      destruct date as [dt|]; [|contradiction Hdate; reflexivity].
      rewrite (insert_healthData_truthy _ _ _ _ _ _ Ht (Hu u eq_refl) Htype
                 (Hdt dt eq_refl) Hbody).
      reflexivity.
    + intros Ht Hno. rewrite Ht.
      rewrite (insert_healthData_refused _ _ _ _ _ _ Hno). reflexivity.
Qed.

(** ** One request, any request *)

Lemma upstream_calls_app (t1 t2 : list Event) :
  upstream_calls (t1 ++ t2) = (upstream_calls t1 + upstream_calls t2)%nat.
Proof.
  unfold upstream_calls. rewrite List.filter_app, List.length_app.
  reflexivity.
Qed.

Lemma store_writes_app (t1 t2 : list Event) :
  store_writes (t1 ++ t2) = (store_writes t1 + store_writes t2)%nat.
Proof.
  unfold store_writes. rewrite List.filter_app, List.length_app.
  reflexivity.
Qed.

Lemma forward_run f w :
  forward f w
  = match settle (remote (trace w) (forward_request f)) with
    | inl e => (error_outcome e, log (Rook (forward_request f)) w)
    | inr response =>
        (json 200 (data response), log (Rook (forward_request f)) w)
    end.
Proof.
  unfold forward, try_respond, bind, rookApi.
  destruct (settle _); reflexivity.
Qed.

Lemma insert_healthData_inv user_id dt date d t w w' :
  insert_healthData user_id dt date d t w = Some w' ->
  exists u dd,
    user_id = Some u /\ date = Some dd
    /\ w' = mkWorld (users w)
              (healthData w
               ++ [HealthData.mk (healthData_id_seq w) u dt dd (jsonb d) t])
              (healthData_id_seq w + 1) (trace w).
Proof.
  unfold insert_healthData. intros H.
  destruct user_id as [u|], date as [dd|], d; try discriminate;
    (destruct (refused_text u || refused_text dt || refused_text dd
               || refused_jsonb _);
     [discriminate|]);
    inversion H; subst; exists u, dd; repeat split; reflexivity.
Qed.

Ltac tail_is t :=
  exists t; repeat apply conj;
  [ simpl; rewrite <- ?app_assoc, ?List.app_nil_r; reflexivity
  | unfold upstream_calls; simpl; lia
  | unfold store_writes; simpl; lia ].

Lemma submitProfile_step body w :
  step_of (PostUsersInfo body) w (snd (submitProfile body w)).
Proof.
  unfold step_of.
  destruct (userSchema_validate body) as [e|] eqn:Hvalid.
  - rewrite (submitProfile_invalid _ _ _ Hvalid). simpl.
    repeat apply conj; [tail_is (@nil Event) | left; reflexivity
                       | left; reflexivity].
  - rewrite (submitProfile_valid _ _ Hvalid). cbv zeta.
    destruct (settle _) as [e|response].
    + repeat apply conj;
        [ tail_is [Rook (Post "/api/v2/user-information" body)]
        | left; reflexivity | left; reflexivity ].
    + destruct (userSchema_valid_user_id _ Hvalid) as (uid & Huid & _).
      destruct (upsert_users _ _ _ _) as [us|] eqn:Hup.
      * repeat apply conj;
          [ tail_is [Rook (Post "/api/v2/user-information" body);
                     UserUpsert (field body "user_id") (profile_fields body)
                       (profile_create body)]
          | | left; reflexivity ].
        right. exists uid, (profile_fields body). simpl.
        unfold profile_create in Hup. rewrite Huid in Hup. exact Hup.
      * repeat apply conj;
          [ tail_is [Rook (Post "/api/v2/user-information" body);
                     UserUpsert (field body "user_id") (profile_fields body)
                       (profile_create body)]
          | left; reflexivity | left; reflexivity ].
Qed.

Lemma setTimeZone_step user_id tz off w :
  step_of (PostTimezone user_id tz off) w (snd (setTimeZone user_id tz off w)).
Proof.
  unfold step_of. rewrite setTimeZone_run. cbv zeta.
  destruct (settle _) as [e|response].
  - repeat apply conj;
      [ tail_is [Rook (timezone_request user_id tz off)]
      | left; reflexivity | left; reflexivity ].
  - destruct (upsert_users _ _ _ _) as [us|] eqn:Hup.
    + repeat apply conj;
        [ tail_is [Rook (timezone_request user_id tz off);
                   UserUpsert (VStr user_id) (timezone_fields tz off)
                     (User.mkCreate (VStr user_id) (timezone_fields tz off))]
        | | left; reflexivity ].
      right. exists user_id, (timezone_fields tz off). exact Hup.
    + repeat apply conj;
        [ tail_is [Rook (timezone_request user_id tz off);
                   UserUpsert (VStr user_id) (timezone_fields tz off)
                     (User.mkCreate (VStr user_id) (timezone_fields tz off))]
        | left; reflexivity | left; reflexivity ].
Qed.

Lemma getProfile_step user_id date w :
  step_of (GetUserInfo user_id date) w (snd (getProfile user_id date w)).
Proof.
  unfold step_of.
  assert (Hpath : (exists row, users w !! user_id = Some row
                               /\ absent date = true)
                  \/ (users w !! user_id = None \/ absent date = false)).
  { destruct (users w !! user_id) as [row|]; [|right; left; reflexivity].
    destruct (absent date); [left; eauto | right; right; reflexivity]. }
  destruct Hpath as [(row & Hrow & Hdate) | Hpath].
  - rewrite (getProfile_cached _ _ _ _ Hrow Hdate).
    repeat apply conj;
      [ tail_is [UserFindUnique user_id] | left; reflexivity
      | left; reflexivity ].
  - rewrite (getProfile_upstream _ _ _ Hpath). cbv zeta.
    destruct (settle _) as [e|response];
      [ repeat apply conj;
          [ tail_is [UserFindUnique user_id;
                     Rook (Get (profile_url user_id date))]
          | left; reflexivity | left; reflexivity ] |].
    destruct (read _ _) as [e|ui];
      [ repeat apply conj;
          [ tail_is [UserFindUnique user_id;
                     Rook (Get (profile_url user_id date))]
          | left; reflexivity | left; reflexivity ] |].
    destruct (truthy ui);
      [| repeat apply conj;
          [ tail_is [UserFindUnique user_id;
                     Rook (Get (profile_url user_id date))]
          | left; reflexivity | left; reflexivity ] ].
    destruct (upsert_users _ _ _ _) as [us|] eqn:Hup.
    + repeat apply conj;
        [ tail_is [UserFindUnique user_id;
                   Rook (Get (profile_url user_id date));
                   UserUpsert (VStr user_id)
                     (birth_fields (birth_date_in (data response)))
                     (User.mkCreate (VStr user_id)
                        (birth_fields (birth_date_in (data response))))]
        | | left; reflexivity ].
      right. exists user_id, (birth_fields (birth_date_in (data response))).
      exact Hup.
    + repeat apply conj;
        [ tail_is [UserFindUnique user_id;
                   Rook (Get (profile_url user_id date));
                   UserUpsert (VStr user_id)
                     (birth_fields (birth_date_in (data response)))
                     (User.mkCreate (VStr user_id)
                        (birth_fields (birth_date_in (data response))))]
        | left; reflexivity | left; reflexivity ].
Qed.

Lemma getSnapshot_step route user_id date w :
  step_of (GetHealth route user_id date) w
    (snd (getSnapshot route user_id date w)).
Proof.
  unfold step_of.
  destruct (findFirst user_id (data_type route) date (healthData w))
    as [row|] eqn:Hf.
  - rewrite (getSnapshot_hit _ _ _ _ _ Hf).
    repeat apply conj;
      [ tail_is [HealthDataFindFirst user_id (data_type route) date]
      | left; reflexivity | left; reflexivity ].
  - rewrite (getSnapshot_miss _ _ _ _ Hf). cbv zeta.
    destruct (settle _) as [e|response];
      [ repeat apply conj;
          [ tail_is [HealthDataFindFirst user_id (data_type route) date;
                     Rook (Get (snapshot_url route user_id date))]
          | left; reflexivity | left; reflexivity ] |].
    destruct (truthy (data response));
      [| repeat apply conj;
          [ tail_is [HealthDataFindFirst user_id (data_type route) date;
                     Rook (Get (snapshot_url route user_id date))]
          | left; reflexivity | left; reflexivity ] ].
    destruct (insert_healthData _ _ _ _ _ _) as [w4|] eqn:Hins.
    + apply insert_healthData_inv in Hins.
      destruct Hins as (u & dd & -> & -> & ->).
      repeat apply conj;
        [ eexists; repeat apply conj;
          [ simpl; rewrite <- ?app_assoc; reflexivity
          | unfold upstream_calls; simpl; lia
          | unfold store_writes; simpl; lia ]
        | left; reflexivity | ].
      right. do 3 eexists. eexists. repeat apply conj;
        [reflexivity | exact Hf | | reflexivity]. reflexivity.
    + repeat apply conj;
        [ eexists; repeat apply conj;
          [ simpl; rewrite <- ?app_assoc; reflexivity
          | unfold upstream_calls; simpl; lia
          | unfold store_writes; simpl; lia ]
        | left; reflexivity | left; reflexivity ].
Qed.

Lemma forward_step f w : step_of (Forwarded f) w (snd (forward f w)).
Proof.
  unfold step_of. rewrite forward_run.
  destruct (settle _);
    (repeat apply conj;
     [ tail_is [Rook (forward_request f)] | left; reflexivity
     | left; reflexivity ]).
Qed.

Lemma handle_step c w : step_of c w (snd (handle c w)).
Proof.
  destruct c; simpl.
  - apply submitProfile_step.
  - apply setTimeZone_step.
  - apply getProfile_step.
  - apply getSnapshot_step.
  - apply forward_step.
Qed.

Lemma find_app_some {A : Type} (p : A -> bool) (l1 l2 : list A) (a : A) :
  List.find p l1 = Some a -> List.find p (l1 ++ l2) = Some a.
Proof.
  induction l1 as [|b l1 IH]; simpl; [discriminate|].
  destruct (p b); [intros H; exact H | exact IH].
Qed.

Lemma user_step_keyed us us' : keyed us -> user_step us us' -> keyed us'.
Proof.
  intros Hk [-> | (uid & f & Hup)]; [exact Hk|].
  apply upsert_users_inv in Hup. destruct Hup as (a & _ & ->).
  intros k row. destruct (decide (uid = k)) as [<- | Hne].
  - rewrite lookup_insert_eq. intros H. inversion H; subst; clear H.
    destruct (us !! uid) as [old|] eqn:Hold; simpl; [|reflexivity].
    exact (Hk _ _ Hold).
  - rewrite lookup_insert_ne by exact Hne. apply Hk.
Qed.

Lemma user_step_keeps us us' k :
  user_step us us' -> is_Some (us !! k) -> is_Some (us' !! k).
Proof.
  intros [-> | (uid & f & Hup)] Hsome; [exact Hsome|].
  apply upsert_users_inv in Hup. destruct Hup as (a & _ & ->).
  destruct (decide (uid = k)) as [<- | Hne].
  - rewrite lookup_insert_eq. eauto.
  - rewrite lookup_insert_ne by exact Hne. exact Hsome.
Qed.

Lemma health_step_find c rows rows' user_id dt date row :
  health_step c rows rows' ->
  findFirst user_id dt date rows = Some row ->
  findFirst user_id dt date rows' = Some row.
Proof.
  intros [-> | (route & u & d & new & _ & _ & _ & ->)] H; [exact H|].
  apply find_app_some. exact H.
Qed.

Lemma miss_not_a_key user_id dt date rows :
  findFirst (Some user_id) dt (Some date) rows = None ->
  ~ In (user_id, dt, date) (map key_of rows).
Proof.
  intros Hmiss Hin. apply in_map_iff in Hin.
  destruct Hin as (row & Hkey & Hrow).
  apply (List.find_none _ _ Hmiss) in Hrow.
  assert (Hm : matches (Some user_id) dt (Some date) row = true).
  { apply matches_key. unfold key_of in Hkey. inversion Hkey; subst.
    repeat split; reflexivity. }
  rewrite Hm in Hrow. discriminate.
Qed.

Lemma health_step_unique c rows rows' :
  health_step c rows rows' ->
  List.NoDup (map key_of rows) -> List.NoDup (map key_of rows').
Proof.
  intros [-> | (route & u & d & new & _ & Hmiss & Hkey & ->)] Hnd;
    [exact Hnd|].
  rewrite map_app. simpl. rewrite Hkey.
  apply List.NoDup_rev in Hnd.
  rewrite <- (List.rev_involutive (map key_of rows ++ [_])).
  apply List.NoDup_rev. rewrite List.rev_app_distr. simpl.
  constructor; [|exact Hnd].
  rewrite <- List.in_rev. apply miss_not_a_key. exact Hmiss.
Qed.

(** X1.  Whatever the requests and whatever the provider does, the trace
    only grows, and a run of n requests makes at most n calls to the
    provider and at most n writes to the store. *)
Theorem serve_budget calls w :
  exists tail,
    trace (serve calls w) = (trace w ++ tail)%list
    /\ (upstream_calls tail <= length calls)%nat
    /\ (store_writes tail <= length calls)%nat.
Proof.
  revert w. induction calls as [|c calls IH]; intros w; simpl.
  - exists []. rewrite List.app_nil_r. repeat split; auto.
  - destruct (handle_step c w) as ((t1 & Ht1 & Hu1 & Hs1) & _).
    destruct (IH (snd (handle c w))) as (t2 & Ht2 & Hu2 & Hs2).
    exists (t1 ++ t2)%list. rewrite Ht2, Ht1, <- app_assoc.
    rewrite upstream_calls_app, store_writes_app.
    repeat split; lia.
Qed.

(** X2.  Rows of HealthData are never changed or removed: after any run of
    requests the table is the old one with rows added at its end, one per
    request at most; and if no two rows shared a key before, none do
    after, requests being taken one at a time. *)
Theorem serve_healthData_append_only calls w :
  (exists added,
      healthData (serve calls w) = (healthData w ++ added)%list
      /\ (length added <= length calls)%nat)
  /\ (List.NoDup (map key_of (healthData w)) ->
      List.NoDup (map key_of (healthData (serve calls w)))).
Proof.
  revert w. induction calls as [|c calls IH]; intros w; simpl.
  - split; [|auto]. exists []. rewrite List.app_nil_r. split; auto.
  - destruct (handle_step c w) as (_ & _ & Hh).
    destruct (IH (snd (handle c w))) as ((added & Hadd & Hlen) & Hnd).
    split.
    + destruct Hh as [Hsame | (route & u & d & new & _ & _ & _ & Hnew)].
      * exists added. rewrite Hadd, Hsame. split; [reflexivity | lia].
      * exists (new :: added). rewrite Hadd, Hnew, <- app_assoc. simpl.
        split; [reflexivity | lia].
    + intros H. apply Hnd. exact (health_step_unique _ _ _ Hh H).
Qed.

(** X3.  A cached snapshot is for ever: once a key has a row, any run of
    requests later the same row is still the first match, and a read of
    the key is answered with its payload and no call to the provider. *)
Theorem snapshot_outlives_any_run calls route user_id date w row :
  findFirst user_id (data_type route) date (healthData w) = Some row ->
  findFirst user_id (data_type route) date (healthData (serve calls w))
  = Some row
  /\ fst (getSnapshot route user_id date (serve calls w))
     = json 200 (HealthData.data row)
  /\ upstream_calls (trace (snd (getSnapshot route user_id date
                                   (serve calls w))))
     = upstream_calls (trace (serve calls w)).
Proof.
  intros Hf.
  assert (H : findFirst user_id (data_type route) date
                (healthData (serve calls w)) = Some row).
  { revert w Hf. induction calls as [|c calls IH]; intros w Hf; simpl;
      [exact Hf|].
    apply IH. destruct (handle_step c w) as (_ & _ & Hh).
    exact (health_step_find _ _ _ _ _ _ _ Hh Hf). }
  split; [exact H|]. rewrite (getSnapshot_hit _ _ _ _ _ H). simpl.
  rewrite upstream_calls_snoc. simpl. split; [reflexivity | lia].
Qed.

(** X4.  No request deletes a user or moves a row to another user_id:
    after any run of requests every user that had a row still has one, and
    every row sits under its own user_id if that was so before. *)
Theorem serve_keeps_users calls w :
  (forall k, is_Some (users w !! k) -> is_Some (users (serve calls w) !! k))
  /\ (keyed (users w) -> keyed (users (serve calls w))).
Proof.
  revert w. induction calls as [|c calls IH]; intros w; simpl;
    [split; auto|].
  destruct (handle_step c w) as (_ & Hu & _).
  destruct (IH (snd (handle c w))) as (Hkeep & Hkeyed).
  split.
  - intros k Hk. apply Hkeep. exact (user_step_keeps _ _ _ Hu Hk).
  - intros Hk. apply Hkeyed. exact (user_step_keyed _ _ Hk Hu).
Qed.

(** ** Writes to the User table, one after another *)

Lemma upserted_spec uid f us :
  upserted uid f us
  = if refused_text uid then us
    else match user_args f with
         | Some a =>
             <[uid := match us !! uid with
                      | Some row => update_user a row
                      | None => create_user uid a
                      end]> us
         | None => us
         end.
Proof.
  unfold upserted. rewrite upsert_users_run.
  destruct (refused_text uid); [reflexivity|].
  destruct (user_args f); reflexivity.
Qed.

Lemma submitProfile_users body uid w st d :
  userSchema_validate body = None ->
  field body "user_id" = VStr uid ->
  remote (trace w) (Post "/api/v2/user-information" body) = Replied st d ->
  validateStatus st = true ->
  users (snd (submitProfile body w)) = upserted uid (profile_fields body) (users w).
Proof.
  intros Hvalid Huid Hr Hv. rewrite (submitProfile_valid _ _ Hvalid).
  cbv zeta. rewrite Hr, (settle_resolved _ _ Hv).
  unfold upserted, profile_create. rewrite Huid.
  destruct (upsert_users _ _ _ _); reflexivity.
Qed.

Lemma submitProfile_users_any body uid w :
  userSchema_validate body = None ->
  field body "user_id" = VStr uid ->
  users (snd (submitProfile body w)) = users w
  \/ users (snd (submitProfile body w))
     = upserted uid (profile_fields body) (users w).
Proof.
  intros Hvalid Huid. rewrite (submitProfile_valid _ _ Hvalid). cbv zeta.
  destruct (settle _) as [e|response]; [left; reflexivity|].
  unfold upserted, profile_create. rewrite Huid.
  destruct (upsert_users _ _ _ _); [right | left]; reflexivity.
Qed.

Lemma setTimeZone_users user_id tz off w st d :
  remote (trace w) (timezone_request user_id tz off) = Replied st d ->
  validateStatus st = true ->
  users (snd (setTimeZone user_id tz off w))
  = upserted user_id (timezone_fields tz off) (users w).
Proof.
  intros Hr Hv. rewrite setTimeZone_run. cbv zeta.
  rewrite Hr, (settle_resolved _ _ Hv). unfold upserted.
  destruct (upsert_users _ _ _ _); reflexivity.
Qed.

Lemma apply_arg_twice {A : Type} (a : Arg A) (old : option A) :
  apply_arg a (apply_arg a old) = apply_arg a old.
Proof. destruct a; reflexivity. Qed.

Lemma upserted_twice uid f us :
  upserted uid f (upserted uid f us) = upserted uid f us.
Proof.
  rewrite !upserted_spec. destruct (refused_text uid); [reflexivity|].
  destruct (user_args f) as [a|]; [|reflexivity].
  rewrite lookup_insert_eq, insert_insert_eq. f_equal.
  destruct (us !! uid) as [row|]; unfold update_user, create_user, write_user;
    simpl; rewrite !apply_arg_twice; reflexivity.
Qed.

Lemma profile_args body a :
  user_args (profile_fields body) = Some a ->
  a_time_zone a = Keep /\ a_offset a = Keep.
Proof.
  intros H. apply user_args_inv in H.
  destruct H as (_ & _ & _ & _ & _ & H6 & H7). simpl in H6, H7.
  split; congruence.
Qed.

Lemma timezone_args_inv tz off a :
  user_args (timezone_fields tz off) = Some a ->
  a_date_of_birth a = Keep /\ a_height_cm a = Keep /\ a_weight_kg a = Keep
  /\ a_bmi a = Keep /\ a_sex a = Keep.
Proof.
  intros H. apply user_args_inv in H.
  destruct H as (H1 & H2 & H3 & H4 & H5 & _). simpl in *.
  repeat split; congruence.
Qed.

Lemma upserted_commute body uid user_id tz off us :
  upserted user_id (timezone_fields tz off)
    (upserted uid (profile_fields body) us)
  = upserted uid (profile_fields body)
      (upserted user_id (timezone_fields tz off) us).
Proof.
  rewrite !upserted_spec.
  destruct (refused_text uid); destruct (refused_text user_id); try reflexivity.
  destruct (user_args (profile_fields body)) as [a|] eqn:Ha;
    destruct (user_args (timezone_fields tz off)) as [b|] eqn:Hb;
    try reflexivity.
  destruct (profile_args _ _ Ha) as (Ha6 & Ha7).
  destruct (timezone_args_inv _ _ _ Hb) as (Hb1 & Hb2 & Hb3 & Hb4 & Hb5).
  destruct (decide (uid = user_id)) as [<- | Hne].
  - rewrite !lookup_insert_eq, !insert_insert_eq. f_equal.
    destruct (us !! uid) as [row|];
      unfold update_user, create_user, write_user; simpl;
      rewrite Ha6, Ha7, Hb1, Hb2, Hb3, Hb4, Hb5; reflexivity.
  - rewrite (lookup_insert_ne us uid user_id) by exact Hne.
    rewrite (lookup_insert_ne us user_id uid) by congruence.
    apply insert_insert_ne. congruence.
Qed.

(** X5.  A valid body for a user with no row, accepted by the provider and
    taken by the store (its numbers are numbers and its height fits the
    column), makes the row: the column of every key that the body has holds
    the value of that key, every other column is null, time_zone and offset
    among them; the rows of the other users are as they were and the reply
    of the provider goes back. *)
Theorem submitProfile_creates_row body uid w st d :
  userSchema_validate body = None ->
  field body "user_id" = VStr uid ->
  users w !! uid = None ->
  remote (trace w) (Post "/api/v2/user-information" body) = Replied st d ->
  validateStatus st = true ->
  (forall s, field body "height_cm_int" <> VStr s) ->
  (forall s, field body "weight_kg_float" <> VStr s) ->
  (forall s, field body "bmi_float" <> VStr s) ->
  (forall q, field body "height_cm_int" = VNum q ->
             - 2147483648 <= Z.quot (Qnum q) (Z.pos (Qden q)) <= 2147483647) ->
  users (snd (submitProfile body w)) !! uid
  = Some (User.mk uid
            match field body "date_of_birth_string" with
            | VStr s => Some s
            | _ => None
            end
            match field body "height_cm_int" with
            | VNum q => Some (Z.quot (Qnum q) (Z.pos (Qden q)))
            | _ => None
            end
            match field body "weight_kg_float" with
            | VNum q => Some q
            | _ => None
            end
            match field body "bmi_float" with
            | VNum q => Some q
            | _ => None
            end
            match field body "sex_string" with
            | VStr s => Some s
            | _ => None
            end
            None None)
  /\ (forall other, other <> uid ->
        users (snd (submitProfile body w)) !! other = users w !! other)
  /\ fst (submitProfile body w) = json st d.
Proof.
  intros Hvalid Huid Hnone Hr Hv Hh Hw Hb Hrange.
  destruct (submitProfile_taken _ _ _ _ _ Hvalid Huid Hr Hv Hh Hw Hb Hrange)
    as (Hout & Husers).
  rewrite Husers, Hnone. cbv zeta. cbn [mbind option_bind].
  repeat apply conj.
  - apply lookup_insert_eq.
  - intros other Hne. apply lookup_insert_ne. congruence.
  - exact Hout.
Qed.

(** X6.  Submitting the same valid body a second time changes nothing in
    the User table, whatever the provider says the second time, once it has
    accepted the first. *)
Theorem submitProfile_twice body w st d :
  userSchema_validate body = None ->
  remote (trace w) (Post "/api/v2/user-information" body) = Replied st d ->
  validateStatus st = true ->
  users (snd (submitProfile body (snd (submitProfile body w))))
  = users (snd (submitProfile body w)).
Proof.
  intros Hvalid Hr Hv.
  destruct (userSchema_valid_user_id _ Hvalid) as (uid & Huid & _).
  destruct (submitProfile_users_any body uid (snd (submitProfile body w))
              Hvalid Huid) as [-> | ->]; [reflexivity|].
  rewrite (submitProfile_users _ _ _ _ _ Hvalid Huid Hr Hv).
  apply upserted_twice.
Qed.

(** X7.  A profile update and a time-zone update do not get in each
    other's way: accepted by the provider in either order, they leave the
    same User table, whether they are for the same user or not. *)
Theorem submitProfile_setTimeZone_commute body user_id tz off w
        st1 d1 st2 d2 st3 d3 st4 d4 :
  userSchema_validate body = None ->
  remote (trace w) (Post "/api/v2/user-information" body) = Replied st1 d1 ->
  validateStatus st1 = true ->
  remote (trace (snd (submitProfile body w)))
    (timezone_request user_id tz off) = Replied st2 d2 ->
  validateStatus st2 = true ->
  remote (trace w) (timezone_request user_id tz off) = Replied st3 d3 ->
  validateStatus st3 = true ->
  remote (trace (snd (setTimeZone user_id tz off w)))
    (Post "/api/v2/user-information" body) = Replied st4 d4 ->
  validateStatus st4 = true ->
  users (snd (setTimeZone user_id tz off (snd (submitProfile body w))))
  = users (snd (submitProfile body (snd (setTimeZone user_id tz off w)))).
Proof.
  intros Hvalid Hr1 Hv1 Hr2 Hv2 Hr3 Hv3 Hr4 Hv4.
  destruct (userSchema_valid_user_id _ Hvalid) as (uid & Huid & _).
  rewrite (setTimeZone_users _ _ _ _ _ _ Hr2 Hv2).
  rewrite (submitProfile_users _ _ _ _ _ Hvalid Huid Hr1 Hv1).
  rewrite (submitProfile_users _ _ _ _ _ Hvalid Huid Hr4 Hv4).
  rewrite (setTimeZone_users _ _ _ _ _ _ Hr3 Hv3).
  apply upserted_commute.
Qed.

(** X8.  What a profile update has written is what an undated read finds:
    after a valid body that the provider accepted and the store took,
    getProfile with no date answers 200 with the row of that user, in which
    the column of every key of the body holds the value of that key and
    every other column what it held before, null if there was no row; the
    answer comes from the store alone and the User table stays as the
    update left it. *)
Theorem getProfile_reads_submitted_profile body uid w st d :
  userSchema_validate body = None ->
  field body "user_id" = VStr uid ->
  remote (trace w) (Post "/api/v2/user-information" body) = Replied st d ->
  validateStatus st = true ->
  (forall s, field body "height_cm_int" <> VStr s) ->
  (forall s, field body "weight_kg_float" <> VStr s) ->
  (forall s, field body "bmi_float" <> VStr s) ->
  (forall q, field body "height_cm_int" = VNum q ->
             - 2147483648 <= Z.quot (Qnum q) (Z.pos (Qden q)) <= 2147483647) ->
  let w1 := snd (submitProfile body w) in
  let old := users w !! uid in
  let text (x : option string) :=
    match x with
    | Some s => VStr s
    | None => VNull
    end in
  let number (x : option Q) :=
    match x with
    | Some q => VNum q
    | None => VNull
    end in
  fst (getProfile uid None w1)
  = json 200
      (VObj [("data_structure", VStr "user_info");
             ("user_information",
              VObj [("user_id",
                     VStr match old with
                          | Some row => User.user_id row
                          | None => uid
                          end);
                    ("date_of_birth",
                     text match field body "date_of_birth_string" with
                          | VStr s => Some s
                          | _ => old ≫= User.date_of_birth
                          end);
                    ("height_cm",
                     match
                       match field body "height_cm_int" with
                       | VNum q => Some (Z.quot (Qnum q) (Z.pos (Qden q)))
                       | _ => old ≫= User.height_cm
                       end
                     with
                     | Some n => VNum (inject_Z n)
                     | None => VNull
                     end);
                    ("weight_kg",
                     number match field body "weight_kg_float" with
                            | VNum q => Some q
                            | _ => old ≫= User.weight_kg
                            end);
                    ("bmi",
                     number match field body "bmi_float" with
                            | VNum q => Some q
                            | _ => old ≫= User.bmi
                            end);
                    ("sex",
                     text match field body "sex_string" with
                          | VStr s => Some s
                          | _ => old ≫= User.sex
                          end);
                    ("time_zone", text (old ≫= User.time_zone));
                    ("offset", text (old ≫= User.offset))])])
  /\ upstream_calls (trace (snd (getProfile uid None w1)))
     = upstream_calls (trace w1)
  /\ users (snd (getProfile uid None w1)) = users w1.
Proof.
  intros Hvalid Huid Hr Hv Hh Hw Hb Hrange w1 old text number.
  destruct (submitProfile_taken _ _ _ _ _ Hvalid Huid Hr Hv Hh Hw Hb Hrange)
    as (_ & Husers).
  pose proof (f_equal (fun us => us !! uid) Husers) as Hrow.
  cbv beta in Hrow. rewrite lookup_insert_eq in Hrow. fold w1 in Hrow.
  rewrite (getProfile_cached uid None w1 _ Hrow eq_refl).
  cbn [fst snd trace log users].
  rewrite upstream_calls_snoc. cbn [is_upstream_call].
  repeat apply conj; [reflexivity | lia | reflexivity].
Qed.

(** ** Edges of the snapshot cache *)

Lemma settled_error wire e :
  settle wire = inl e ->
  handleNoContent e = error_outcome e
  /\ validateStatus (statusCode (error_outcome e)) = false.
Proof.
  destruct wire as [st d|m]; simpl.
  - destruct (validateStatus st) eqn:Hv; [discriminate|].
    intros H. inversion H; subst; clear H.
    unfold handleNoContent, error_outcome, error_status. simpl.
    destruct (st =? 204) eqn:E204.
    + apply Z.eqb_eq in E204. subst. discriminate.
    + split; [reflexivity|]. destruct (st =? 0); [reflexivity | exact Hv].
  - intros H. inversion H; subst. split; reflexivity.
Qed.

(** X9.  The 204 branch of handleNoContent is never taken.  For every error
    that a handler can catch (a call that axios rejected, a property read
    from undefined or null, a query that Prisma refused) the helper answers
    what the plain catch block of the other routes answers, and the status
    it writes is outside 200..299. *)
Theorem handleNoContent_is_the_plain_catch e :
  (exists wire, settle wire = inl e)
  \/ (exists m, e = TypeError m)
  \/ (exists m, e = PrismaClientError m) ->
  handleNoContent e = error_outcome e
  /\ validateStatus (statusCode (handleNoContent e)) = false.
Proof.
  intros [(wire & H) | [(m & ->) | (m & ->)]].
  - destruct (settled_error _ _ H) as (E & Hs). rewrite E. split; auto.
  - split; reflexivity.
  - split; reflexivity.
Qed.



Lemma findFirst_any_user dt date rows r :
  In r rows ->
  HealthData.data_type r = dt -> HealthData.date r = date ->
  exists row,
    findFirst None dt (Some date) rows = Some row
    /\ In row rows
    /\ HealthData.data_type row = dt /\ HealthData.date row = date.
Proof.
  intros Hin Ht Hd. unfold findFirst.
  assert (Hm : matches None dt (Some date) r = true).
  { unfold matches, filter_eq. simpl. subst.
    rewrite !String.eqb_refl. reflexivity. }
  destruct (List.find _ rows) as [row|] eqn:E.
  - exists row. apply List.find_some in E. destruct E as [E1 E2].
    unfold matches, filter_eq in E2. simpl in E2.
    apply andb_true_iff in E2. destruct E2 as [E2 E3].
    apply String.eqb_eq in E2, E3. repeat split; auto.
  - apply (List.find_none _ _ E) in Hin. rewrite Hin in Hm. discriminate.
Qed.

(** X11.  A snapshot read with no user_id in the query.  The lookup drops
    the filter that has no value, so the first row of that data_type and
    date is served, whoever it belongs to, and the provider is not called.
    On a miss the provider is asked for the user undefined, and a body it
    sends cannot be stored, a row needing a user_id: the caller gets 500
    and HealthData is as it was. *)
Theorem getSnapshot_without_user_id route date w :
  (forall r,
      In r (healthData w) ->
      HealthData.data_type r = data_type route ->
      HealthData.date r = date ->
      exists row,
        In row (healthData w)
        /\ HealthData.data_type row = data_type route
        /\ HealthData.date row = date
        /\ fst (getSnapshot route None (Some date) w)
           = json 200 (HealthData.data row)
        /\ upstream_calls (trace (snd (getSnapshot route None (Some date) w)))
           = upstream_calls (trace w))
  /\ (forall st d,
        findFirst None (data_type route) (Some date) (healthData w) = None ->
        remote (trace (log (HealthDataFindFirst None (data_type route)
                              (Some date)) w))
          (Get (resource route +:+ "?user_id=undefined&date=" +:+ date))
        = Replied st d ->
        validateStatus st = true ->
        truthy d = true ->
        fst (getSnapshot route None (Some date) w)
        = json 500 (error_body invalid_invocation)
        /\ healthData (snd (getSnapshot route None (Some date) w))
           = healthData w).
Proof.
  split.
  - intros r Hin Ht Hd.
    destruct (findFirst_any_user _ _ _ _ Hin Ht Hd)
      as (row & Hf & Hrow & Ht' & Hd').
    exists row. rewrite (getSnapshot_hit _ _ _ _ _ Hf). simpl.
    rewrite upstream_calls_snoc. simpl. repeat split; auto with arith.
  - intros st d Hf Hr Hv Ht.
    rewrite (getSnapshot_miss _ _ _ _ Hf). cbv zeta.
    change (snapshot_url route None (Some date))
      with (resource route +:+ "?user_id=undefined&date=" +:+ date).
    rewrite Hr, (settle_resolved _ _ Hv). cbn [data]. rewrite Ht.
    unfold insert_healthData. destruct d; try discriminate;
      split; reflexivity.
Qed.

(** X12.  The data_type tag tells the routes apart, with one exception:
    the events route for the type summary has the tag of the summary
    route, for physical and for body.  So a read of
    /health/physical/events/summary is answered with the cached physical
    summary of that user and date, though the two ask the provider for
    different resources. *)
Theorem data_type_collisions :
  (forall r1 r2,
      data_type r1 = data_type r2 <->
      r1 = r2
      \/ (r1 = PhysicalSummary /\ r2 = PhysicalEvents "summary")
      \/ (r1 = PhysicalEvents "summary" /\ r2 = PhysicalSummary)
      \/ (r1 = BodySummary /\ r2 = BodyEvents "summary")
      \/ (r1 = BodyEvents "summary" /\ r2 = BodySummary))
  /\ (forall user_id date w row,
        findFirst (Some user_id) (data_type PhysicalSummary) (Some date)
          (healthData w) = Some row ->
        fst (getSnapshot (PhysicalEvents "summary") (Some user_id)
               (Some date) w)
        = json 200 (HealthData.data row)
        /\ upstream_calls
             (trace (snd (getSnapshot (PhysicalEvents "summary")
                            (Some user_id) (Some date) w)))
           = upstream_calls (trace w)
        /\ resource (PhysicalEvents "summary") <> resource PhysicalSummary).
Proof.
  split.
  - intros r1 r2. split.
    + destruct r1, r2; simpl; intros H; try discriminate;
        try (left; reflexivity); cbv in H; inversion H; subst;
        solve [ left; reflexivity
              | right; left; split; reflexivity
              | right; right; left; split; reflexivity
              | right; right; right; left; split; reflexivity
              | right; right; right; right; split; reflexivity ].
    + intros [-> | [(-> & ->) | [(-> & ->) | [(-> & ->) | (-> & ->)]]]];
        reflexivity.
  - intros user_id date w row Hf.
    rewrite (getSnapshot_hit (PhysicalEvents "summary") _ _ _ _ Hf). simpl.
    rewrite upstream_calls_snoc. simpl.
    repeat split; [lia | discriminate].
Qed.

(** ** The forwarding routes, userSchema *)

(** X13.  The data-source and client routes touch nothing of their own:
    one call to the provider, both tables as they were.  They answer 200
    with the body of the provider exactly when it replied in 200..299,
    whatever the status in that range, and otherwise with the status of the
    reply, or 500 when there was none, and a body whose error is the
    message of axios. *)
Theorem forward_answers f w :
  snd (forward f w) = log (Rook (forward_request f)) w
  /\ (forall st d,
        remote (trace w) (forward_request f) = Replied st d ->
        (validateStatus st = true -> fst (forward f w) = json 200 d)
        /\ (validateStatus st = false ->
            fst (forward f w)
            = json (if st =? 0 then 500 else st)
                (VObj [("error",
                        VStr ("Request failed with status code "
                              +:+ pretty st))])))
  /\ (forall m,
        remote (trace w) (forward_request f) = NoReply m ->
        fst (forward f w) = json 500 (VObj [("error", VStr m)]))
  /\ (statusCode (fst (forward f w)) = 200 ->
      exists st d,
        remote (trace w) (forward_request f) = Replied st d
        /\ validateStatus st = true).
Proof.
  rewrite forward_run. repeat apply conj.
  - destruct (settle _); reflexivity.
  - intros st d Hr. rewrite Hr. split; intros Hv.
    + rewrite (settle_resolved _ _ Hv). reflexivity.
    + rewrite (settle_rejected _ _ Hv). reflexivity.
  - intros m Hr. rewrite Hr. reflexivity.
  - destruct (remote (trace w) _) as [st d|m]; simpl.
    + destruct (validateStatus st) eqn:Hv.
      * intros _. exists st, d. split; [reflexivity | exact Hv].
      * unfold error_outcome, error_status, json. simpl.
        destruct (st =? 0) eqn:E0; intros H; [discriminate H|].
        subst st. discriminate Hv.
    + intros H. discriminate H.
Qed.

Lemma unknown_key_none props k :
  unknown_key props = None ->
  has_prop k props = true ->
  existsb (String.eqb k) schema_keys = true.
Proof.
  induction props as [|[k' v] rest IH]; cbn [unknown_key has_prop];
    [intros _ H; discriminate H|].
  destruct (existsb (String.eqb k') schema_keys) eqn:E;
    [|intros H; discriminate H].
  intros Hu Hk. apply orb_true_iff in Hk. destruct Hk as [Hk | Hk].
  - apply String.eqb_eq in Hk. subst. exact E.
  - exact (IH Hu Hk).
Qed.

(** X14.  userSchema wants the datetime and knows seven keys.  A body
    with no datetime is refused, and so is a body with a key that is not one
    of the seven, whatever else they hold; either way the answer is 422 and
    nothing has been called. *)
Theorem userSchema_refuses_undated_and_unknown props w :
  prop "datetime" props = VUndefined
  \/ (exists k, has_prop k props = true
                /\ existsb (String.eqb k) schema_keys = false) ->
  userSchema_validate (VObj props) <> None
  /\ statusCode (fst (submitProfile (VObj props) w)) = 422
  /\ snd (submitProfile (VObj props) w) = w.
Proof.
  intros H.
  assert (Hno : userSchema_validate (VObj props) <> None).
  { intros Hv. apply userSchema_valid_inv in Hv.
    destruct Hv as (props' & E & Hdt & _ & _ & _ & _ & _ & _ & Hu).
    inversion E; subst props'; clear E.
    destruct H as [H | (k & Hk & Hs)].
    - rewrite H in Hdt. discriminate.
    - rewrite (unknown_key_none _ _ Hu Hk) in Hs. discriminate. }
  destruct (userSchema_validate (VObj props)) as [e|] eqn:Hv;
    [|contradiction Hno; reflexivity].
  rewrite (submitProfile_invalid _ _ _ Hv). repeat split. discriminate.
Qed.

(** X15.  A number sent as a string gets through userSchema, which reads
    it as a number, and not into the store, which is handed the string.
    When the height, the weight or the bmi of a valid body is a string, the
    provider is called with the body and may accept it; the store then
    refuses the write, the User table is as it was and the answer is
    500. *)
Theorem submitProfile_numeric_string_is_refused body s w st d :
  userSchema_validate body = None ->
  field body "height_cm_int" = VStr s
  \/ field body "weight_kg_float" = VStr s
  \/ field body "bmi_float" = VStr s ->
  remote (trace w) (Post "/api/v2/user-information" body) = Replied st d ->
  validateStatus st = true ->
  fst (submitProfile body w) = json 500 (error_body invalid_invocation)
  /\ users (snd (submitProfile body w)) = users w
  /\ upstream_calls (trace (snd (submitProfile body w)))
     = S (upstream_calls (trace w)).
Proof.
  intros Hvalid Hs Hr Hv. rewrite (submitProfile_valid _ _ Hvalid).
  cbv zeta. rewrite Hr, (settle_resolved _ _ Hv).
  assert (Hargs : user_args (profile_fields body) = None).
  { unfold user_args, profile_fields. simpl.
    destruct (text_arg (field body "date_of_birth_string"));
      [|reflexivity].
    destruct Hs as [-> | [-> | ->]]; simpl; [reflexivity | |].
    - destruct (int_arg _); reflexivity.
    - destruct (int_arg _); [|reflexivity].
      destruct (float_arg _); reflexivity. }
  unfold upsert_users, profile_create. simpl. rewrite Hargs.
  assert (E : match field body "user_id" with
              | VStr _ => @None (gmap string User.t)
              | _ => None
              end = None) by (destruct (field body "user_id"); reflexivity).
  rewrite E. simpl. rewrite !upstream_calls_snoc. simpl.
  repeat split; lia.
Qed.

(** ** The environment routes *)

Lemma length_append (a b : string) :
  String.length (a +:+ b) = (String.length a + String.length b)%nat.
Proof.
  induction a as [|x a IH]; simpl; [reflexivity | rewrite IH; reflexivity].
Qed.

Lemma append_cancel_r (a b c : string) : a +:+ c = b +:+ c -> a = b.
Proof.
  revert b. induction a as [|x a IH]; intros [|y b] H; simpl in H.
  - reflexivity.
  - exfalso. apply (f_equal String.length) in H.
    change (String.length c = S (String.length (b +:+ c))) in H.
    rewrite length_append in H. lia.
  - exfalso. apply (f_equal String.length) in H.
    change (S (String.length (a +:+ c)) = String.length c) in H.
    rewrite length_append in H. lia.
  - injection H as -> H. f_equal. apply IH, H.
Qed.

Lemma js_prefix_whole (s : string) :
  forall n, (js_length s <= n)%nat -> js_prefix n s = s.
Proof.
  induction s as [|c s IH]; intros n H; [reflexivity|].
  cbn [js_prefix js_length] in *. unfold units_of in *.
  destruct (is_continuation c).
  - rewrite (IH n) by exact H. reflexivity.
  - destruct (240 <=? N_of_ascii c)%N.
    + destruct n as [|[|n]]; [lia | lia |].
      rewrite (IH n) by lia. reflexivity.
    + destruct n as [|n]; [lia|].
      rewrite (IH n) by lia. destruct n; reflexivity.
Qed.

(** X16.  What GET /debug-env tells about CLIENT_SECRET is its first eight
    UTF-16 code units and its length in such units, no more and no less:
    two secrets give the same reply exactly when they agree on both.  A
    secret of at most eight units is therefore shown in full. *)
Theorem debugEnv_shows_prefix_and_length
  (uuid base port : option string) (s1 s2 : string) :
  s1 <> "" -> s2 <> "" ->
  (debugEnv (mkEnv uuid (Some s1) base port)
   = debugEnv (mkEnv uuid (Some s2) base port)
   <-> js_prefix 8 s1 = js_prefix 8 s2 /\ js_length s1 = js_length s2)
  /\ ((js_length s1 <= 8)%nat ->
      prop "CLIENT_SECRET"
        match body (debugEnv (mkEnv uuid (Some s1) base port)) with
        | Some (VObj reply) =>
            match prop "credentials" reply with
            | VObj credentials => credentials
            | _ => []
            end
        | _ => []
        end
      = VStr (s1 +:+ "...")).
Proof.
  intros H1 H2.
  apply String.eqb_neq in H1. apply String.eqb_neq in H2.
  unfold debugEnv, masked, length_or_zero, absent, json.
  cbn [CLIENT_SECRET CLIENT_UUID ROOK_BASE_URL template body prop
       String.eqb Ascii.eqb Bool.eqb].
  rewrite H1, H2. split; [split|].
  - intros H. inversion H as [[Hprefix Hlength]]. split.
    + exact (append_cancel_r _ _ _ Hprefix).
    + apply Nat2Z.inj. exact Hlength.
  - intros [Hprefix Hlength]. rewrite Hprefix, Hlength. reflexivity.
  - intros Hshort. rewrite (js_prefix_whole s1 8 Hshort). reflexivity.
Qed.

(** X17.  GET /test-auth answers 400 without any call when CLIENT_UUID or
    CLIENT_SECRET is missing or empty.  Otherwise it asks the provider once,
    for the status of the client's users up to today, touches neither table,
    and answers 200 exactly when the provider's reply is in 200..299; a
    refused call comes back with the provider's status and a failed
    transport with 500. *)
Theorem testAuth_outcome (env : Env) (w : World) :
  let call :=
    Get ("/api/v1/client/users/status?up_to_date="
         +:+ before_T (isoString (now (trace w)))) in
  (absent (CLIENT_UUID env) || absent (CLIENT_SECRET env) = true ->
   testAuth env w = (json 400 (missing_credentials env), w))
  /\ (absent (CLIENT_UUID env) || absent (CLIENT_SECRET env) = false ->
      trace (snd (testAuth env w)) = (trace w ++ [Rook call])%list
      /\ users (snd (testAuth env w)) = users w
      /\ healthData (snd (testAuth env w)) = healthData w
      /\ (statusCode (fst (testAuth env w)) = 200
          <-> exists st d,
                remote (trace w) call = Replied st d
                /\ validateStatus st = true)
      /\ (forall st d,
            remote (trace w) call = Replied st d ->
            validateStatus st = false -> st <> 0 ->
            fst (testAuth env w) = json st (auth_failed
              (AxiosError ("Request failed with status code " +:+ pretty st)
                 (Some (mkResponse st d)))))
      /\ (forall m,
            remote (trace w) call = NoReply m ->
            statusCode (fst (testAuth env w)) = 500)).
Proof.
  intros call. split; intros Hcred; unfold testAuth; rewrite Hcred;
    [reflexivity|].
  unfold try_respond, bind, new_Date, rookApi_get, rookApi, ret. cbv zeta.
  fold call.
  destruct (remote (trace w) call) as [st d|m] eqn:Hreply; unfold settle.
  - destruct (validateStatus st) eqn:Hst; simpl.
    + repeat apply conj; try reflexivity.
      * intros _. exists st, d. split; [reflexivity | exact Hst].
      * intros st' d' H. inversion H; subst. intros Hno.
        rewrite Hst in Hno. discriminate Hno.
      * intros m H. discriminate H.
    + assert (Hcode : (if st =? 0 then 500 else st) <> 200).
      { unfold validateStatus in Hst. destruct (st =? 0) eqn:H0; lia. }
      repeat apply conj; try reflexivity.
      * intros H. exfalso. apply Hcode. exact H.
      * intros (st' & d' & H & Hyes). inversion H; subst.
        rewrite Hst in Hyes. discriminate Hyes.
      * intros st' d' H. inversion H; subst. intros _ Hnz.
        unfold json, error_status. simpl.
        apply Z.eqb_neq in Hnz. rewrite Hnz. reflexivity.
      * intros m H. discriminate H.
  - simpl. repeat apply conj; try reflexivity.
    + intros H. discriminate H.
    + intros (st & d & H & _). discriminate H.
    + intros st d H. discriminate H.
Qed.

(** ** The dashboard *)

Lemma testApi_category (spec : TestSpec) (h : list AxiosConfig) :
  t_category (fst (testApi spec h)) = category_of spec.
Proof.
  unfold testApi. simpl. destruct (settle _); reflexivity.
Qed.

Lemma run_tests_cons (test : list AxiosConfig -> TestSpec)
  (rest : list (list AxiosConfig -> TestSpec)) (h : list AxiosConfig) :
  run_tests (test :: rest) h
  = (fst (testApi (test h) h)
       :: fst (run_tests rest (h ++ [config_of (test h)])%list),
     snd (run_tests rest (h ++ [config_of (test h)])%list)).
Proof.
  cbn [run_tests]. unfold testApi. cbv zeta.
  destruct (run_tests rest _); reflexivity.
Qed.

Lemma run_tests_length (tests : list (list AxiosConfig -> TestSpec)) :
  forall h, length (fst (run_tests tests h)) = length tests.
Proof.
  induction tests as [|test rest IH]; intros h; [reflexivity|].
  rewrite run_tests_cons. simpl. rewrite IH. reflexivity.
Qed.

Lemma run_tests_history (tests : list (list AxiosConfig -> TestSpec)) :
  forall h,
    exists sent,
      snd (run_tests tests h) = (h ++ sent)%list
      /\ length sent = length tests
      /\ forall f, In f tests -> exists h', In (config_of (f h')) sent.
Proof.
  induction tests as [|test rest IH]; intros h.
  - exists []. simpl. rewrite List.app_nil_r.
    repeat apply conj; [reflexivity | reflexivity | intros f []].
  - rewrite run_tests_cons. simpl.
    destruct (IH (h ++ [config_of (test h)])%list)
      as (sent & Hsent & Hlen & Hin).
    exists (config_of (test h) :: sent). repeat apply conj.
    + rewrite Hsent, <- List.app_assoc. reflexivity.
    + simpl. rewrite Hlen. reflexivity.
    + intros f [<-|Hf].
      * exists h. left. reflexivity.
      * destruct (Hin f Hf) as (h' & Hh'). exists h'. right. exact Hh'.
Qed.

Lemma run_tests_categories (tests : list (list AxiosConfig -> TestSpec)) :
  Forall (fun f => forall h1 h2, category_of (f h1) = category_of (f h2))
    tests ->
  forall h,
    map t_category (fst (run_tests tests h))
    = map (fun f => category_of (f [])) tests.
Proof.
  induction 1 as [|test rest Htest _ IH]; intros h; [reflexivity|].
  rewrite run_tests_cons. cbn [fst map].
  rewrite testApi_category, IH, (Htest h []). reflexivity.
Qed.

Lemma filter_map_length {A B : Type} (k : A -> B) (p : B -> bool)
  (l : list A) :
  length (List.filter (fun a => p (k a)) l)
  = length (List.filter p (map k l)).
Proof.
  induction l as [|a l IH]; [reflexivity|]. simpl.
  destruct (p (k a)); simpl; rewrite IH; reflexivity.
Qed.

Lemma passed_failed (results : list TestResult) :
  (passed_of results + failed_of results = length results)%nat.
Proof.
  unfold passed_of, failed_of.
  induction results as [|r results IH]; [reflexivity|]. simpl.
  destruct (t_success r); simpl; lia.
Qed.

Lemma find_user_history (today : string) (h : list AxiosConfig) :
  snd (find_user today h)
  = (h ++ [mkConfig "get" "/api/v1/client/users/status" VUndefined
             (today_params today)])%list.
Proof.
  unfold find_user. cbv zeta.
  destruct (settle _) as [e|response]; [reflexivity|].
  destruct (read _ _) as [e|users]; [reflexivity|].
  destruct (truthy users && has_items users); [|reflexivity].
  destruct (read _ _); reflexivity.
Qed.

Lemma script_length (realUserId : Value) (today yesterday : string) :
  length (script realUserId today yesterday) = 19%nat.
Proof. reflexivity. Qed.

Lemma script_categories (realUserId : Value) (today yesterday : string) :
  map (fun f => category_of (f [])) (script realUserId today yesterday)
  = ["auth"; "data_sources"; "data_sources"; "data_sources"; "client";
     "client"; "user"; "user"; "health"; "health"; "health"; "health";
     "health"; "health"; "health"; "health"; "health"; "historical";
     "historical"].
Proof. reflexivity. Qed.

Lemma script_categories_fixed (realUserId : Value)
  (today yesterday : string) :
  Forall (fun f => forall h1 h2, category_of (f h1) = category_of (f h2))
    (script realUserId today yesterday).
Proof.
  unfold script. cbv zeta.
  repeat (constructor; [intros h1 h2; reflexivity|]).
  constructor.
Qed.

(** X18.  A test of the dashboard counts as passed exactly when the provider
    replied with a status in 200..299.  The test [status < 400] of the code
    never decides: a reply in 300..399 is rejected by axios before it, and
    is reported as failed, with its status and axios's message. *)
Theorem testApi_passes_on_2xx_only (spec : TestSpec) (h : list AxiosConfig) :
  (t_success (fst (testApi spec h)) = true
   <-> exists st d,
         remote_request h (config_of spec) = Replied st d
         /\ 200 <= st < 300)
  /\ (forall st d,
        remote_request h (config_of spec) = Replied st d ->
        300 <= st < 400 ->
        t_success (fst (testApi spec h)) = false
        /\ t_status (fst (testApi spec h)) = VNum (inject_Z st)
        /\ t_responseData (fst (testApi spec h))
           = (if truthy d then d
              else error_body ("Request failed with status code "
                               +:+ pretty st))
        /\ t_error (fst (testApi spec h))
           = VStr ("Request failed with status code " +:+ pretty st)).
Proof.
  unfold testApi. cbv zeta. simpl.
  destruct (remote_request h (config_of spec)) as [st d|m]; unfold settle.
  - destruct (validateStatus st) eqn:Hst; unfold validateStatus in Hst;
      simpl.
    + split.
      * unfold looks_fine.
        split; [intros _; exists st, d; split; [reflexivity | lia]|].
        intros _. apply andb_true_intro. split; lia.
      * intros st' d' H. inversion H; subst. lia.
    + split.
      * split; [intros H; discriminate H|].
        intros (st' & d' & H & Hrange). inversion H; subst. lia.
      * intros st' d' H Hrange. inversion H; subst.
        unfold status_or_ERR, data_or_error. simpl.
        destruct (st' =? 0) eqn:H0; [lia|].
        repeat apply conj; reflexivity.
  - simpl. split.
    + split; [intros H; discriminate H|].
      intros (st & d & H & _). discriminate H.
    + intros st d H. discriminate H.
Qed.

Lemma dashboard_run (env : Env) (h : list AxiosConfig) :
  let today := day_of (clock h) in
  let yesterday := day_of (clock h - 24 * 3600 * 1000) in
  let probe :=
    mkConfig "get" "/api/v1/client/users/status" VUndefined
      (today_params today) in
  let realUserId := fst (fst (find_user today h)) in
  let run :=
    run_tests (script realUserId today yesterday) (h ++ [probe])%list in
  d_realUserId (fst (dashboard env h)) = realUserId
  /\ d_clientStats (fst (dashboard env h)) = snd (fst (find_user today h))
  /\ d_results (fst (dashboard env h)) = fst run
  /\ d_totalTests (fst (dashboard env h)) = length (fst run)
  /\ d_passedTests (fst (dashboard env h)) = passed_of (fst run)
  /\ d_failedTests (fst (dashboard env h)) = failed_of (fst run)
  /\ d_categoryStats (fst (dashboard env h))
     = map (fun c => (c, stats_of (in_category c (fst run)))) category_names
  /\ snd (dashboard env h) = snd run.
Proof.
  intros today yesterday probe realUserId run.
  unfold dashboard. fold today yesterday.
  pose proof (find_user_history today h) as Hh. fold probe in Hh.
  subst run realUserId.
  destruct (find_user today h) as [[id stats] h1]. simpl in Hh. subst h1.
  cbn [fst snd].
  destruct (run_tests (script id today yesterday) (h ++ [probe]))
    as [results h2].
  repeat apply conj; reflexivity.
Qed.

Lemma category_total (category : string) (tests : list (list AxiosConfig -> TestSpec))
  (h : list AxiosConfig) :
  Forall (fun f => forall h1 h2, category_of (f h1) = category_of (f h2))
    tests ->
  length (in_category category (fst (run_tests tests h)))
  = length (List.filter (fun c => String.eqb c category)
              (map (fun f => category_of (f [])) tests)).
Proof.
  intros Hfixed. unfold in_category.
  rewrite (filter_map_length t_category (fun c => String.eqb c category)).
  rewrite (run_tests_categories tests Hfixed). reflexivity.
Qed.

(** X19.  Whatever the provider does, one load of the dashboard sends it
    twenty requests, the look for a user and nineteen tests, and reports
    nineteen results, each test passed or failed; the six categories hold
    1, 3, 2, 2, 9 and 2 of them, so that no test is left in the default
    category. *)
Theorem dashboard_counts (env : Env) (h : list AxiosConfig) :
  let d := fst (dashboard env h) in
  d_totalTests d = 19%nat
  /\ length (d_results d) = 19%nat
  /\ (d_passedTests d + d_failedTests d = 19)%nat
  /\ length (snd (dashboard env h)) = (length h + 20)%nat
  /\ map (fun c => (fst c, cs_total (snd c))) (d_categoryStats d)
     = [("auth", 1%nat); ("data_sources", 3%nat); ("client", 2%nat);
        ("user", 2%nat); ("health", 9%nat); ("historical", 2%nat)]
  /\ Forall (fun c => (cs_passed (snd c) + cs_failed (snd c)
                       = cs_total (snd c))%nat) (d_categoryStats d).
Proof.
  intros d. subst d.
  destruct (dashboard_run env h)
    as (_ & _ & Hresults & Htotal & Hpassed & Hfailed & Hstats & Hsent).
  rewrite Hresults, Htotal, Hpassed, Hfailed, Hstats, Hsent.
  set (today := day_of (clock h)).
  set (yesterday := day_of (clock h - 24 * 3600 * 1000)).
  set (id := fst (fst (find_user today h))).
  set (h1 := (h ++ _)%list).
  pose proof (run_tests_length (script id today yesterday) h1) as Hlen.
  rewrite script_length in Hlen.
  repeat apply conj.
  - exact Hlen.
  - exact Hlen.
  - rewrite passed_failed. exact Hlen.
  - destruct (run_tests_history (script id today yesterday) h1)
      as (sent & -> & Hsent' & _).
    rewrite script_length in Hsent'. subst h1.
    rewrite !List.length_app, Hsent'. simpl. lia.
  - unfold category_names. cbn [map fst snd stats_of cs_total].
    rewrite !(category_total _ _ _ (script_categories_fixed id today yesterday)).
    rewrite script_categories. reflexivity.
  - unfold category_names. cbn [map].
    repeat (constructor; [apply passed_failed|]). constructor.
Qed.

(** X20.  The dashboard is no read-only view: every load of it asks the
    provider, with two POST requests among the twenty, to revoke the Oura
    data source of the user it tests with and to set that user's time zone
    to America/New_York, whatever the provider answered before. *)
Theorem dashboard_writes_at_the_provider (env : Env) (h : list AxiosConfig) :
  let id := template_value (d_realUserId (fst (dashboard env h))) in
  exists sent,
    snd (dashboard env h) = (h ++ sent)%list
    /\ length sent = 20%nat
    /\ In (mkConfig "post"
             ("/api/v1/user_id/" +:+ id +:+ "/data_sources/revoke_auth")
             (VObj [("data_source", VStr "Oura")]) VUndefined) sent
    /\ In (mkConfig "post" ("/api/v1/user_id/" +:+ id +:+ "/time_zone")
             (VObj [("time_zone", VStr "America/New_York");
                    ("offset", VStr "-05:00")]) VUndefined) sent.
Proof.
  intros id. subst id.
  destruct (dashboard_run env h) as (Hid & _ & _ & _ & _ & _ & _ & Hsent).
  rewrite Hid, Hsent.
  set (today := day_of (clock h)).
  set (yesterday := day_of (clock h - 24 * 3600 * 1000)).
  set (id := fst (fst (find_user today h))).
  set (probe := mkConfig "get" _ _ _).
  destruct (run_tests_history (script id today yesterday) (h ++ [probe]))
    as (sent & -> & Hlen & Hin).
  rewrite script_length in Hlen.
  exists (probe :: sent). repeat apply conj.
  - rewrite <- List.app_assoc. reflexivity.
  - simpl. rewrite Hlen. reflexivity.
  - destruct (Hin (fixed (mkSpec "REVOKE SOURCE" "post"
                     ("/api/v1/user_id/" +:+ template_value id
                      +:+ "/data_sources/revoke_auth")
                     (VObj [("data_source", VStr "Oura")]) VUndefined
                     (Some "data_sources")))) as (h' & Hh').
    { unfold script. cbv zeta. do 3 right. left. reflexivity. }
    right. exact Hh'.
  - destruct (Hin (fixed (mkSpec "SET TIMEZONE" "post"
                     ("/api/v1/user_id/" +:+ template_value id
                      +:+ "/time_zone")
                     (VObj [("time_zone", VStr "America/New_York");
                            ("offset", VStr "-05:00")])
                     VUndefined (Some "user")))) as (h' & Hh').
    { unfold script. cbv zeta. do 7 right. left. reflexivity. }
    right. exact Hh'.
Qed.

(** X21.  The user the dashboard tests with is the first one the provider
    lists: when the look for a user is answered in 200..299 with a body whose
    users are a list that is not empty and begins with an object, the tests
    run with that object's user_id, whatever it is, and the body is reported
    as clientStats.  When the look is refused or fails, they run with
    demoUserId and clientStats is null. *)
Theorem dashboard_picks_first_user (env : Env) (h : list AxiosConfig) :
  let probe :=
    mkConfig "get" "/api/v1/client/users/status" VUndefined
      (today_params (day_of (clock h))) in
  let d := fst (dashboard env h) in
  (forall st props u rest,
     remote_request h probe = Replied st (VObj props) ->
     validateStatus st = true ->
     prop "users" props = VArr (VObj u :: rest) ->
     d_realUserId d = prop "user_id" u /\ d_clientStats d = VObj props)
  /\ (forall e,
        settle (remote_request h probe) = inl e ->
        d_realUserId d = VStr "demoUserId" /\ d_clientStats d = VNull).
Proof.
  intros probe d. subst d.
  destruct (dashboard_run env h) as (Hid & Hstats & _).
  rewrite Hid, Hstats. unfold find_user. cbv zeta. fold probe. split.
  - intros st props u rest Hreply Hst Husers.
    rewrite Hreply, (settle_resolved _ _ Hst). cbn [data read].
    rewrite Husers. cbn. split; reflexivity.
  - intros e He. rewrite He. split; reflexivity.
Qed.

(** ** smoke.js *)

(** X22.  A call of the smoke run counts as passed exactly when the server
    replied with a status from 200 up to 399, redirections included, since
    its client lets every status through; its status reads ERR exactly when
    no reply came. *)
Theorem smoke_testApi_passes_below_400 (name : string) (reply : Wire) :
  (k_success (smoke_testApi name reply) = true
   <-> exists st d, reply = Replied st d /\ 200 <= st < 400)
  /\ (k_status (smoke_testApi name reply) = VStr "ERR"
      <-> exists m, reply = NoReply m).
Proof.
  unfold smoke_testApi. destruct reply as [st d|m]; simpl.
  - unfold looks_fine. repeat apply conj.
    + intros H. apply andb_prop in H. exists st, d.
      split; [reflexivity | lia].
    + intros (st' & d' & H & Hrange). inversion H; subst.
      apply andb_true_intro. split; lia.
    + intros H. discriminate H.
    + intros (m & H). discriminate H.
  - repeat apply conj.
    + intros H. discriminate H.
    + intros (st & d & H & _). discriminate H.
    + intros _. exists m. reflexivity.
    + intros _. reflexivity.
Qed.

End Server.

(** ** The properties at sample inputs *)

(** A stored sleep summary is served with the provider down; on an empty
    store the first read fetches the score and the second one finds it. *)
Lemma getSnapshot_read_through_once_witness :
  (exists row,
      In row (healthData cached_world)
      /\ fst (getSnapshot (replies (NoReply "down")) ticks refused
                SleepSummary (Some "u1") (Some "2024-06-01") cached_world)
         = json 200 (HealthData.data row)
      /\ upstream_calls
           (trace (snd (getSnapshot (replies (NoReply "down")) ticks refused
                          SleepSummary (Some "u1") (Some "2024-06-01")
                          cached_world)))
         = upstream_calls (trace cached_world))
  /\ (let first := getSnapshot (replies (Replied 200 score)) ticks refused
                     SleepSummary (Some "u1") (Some "2024-06-01")
                     empty_world in
      let second := getSnapshot (replies (Replied 200 score)) ticks refused
                      SleepSummary (Some "u1") (Some "2024-06-01")
                      (snd first) in
      fst first = json 200 score
      /\ fst second = json 200 score
      /\ upstream_calls (trace (snd second))
         = S (upstream_calls (trace empty_world))).
Proof.
  split.
  - destruct (getSnapshot_read_through_once (replies (NoReply "down")) ticks
                refused SleepSummary "u1" "2024-06-01" cached_world)
      as [Hhit _].
    destruct (Hhit sleep_row) as (row & Hin & _ & _ & _ & Hout & Hcalls & _);
      [left; reflexivity | reflexivity | reflexivity | reflexivity |].
    exists row. repeat split; assumption.
  - destruct (getSnapshot_read_through_once (replies (Replied 200 score))
                ticks refused SleepSummary "u1" "2024-06-01" empty_world)
      as [_ Hmiss].
    destruct (Hmiss 200 score) as [Hstored _];
      [reflexivity | reflexivity | reflexivity | reflexivity | reflexivity
      | reflexivity | reflexivity |].
    destruct Hstored as (H1 & H2 & _ & _ & _ & H5); [reflexivity|].
    cbv zeta in *. repeat apply conj; [exact H1 | exact H2 | exact H5].
Defined.

(** C1, as first stated, at a sample input: the provider sends the score
    before the heart rate; the first read returns the body as it came, the
    second one, served from the row that the first populated, returns the
    heart rate before the score, so the two answers are not identical. *)
Lemma getSnapshot_second_answer_reorders_keys :
  let first := getSnapshot (replies (Replied 200 two_scores)) ticks refused
                 SleepSummary (Some "u1") (Some "2024-06-01") empty_world in
  let second := getSnapshot (replies (Replied 200 two_scores)) ticks refused
                  SleepSummary (Some "u1") (Some "2024-06-01") (snd first) in
  findFirst (Some "u1") "sleep_summary" (Some "2024-06-01")
    (healthData empty_world) = None
  /\ fst first
     = json 200 (VObj [("score", VNum (82 # 1)); ("hr", VNum (60 # 1))])
  /\ length (healthData (snd first)) = 1%nat
  /\ fst second
     = json 200 (VObj [("hr", VNum (60 # 1)); ("score", VNum (82 # 1))])
  /\ upstream_calls (trace (snd second)) = 1%nat
  /\ fst second <> fst first.
Proof.
  cbv zeta. repeat apply conj; try reflexivity.
  intros H. vm_compute in H. discriminate H.
Qed.



(** The stored profile has a height and a sex; a weight is submitted. *)
Lemma submitProfile_merges_fields_witness :
  users (snd (submitProfile (replies (Replied 200 (VObj []))) calendar_date
                no_conversion rule_path refused weight_update profile_world))
    !! "u1"
  = Some (User.mk "u1" None (Some 180) (Some (75 # 1)) None (Some "male")
            None None).
Proof.
  destruct (submitProfile_merges_fields (replies (Replied 200 (VObj [])))
              calendar_date no_conversion rule_path refused weight_update
              "u1" stored_user profile_world 200 (VObj []))
    as (row' & Hrow' & _ & _ & _ & _ & _ & _ & _ & _ & Hput & _);
    [reflexivity | reflexivity | reflexivity | reflexivity | reflexivity |].
  destruct (Hput (mkUserArgs Keep Keep (Put (75 # 1)) Keep Keep Keep Keep))
    as [Hmerged _]; [reflexivity|].
  rewrite Hrow', Hmerged. reflexivity.
Defined.

(** The provider turns the weight update down with a 400. *)
Lemma submitProfile_no_write_on_upstream_failure_witness :
  fst (submitProfile (replies (Replied 400 VNull)) calendar_date
         no_conversion rule_path refused weight_update profile_world)
  = json 400 (VObj [("error", VStr "Request failed with status code 400")])
  /\ users (snd (submitProfile (replies (Replied 400 VNull)) calendar_date
                   no_conversion rule_path refused weight_update
                   profile_world))
     = users profile_world.
Proof.
  destruct (submitProfile_no_write_on_upstream_failure
              (replies (Replied 400 VNull)) calendar_date no_conversion
              rule_path refused weight_update profile_world)
    as (Hrejected & _); [reflexivity|].
  destruct (Hrejected 400 VNull) as (H1 & H2 & _);
    [reflexivity | reflexivity |].
  split; [exact H1 | exact H2].
Defined.


(** A body with no user_id. *)
Lemma submitProfile_validation_short_circuits_witness :
  statusCode (fst (submitProfile (replies (Replied 200 (VObj [])))
                     calendar_date no_conversion rule_path refused
                     no_user_id profile_world))
  = 422
  /\ snd (submitProfile (replies (Replied 200 (VObj []))) calendar_date
            no_conversion rule_path refused no_user_id profile_world)
     = profile_world.
Proof.
  destruct (submitProfile_validation_short_circuits
              (replies (Replied 200 (VObj []))) calendar_date no_conversion
              rule_path refused no_user_id
              (mkValidationError "user_id" AnyRequired) profile_world)
    as (_ & H1 & H2 & _); [reflexivity|].
  split; [exact H1 | exact H2].
Defined.

(** The stored profile is read with no date, the provider being down. *)
Lemma getProfile_serves_stored_profile_witness :
  fst (getProfile (replies (NoReply "down")) refused "u1" None profile_world)
  = json 200
      (VObj [("data_structure", VStr "user_info");
             ("user_information",
              VObj [("user_id", VStr "u1"); ("date_of_birth", VNull);
                    ("height_cm", VNum (180 # 1)); ("weight_kg", VNull);
                    ("bmi", VNull); ("sex", VStr "male");
                    ("time_zone", VNull); ("offset", VNull)])])
  /\ upstream_calls
       (trace (snd (getProfile (replies (NoReply "down")) refused "u1" None
                      profile_world)))
     = upstream_calls (trace profile_world).
Proof.
  destruct (getProfile_serves_stored_profile (replies (NoReply "down"))
              refused "u1" None profile_world stored_user)
    as (H1 & _ & H2 & _); [reflexivity | reflexivity |].
  split; [exact H1 | exact H2].
Defined.


(** A dated read for a stored user; the response carries a date of
    birth. *)
Lemma getProfile_writes_back_birth_date_only_witness :
  users (snd (getProfile (replies (Replied 200 born_1990)) refused "u1"
                (Some "2024-06-01") profile_world)) !! "u1"
  = Some (User.mk "u1" (Some "1990-01-01") (Some 180) None None
            (Some "male") None None)
  /\ fst (getProfile (replies (Replied 200 born_1990)) refused "u1"
            (Some "2024-06-01") profile_world)
     = json 200 born_1990.
Proof.
  pose proof (getProfile_writes_back_birth_date_only
                (replies (Replied 200 born_1990)) refused "u1"
                (Some "2024-06-01") profile_world 200 born_1990) as H.
  cbv zeta in H.
  destruct H as (_ & _ & _ & _ & _ & Hback & _);
    [right; reflexivity | reflexivity | reflexivity | reflexivity |].
  destruct Hback as (Hout & Husers); [reflexivity | reflexivity |].
  split; [rewrite Husers; reflexivity | exact Hout].
Defined.


(** C9, as first stated, at a sample input: the stored date of birth is
    1990-01-01 and the response has no date of birth to give, its
    date_of_birth_string being null; the write-back clears the column. *)
Lemma getProfile_null_clears_birth_date :
  birth_date_in no_birth_date = VNull
  /\ users born_world !! "u1"
     = Some (User.mk "u1" (Some "1990-01-01") (Some 180) None None
               (Some "male") None None)
  /\ fst (getProfile (replies (Replied 200 no_birth_date)) refused "u1"
            (Some "2024-06-01") born_world)
     = json 200 no_birth_date
  /\ users (snd (getProfile (replies (Replied 200 no_birth_date)) refused
                   "u1" (Some "2024-06-01") born_world)) !! "u1"
     = Some (User.mk "u1" None (Some 180) None None (Some "male") None None).
Proof. repeat apply conj; reflexivity. Qed.

(** A response with a user_information and no date of birth, for a user
    that has no row: the write-back makes a row with the user_id alone. *)
Lemma getProfile_makes_blank_row :
  birth_date_in no_demographics = VUndefined
  /\ users empty_world !! "u9" = None
  /\ users (snd (getProfile (replies (Replied 200 no_demographics)) refused
                   "u9" None empty_world)) !! "u9"
     = Some (User.mk "u9" None None None None None None None).
Proof. repeat apply conj; reflexivity. Qed.

(** A time zone that is none, and no offset, for a user whose row has a
    time zone and an offset: the string takes the place of the stored time
    zone and the offset stays. *)
Lemma setTimeZone_does_not_validate_witness :
  fst (setTimeZone (replies (Replied 200 (VObj []))) refused "u1"
         (VStr "not a zone") VUndefined zoned_world)
  = json 200 (VObj [])
  /\ users (snd (setTimeZone (replies (Replied 200 (VObj []))) refused "u1"
                   (VStr "not a zone") VUndefined zoned_world)) !! "u1"
     = Some (User.mk "u1" None (Some 180) None None (Some "male")
               (Some "not a zone") (Some "+01:00")).
Proof.
  pose proof (setTimeZone_does_not_validate (replies (Replied 200 (VObj [])))
                refused "u1" (VStr "not a zone") VUndefined zoned_world)
    as H.
  cbv zeta in H. destruct H as (_ & _ & _ & Hsuccess).
  destruct (Hsuccess 200 (VObj [])) as (_ & Hstored & _);
    [reflexivity | reflexivity |].
  destruct Hstored as (H1 & H2); [reflexivity | reflexivity | exact I |].
  split; [exact H1 | rewrite H2; reflexivity].
Defined.


(** C10, as first stated, at a sample input: the time_zone supplied is the
    number 5 and the provider accepts the call; the upsert is refused, the
    row of the user is as it was and the answer is 500. *)
Lemma setTimeZone_number_is_not_stored :
  replies (Replied 200 (VObj [])) (trace profile_world)
    (Post "/api/v1/user_id/u1/time_zone"
       (VObj [("time_zone", VNum (5 # 1)); ("offset", VUndefined)]))
  = Replied 200 (VObj [])
  /\ validateStatus 200 = true
  /\ fst (setTimeZone (replies (Replied 200 (VObj []))) refused "u1"
            (VNum (5 # 1)) VUndefined profile_world)
     = json 500 (VObj [("error", VStr refused)])
  /\ users (snd (setTimeZone (replies (Replied 200 (VObj []))) refused "u1"
                   (VNum (5 # 1)) VUndefined profile_world)) !! "u1"
     = Some stored_user
  /\ User.time_zone stored_user = None.
Proof. repeat apply conj; reflexivity. Qed.


(** C5.  The provider answers a snapshot read for a key that has no row
    with 204 and an empty body.  axios resolves the call, so the handler
    never reaches handleNoContent: what goes back is res.json of the empty
    body, status 200, and not the no-content outcome.  No row is made.
    getProfile, for the same reply, passes the 204 on. *)
Theorem getSnapshot_no_content_reply_answers_200 :
  replies (Replied 204 (VStr ""))
    (trace (log (HealthDataFindFirst (Some "u1") "sleep_summary"
                   (Some "2024-06-01")) empty_world))
    (Get (snapshot_url SleepSummary (Some "u1") (Some "2024-06-01")))
  = Replied 204 (VStr "")
  /\ fst (getSnapshot (replies (Replied 204 (VStr ""))) ticks refused
            SleepSummary (Some "u1") (Some "2024-06-01") empty_world)
     = json 200 (VStr "")
  /\ fst (getSnapshot (replies (Replied 204 (VStr ""))) ticks refused
            SleepSummary (Some "u1") (Some "2024-06-01") empty_world)
     <> send 204
  /\ healthData (snd (getSnapshot (replies (Replied 204 (VStr ""))) ticks
                        refused SleepSummary (Some "u1") (Some "2024-06-01")
                        empty_world))
     = []
  /\ fst (getProfile (replies (Replied 204 (VStr ""))) refused "u1" None
            empty_world)
     = json 204 (VStr "").
Proof.
  assert (E : fst (getSnapshot (replies (Replied 204 (VStr ""))) ticks refused
                     SleepSummary (Some "u1") (Some "2024-06-01") empty_world)
              = json 200 (VStr "")) by reflexivity.
  repeat apply conj; try reflexivity.
  rewrite E. discriminate.
Qed.

(** C6, as first stated, at a sample input: the provider answers a
    snapshot read with 201, and the status that goes back is 200. *)
Lemma getSnapshot_drops_upstream_status :
  replies (Replied 201 score)
    (trace (log (HealthDataFindFirst (Some "u1") "sleep_summary"
                   (Some "2024-06-01")) empty_world))
    (Get (snapshot_url SleepSummary (Some "u1") (Some "2024-06-01")))
  = Replied 201 score
  /\ validateStatus 201 = true
  /\ statusCode (fst (getSnapshot (replies (Replied 201 score)) ticks refused
                        SleepSummary (Some "u1") (Some "2024-06-01")
                        empty_world))
     <> 201.
Proof.
  repeat apply conj; try reflexivity.
  change (200 <> 201). discriminate.
Qed.

(** A 201 reply on each of the four operations. *)
Lemma success_reply_passes_through_witness :
  fst (submitProfile (replies (Replied 201 score)) calendar_date
         no_conversion rule_path refused weight_update profile_world)
  = json 201 score
  /\ fst (setTimeZone (replies (Replied 201 score)) refused "u1"
            (VStr "America/New_York") (VStr "-05:00") profile_world)
     = json 201 score
  /\ fst (getProfile (replies (Replied 201 born_1990)) refused "u1"
            (Some "2024-06-01") profile_world)
     = json 201 born_1990
  /\ fst (getSnapshot (replies (Replied 201 score)) ticks refused
            SleepSummary (Some "u1") (Some "2024-06-01") empty_world)
     = json 200 score.
Proof.
  pose proof (success_reply_passes_through (replies (Replied 201 score))
                ticks calendar_date no_conversion rule_path refused) as H.
  cbv zeta in H. destruct H as (Hsubmit & Hzone & _ & Hsnapshot).
  pose proof (success_reply_passes_through (replies (Replied 201 born_1990))
                ticks calendar_date no_conversion rule_path refused) as H.
  cbv zeta in H. destruct H as (_ & _ & Hprofile & _).
  repeat apply conj.
  - apply Hsubmit;
      [ reflexivity | reflexivity | reflexivity | discriminate | discriminate
      | discriminate | discriminate ].
  - apply Hzone; [reflexivity | reflexivity | reflexivity | reflexivity
                 | reflexivity].
  - apply Hprofile;
      [ right; reflexivity | reflexivity | reflexivity | reflexivity
      | reflexivity | intros _; reflexivity ].
  - destruct (Hsnapshot SleepSummary (Some "u1") (Some "2024-06-01")
                empty_world 201 score) as [Hok _];
      [ reflexivity | reflexivity | reflexivity | discriminate | reflexivity
      | intros u E; inversion E; reflexivity
      | intros dt E; inversion E; reflexivity |].
    apply Hok. right.
    repeat apply conj; [discriminate | discriminate | reflexivity].
Defined.


(** ** The further properties at sample inputs *)

(** One request of each kind on an empty store: the keys of HealthData
    stay apart. *)
Lemma serve_healthData_append_only_witness :
  List.NoDup
    (map key_of
       (healthData (serve (replies (Replied 200 score)) ticks calendar_date
                      no_conversion rule_path refused as_is one_of_each
                      empty_world))).
Proof.
  destruct (serve_healthData_append_only (replies (Replied 200 score)) ticks
              calendar_date no_conversion rule_path refused as_is one_of_each
              empty_world) as [_ Hkeys].
  apply Hkeys. simpl. apply List.NoDup_nil.
Defined.

(** The stored sleep summary after one request of each kind, the provider
    being down. *)
Lemma snapshot_outlives_any_run_witness :
  fst (getSnapshot (replies (NoReply "down")) ticks refused SleepSummary
         (Some "u1") (Some "2024-06-01")
         (serve (replies (NoReply "down")) ticks calendar_date no_conversion
            rule_path refused as_is one_of_each cached_world))
  = json 200 score.
Proof.
  destruct (snapshot_outlives_any_run (replies (NoReply "down")) ticks
              calendar_date no_conversion rule_path refused as_is one_of_each
              SleepSummary (Some "u1") (Some "2024-06-01") cached_world
              sleep_row) as (_ & Hout & _); [reflexivity|].
  exact Hout.
Defined.

(** The stored user after one request of each kind. *)
Lemma serve_keeps_users_witness :
  is_Some (users (serve (replies (Replied 200 score)) ticks calendar_date
                    no_conversion rule_path refused as_is one_of_each
                    profile_world) !! "u1").
Proof.
  destruct (serve_keeps_users (replies (Replied 200 score)) ticks
              calendar_date no_conversion rule_path refused as_is one_of_each
              profile_world) as [Hkept _].
  apply Hkept. exists stored_user. reflexivity.
Defined.

(** A body with every key of userSchema for a user that has no row. *)
Lemma submitProfile_creates_row_witness :
  users (snd (submitProfile (replies (Replied 200 (VObj []))) calendar_date
                no_conversion rule_path refused full_profile empty_world))
    !! "u1"
  = Some (User.mk "u1" (Some "1990-01-01") (Some 175) (Some (141 # 2))
            (Some (23 # 1)) (Some "male") None None).
Proof.
  destruct (submitProfile_creates_row (replies (Replied 200 (VObj [])))
              calendar_date no_conversion rule_path refused full_profile
              "u1" empty_world 200 (VObj []))
    as (Hrow & _);
    [ reflexivity | reflexivity | reflexivity | reflexivity | reflexivity
    | discriminate | discriminate | discriminate
    | intros q E; inversion E; subst; vm_compute; split; discriminate |].
  exact Hrow.
Defined.

(** The weight update, twice. *)
Lemma submitProfile_twice_witness :
  users (snd (submitProfile (replies (Replied 200 (VObj []))) calendar_date
                no_conversion rule_path refused weight_update
                (snd (submitProfile (replies (Replied 200 (VObj [])))
                        calendar_date no_conversion rule_path refused
                        weight_update profile_world))))
  = users (snd (submitProfile (replies (Replied 200 (VObj [])))
                  calendar_date no_conversion rule_path refused weight_update
                  profile_world)).
Proof.
  apply (submitProfile_twice (replies (Replied 200 (VObj []))) calendar_date
           no_conversion rule_path refused weight_update profile_world 200
           (VObj [])); reflexivity.
Defined.

(** The weight update and a time zone for the same user, in both orders. *)
Lemma submitProfile_setTimeZone_commute_witness :
  users (snd (setTimeZone (replies (Replied 200 (VObj []))) refused "u1"
                (VStr "America/New_York") (VStr "-05:00")
                (snd (submitProfile (replies (Replied 200 (VObj [])))
                        calendar_date no_conversion rule_path refused
                        weight_update profile_world))))
  = users (snd (submitProfile (replies (Replied 200 (VObj [])))
                  calendar_date no_conversion rule_path refused weight_update
                  (snd (setTimeZone (replies (Replied 200 (VObj []))) refused
                          "u1" (VStr "America/New_York") (VStr "-05:00")
                          profile_world)))).
Proof.
  apply (submitProfile_setTimeZone_commute (replies (Replied 200 (VObj [])))
           calendar_date no_conversion rule_path refused weight_update "u1"
           (VStr "America/New_York") (VStr "-05:00") profile_world
           200 (VObj []) 200 (VObj []) 200 (VObj []) 200 (VObj []));
    reflexivity.
Defined.

(** A body with every key of userSchema for a stored user, then an
    undated read. *)
Lemma getProfile_reads_submitted_profile_witness :
  fst (getProfile (replies (Replied 200 (VObj []))) refused "u1" None
         (snd (submitProfile (replies (Replied 200 (VObj []))) calendar_date
                 no_conversion rule_path refused full_profile
                 zoned_world)))
  = json 200
      (VObj [("data_structure", VStr "user_info");
             ("user_information",
              VObj [("user_id", VStr "u1");
                    ("date_of_birth", VStr "1990-01-01");
                    ("height_cm", VNum (175 # 1));
                    ("weight_kg", VNum (141 # 2)); ("bmi", VNum (23 # 1));
                    ("sex", VStr "male");
                    ("time_zone", VStr "Europe/Paris");
                    ("offset", VStr "+01:00")])]).
Proof.
  pose proof (getProfile_reads_submitted_profile
                (replies (Replied 200 (VObj []))) calendar_date
                no_conversion rule_path refused full_profile "u1"
                zoned_world 200 (VObj [])) as H.
  cbv zeta in H.
  destruct H as (Hout & _);
    [ reflexivity | reflexivity | reflexivity | reflexivity
    | discriminate | discriminate | discriminate
    | intros q E; inversion E; subst; vm_compute; split; discriminate |].
  exact Hout.
Defined.

(** A 404 of the provider in handleNoContent. *)
Lemma handleNoContent_is_the_plain_catch_witness :
  handleNoContent
    (AxiosError "Request failed with status code 404"
       (Some (mkResponse 404 VNull)))
  = json 404 (error_body "Request failed with status code 404").
Proof.
  destruct (handleNoContent_is_the_plain_catch
              (AxiosError "Request failed with status code 404"
                 (Some (mkResponse 404 VNull)))) as [Hcatch _].
  - left. exists (Replied 404 VNull). reflexivity.
  - exact Hcatch.
Defined.


(** A sleep summary is asked for with a date and no user_id: the stored
    row of u1 is served; on an empty store the body of the provider cannot
    be stored. *)
Lemma getSnapshot_without_user_id_witness :
  (exists row,
      In row (healthData cached_world)
      /\ fst (getSnapshot (replies (NoReply "down")) ticks refused
                SleepSummary None (Some "2024-06-01") cached_world)
         = json 200 (HealthData.data row))
  /\ fst (getSnapshot (replies (Replied 200 score)) ticks refused
            SleepSummary None (Some "2024-06-01") empty_world)
     = json 500 (error_body refused).
Proof.
  split.
  - destruct (getSnapshot_without_user_id (replies (NoReply "down")) ticks
                refused SleepSummary "2024-06-01" cached_world)
      as [Hhit _].
    destruct (Hhit sleep_row) as (row & Hin & _ & _ & Hout & _);
      [left; reflexivity | reflexivity | reflexivity |].
    exists row. split; [exact Hin | exact Hout].
  - destruct (getSnapshot_without_user_id (replies (Replied 200 score)) ticks
                refused SleepSummary "2024-06-01" empty_world)
      as [_ Hmiss].
    destruct (Hmiss 200 score) as (Hout & _);
      [reflexivity | reflexivity | reflexivity | reflexivity |].
    exact Hout.
Defined.

(** The two physical routes that share a tag. *)
Lemma data_type_collisions_witness :
  data_type PhysicalSummary = data_type (PhysicalEvents "summary").
Proof.
  destruct (data_type_collisions (replies (NoReply "down")) ticks refused)
    as [Htags _].
  apply (Htags PhysicalSummary (PhysicalEvents "summary")).
  right. left. split; reflexivity.
Defined.

(** The authorized sources of u1, the provider answering 201. *)
Lemma forward_answers_witness :
  fst (forward (replies (Replied 201 score)) as_is (AuthorizedSources "u1")
         empty_world)
  = json 200 score.
Proof.
  destruct (forward_answers (replies (Replied 201 score)) as_is
              (AuthorizedSources "u1") empty_world) as (_ & Hreply & _).
  destruct (Hreply 201 score) as [Hout _]; [reflexivity|].
  apply Hout. reflexivity.
Defined.

(** A body with a user_id and nothing else. *)
Lemma userSchema_refuses_undated_and_unknown_witness :
  statusCode (fst (submitProfile (replies (Replied 200 (VObj [])))
                     calendar_date no_conversion rule_path refused
                     (VObj [("user_id", VStr "u1")]) profile_world))
  = 422.
Proof.
  destruct (userSchema_refuses_undated_and_unknown
              (replies (Replied 200 (VObj []))) calendar_date no_conversion
              rule_path refused [("user_id", VStr "u1")] profile_world)
    as (_ & Hout & _); [left; reflexivity|].
  exact Hout.
Defined.

(** The height of u1 is sent as the string 175. *)
Lemma submitProfile_numeric_string_is_refused_witness :
  fst (submitProfile (replies (Replied 200 (VObj []))) calendar_date
         reads_175 rule_path refused height_as_text profile_world)
  = json 500 (error_body refused)
  /\ users (snd (submitProfile (replies (Replied 200 (VObj [])))
                   calendar_date reads_175 rule_path refused height_as_text
                   profile_world))
     = users profile_world.
Proof.
  destruct (submitProfile_numeric_string_is_refused
              (replies (Replied 200 (VObj []))) calendar_date reads_175
              rule_path refused height_as_text "175" profile_world 200
              (VObj []))
    as (Hout & Husers & _);
    [reflexivity | left; reflexivity | reflexivity | reflexivity |].
  split; [exact Hout | exact Husers].
Defined.

(** Two secrets of thirteen characters with the same first eight, of
    which one takes two bytes. *)
Lemma debugEnv_shows_prefix_and_length_witness :
  debugEnv "/app" (mkEnv (Some "0a1b2c3d-uuid") (Some "clé-secrète-1") None
                     None)
  = debugEnv "/app" (mkEnv (Some "0a1b2c3d-uuid") (Some "clé-secrète-2")
                       None None).
Proof.
  destruct (debugEnv_shows_prefix_and_length "/app" (Some "0a1b2c3d-uuid")
              None None "clé-secrète-1" "clé-secrète-2") as [Hsame _];
    [discriminate | discriminate |].
  apply Hsame. split; reflexivity.
Defined.

(** /test-auth with no credentials, and with them. *)
Lemma testAuth_outcome_witness :
  testAuth (replies (Replied 200 score)) ticks midnight bare_env empty_world
  = (json 400 (missing_credentials bare_env), empty_world)
  /\ trace (snd (testAuth (replies (Replied 200 score)) ticks midnight
                   set_env empty_world))
     = [Rook (Get "/api/v1/client/users/status?up_to_date=2024-06-01")].
Proof.
  split.
  - destruct (testAuth_outcome (replies (Replied 200 score)) ticks midnight
                bare_env empty_world) as [Hbare _].
    apply Hbare. reflexivity.
  - destruct (testAuth_outcome (replies (Replied 200 score)) ticks midnight
                set_env empty_world) as [_ Hset].
    destruct Hset as (Htrace & _); [reflexivity|].
    exact Htrace.
Defined.

(** A test that the provider answers with 302. *)
Lemma testApi_passes_on_2xx_only_witness :
  t_success (fst (testApi midnight (answers (Replied 302 VNull)) counted
                    authorized_sources []))
  = false
  /\ t_status (fst (testApi midnight (answers (Replied 302 VNull)) counted
                      authorized_sources []))
     = VNum (302 # 1).
Proof.
  destruct (testApi_passes_on_2xx_only midnight (answers (Replied 302 VNull))
              counted authorized_sources []) as [_ Hredirect].
  destruct (Hredirect 302 VNull) as (Hfailed & Hstatus & _);
    [reflexivity | lia |].
  split; [exact Hfailed | exact Hstatus].
Defined.

(** The provider lists u7 first. *)
Lemma dashboard_picks_first_user_witness :
  d_realUserId (fst (dashboard midnight (answers (Replied 200 one_user))
                       counted no_length object_Object round_percent bare_env
                       []))
  = VStr "u7".
Proof.
  destruct (dashboard_picks_first_user midnight
              (answers (Replied 200 one_user)) counted no_length
              object_Object round_percent bare_env []) as [Hfirst _].
  destruct (Hfirst 200 [("users", VArr [VObj [("user_id", VStr "u7")]])]
              [("user_id", VStr "u7")] [])
    as [Hid _]; [reflexivity | reflexivity | reflexivity |].
  exact Hid.
Defined.

(** The same 302 in the smoke run. *)
Lemma smoke_testApi_passes_below_400_witness :
  k_success (smoke_testApi "AUTHORIZED SOURCES" (Replied 302 VNull)) = true.
Proof.
  destruct (smoke_testApi_passes_below_400 "AUTHORIZED SOURCES"
              (Replied 302 VNull)) as [Hpass _].
  apply Hpass. exists 302, VNull. split; [reflexivity | lia].
Defined.
